(** * Social-RAG: sentiment, virality, trend aggregation and retrieval

    A shallow embedding of the scoring and aggregation services of the
    Social-RAG code base (TypeScript), with the properties its design
    document states about them.

    Conventions of the embedding.
    - A finite JavaScript [number] is an exact rational ([Q]); counts that
      the code only ever adds up are integers ([Z]) or naturals.  IEEE-754
      rounding is not represented.  Every division is either by a value
      shown to be non-zero or goes through [js_div], which yields [NaN]
      and the infinities the way JavaScript does.
    - A JavaScript string is a [string] of 8-bit characters read as ASCII:
      case folding touches [A-Z] only and the white-space class is the
      ASCII part of [\s].
    - [async] functions are run to completion; a rejected promise and a
      thrown exception are the same [Throw].
    - Collaborators outside the code base (the store, the text generator,
      the lexicon scorer, the clock) are inputs of the functions that call
      them. *)

From Stdlib Require Import ZArith QArith Qminmax Qabs Lqa Lia.
From Stdlib Require Import List String Ascii Bool DecimalString.
From Stdlib Require Import Permutation Sorted.
Import ListNotations.

Set Implicit Arguments.

(* ================================================================== *)
(** * JavaScript primitives used by the services *)
(* ================================================================== *)

Module JS.

Local Open Scope Q_scope.

(** [Math.min], [Math.max] and [Math.abs] on finite numbers. *)
Abbreviation Math_min := Qmin (only parsing).
Abbreviation Math_max := Qmax (only parsing).
Abbreviation Math_abs := Qabs (only parsing).

(** An array length or a counter read as a number. *)
Definition Qnat (n : nat) : Q := inject_Z (Z.of_nat n).

(** [a < b] and [a > b] on finite numbers, as booleans. *)
Definition Qltb (a b : Q) : bool := negb (Qle_bool b a).
Definition Qgtb (a b : Q) : bool := Qltb b a.
Definition Qgeb (a b : Q) : bool := Qle_bool b a.

(** Numbers that a division by zero can produce. *)
Inductive number : Type :=
| Num (q : Q)
| PInf
| NInf
| NaN.

(** [a / b] for finite [a] and [b]. *)
Definition js_div (a b : Q) : number :=
  if Qeq_bool b 0 then
    (if Qeq_bool a 0 then NaN else if Qle_bool 0 a then PInf else NInf)
  else Num (a / b).

(** ** Exceptions *)

Inductive result (A : Type) : Type :=
| Ok (a : A)
| Throw (e : string).
Arguments Ok {A} a.
Arguments Throw {A} e.

Definition bind {A B} (r : result A) (k : A -> result B) : result B :=
  match r with
  | Ok a => k a
  | Throw e => Throw e
  end.

(** ** Strings *)

Definition is_upper (c : ascii) : bool :=
  ((65 <=? nat_of_ascii c) && (nat_of_ascii c <=? 90))%nat.

Definition lower_char (c : ascii) : ascii :=
  if is_upper c then ascii_of_nat (nat_of_ascii c + 32) else c.

(** [s.toLowerCase()] *)
Fixpoint toLowerCase (s : string) : string :=
  match s with
  | EmptyString => EmptyString
  | String c s' => String (lower_char c) (toLowerCase s')
  end.

(** The class [\s]: tab, line feed, vertical tab, form feed, carriage
    return and space. *)
Definition is_space (c : ascii) : bool :=
  let n := nat_of_ascii c in
  (((9 <=? n) && (n <=? 13)) || (n =? 32))%nat.

(** The class [\w]: letters, digits and the underscore. *)
Definition is_word_char (c : ascii) : bool :=
  let n := nat_of_ascii c in
  (((48 <=? n) && (n <=? 57)) || ((65 <=? n) && (n <=? 90))
   || ((97 <=? n) && (n <=? 122)) || (n =? 95))%nat.

Fixpoint rev_string (acc s : string) : string :=
  match s with
  | EmptyString => acc
  | String c s' => rev_string (String c acc) s'
  end.

(** [s.split(sep)] for a regular expression [sep] that matches the maximal
    non-empty runs of one character class.  [cur] is the piece being read,
    last character first; [in_gap] says that the previous character was a
    separator.  A leading or a trailing run leaves an empty piece, and the
    empty string splits to one empty piece. *)
Fixpoint split_runs (sep : ascii -> bool) (in_gap : bool) (cur s : string)
  : list string :=
  match s with
  | EmptyString => [rev_string EmptyString cur]
  | String c s' =>
      if sep c then
        (if in_gap then split_runs sep true EmptyString s'
         else rev_string EmptyString cur :: split_runs sep true EmptyString s')
      else split_runs sep false (String c cur) s'
  end.

(** [s.split(/\s+/)] *)
Definition split_ws (s : string) : list string :=
  split_runs is_space false EmptyString s.

(** [s.includes(sub)] *)
Fixpoint includes (s sub : string) : bool :=
  if String.prefix sub s then true
  else match s with
       | EmptyString => false
       | String _ s' => includes s' sub
       end.

(** [s.startsWith(p)] *)
Definition startsWith (s p : string) : bool := String.prefix p s.

(** [arr.includes(x)] on an array of strings. *)
Definition array_includes (arr : list string) (x : string) : bool :=
  existsb (String.eqb x) arr.

(** [arr.join(sep)] *)
Fixpoint join (sep : string) (arr : list string) : string :=
  match arr with
  | [] => EmptyString
  | [x] => x
  | x :: rest => (x ++ sep ++ join sep rest)%string
  end.

(** [`${n}`] for an integer [n]. *)
Definition string_of_Z (n : Z) : string := NilZero.string_of_int (Z.to_int n).

(** ** Arrays *)

(** [set.add(x)] on a [Set] of strings, kept in insertion order. *)
Definition set_add (set : list string) (x : string) : list string :=
  if array_includes set x then set else set ++ [x].

(** [arr.slice(0, n)] *)
Definition slice0 {A} (n : nat) (arr : list A) : list A := firstn n arr.

(** [arr.sort(cmp)]: the sort is stable (ECMAScript 2019), so it is the
    insertion sort that keeps an element in front of the later elements
    it ties with.  [cmp a b <= 0] keeps [a] before [b]. *)
Section Sort.
Context {A : Type} (cmp : A -> A -> Q).

Fixpoint sort_insert (a : A) (sorted : list A) : list A :=
  match sorted with
  | [] => [a]
  | b :: rest =>
      if Qle_bool (cmp a b) 0 then a :: b :: rest
      else b :: sort_insert a rest
  end.

Fixpoint sort (arr : list A) : list A :=
  match arr with
  | [] => []
  | a :: rest => sort_insert a (sort rest)
  end.
End Sort.

End JS.

Import JS.

(* ================================================================== *)
(** * Data model (types/social-media.ts) *)
(* ================================================================== *)

Inductive SocialPlatform : Type :=
| twitter | reddit | instagram | tiktok | youtube
| linkedin | facebook | discord | telegram.

Scheme Equality for SocialPlatform.

Inductive TrendCategory : Type :=
| technology | politics | entertainment | sports | business | health
| education | environment | social_justice | memes | viral_challenges
| breaking_news.

(** The labels ['positive'], ['negative'], ['neutral'] and ['mixed']. *)
Inductive SentimentScore : Type :=
| Positive | Negative | Neutral | Mixed.

Scheme Equality for SentimentScore.

Record Emotions : Type := {
  joy : Q; sadness : Q; anger : Q; fear : Q; surprise : Q; disgust : Q
}.

Record SentimentAnalysis : Type := {
  score : Q;
  magnitude : Q;
  label : SentimentScore;
  emotions : Emotions;
  confidence : Q
}.

(** Equality of two analyses as numbers: field by field, [==] on the
    rationals. *)
Definition Emotions_equiv (a b : Emotions) : Prop :=
  (joy a == joy b /\ sadness a == sadness b /\ anger a == anger b
   /\ fear a == fear b /\ surprise a == surprise b
   /\ disgust a == disgust b)%Q.

Definition SentimentAnalysis_equiv (a b : SentimentAnalysis) : Prop :=
  (score a == score b)%Q /\ (magnitude a == magnitude b)%Q
  /\ label a = label b /\ Emotions_equiv (emotions a) (emotions b)
  /\ (confidence a == confidence b)%Q.

Record Engagement : Type := {
  likes : Z;
  shares : Z;
  comments : Z;
  views : option Z
}.

Record Metadata : Type := {
  hashtags : list string;
  mentions : list string;
  urls : list string;
  language : string
}.

Module Post.
Record t : Type := {
  id : string;
  platform : SocialPlatform;
  content : string;
  author : string;
  authorId : string;
  timestamp : Z;             (* [timestamp.getTime()], milliseconds *)
  engagement : Engagement;
  metadata : Metadata;
  sentiment : SentimentAnalysis;
  viralityScore : Q;
  createdAt : Z;
  updatedAt : Z
}.
End Post.
Abbreviation SocialMediaPost := Post.t.

(** A trend.  The [influencers], [timeline] and [viralityFactors] of the
    interface are not represented: none of the functions embedded below
    reads them. *)
Module Trend.
Record Metrics : Type := {
  mentions : Z;
  engagement : Z;
  reach : Z;
  growthRate : Q;
  velocity : Q
}.
Record Sentiment : Type := {
  positive : number;
  negative : number;
  neutral : number;
  overall : SentimentScore
}.
Record t : Type := {
  id : string;
  topic : string;
  hashtag : option string;
  platform : SocialPlatform;
  category : TrendCategory;
  metrics : Metrics;
  sentiment : Sentiment;
  relatedTopics : list string;
  createdAt : Z;
  updatedAt : Z
}.
End Trend.

Module CulturalContext.
Record t : Type := {
  id : string;
  topic : string;
  description : string;
  relevance : Q;
  relatedEvents : list string;
  historicalContext : string
}.
End CulturalContext.

Record QueryFilters : Type := {
  platforms : option (list SocialPlatform);
  dateRange : option (Z * Z);
  sentiment : option (list SentimentScore);
  categories : option (list TrendCategory);
  minEngagement : option Q;
  languages : option (list string)
}.

(** The object literal [{}] read as a [QueryFilters]. *)
Definition no_filters : QueryFilters :=
  {| platforms := None; dateRange := None; sentiment := None;
     categories := None; minEngagement := None; languages := None |}.

Inductive Source : Type :=
| SourcePost (post : Post.t)
| SourceTrend (trend : Trend.t)
| SourceContext (context : CulturalContext.t).

(** A retrieval hit.  The [keyInsights] of the interface are not
    represented. *)
Module RAGResult.
Record t : Type := {
  id : string;
  content : string;
  source : Source;
  relevance : Q;
  confidence : Q;
  summary : string;
  relatedContent : list string
}.
End RAGResult.

(** Parsed JSON, as [response.json()] returns it. *)
Unset Elimination Schemes.
Inductive json : Type :=
| JNull
| JBool (b : bool)
| JNum (q : Q)
| JStr (s : string)
| JArr (items : list json)
| JObj (fields : list (string * json)).
Set Elimination Schemes.

(** A value held where the interface says [RAGResult[]] but the code says
    [any]. *)
Inductive any : Type :=
| Results (rs : list RAGResult.t)
| Json (j : json).

Module RAGQuery.
Record Meta : Type := {
  searchTime : Z;
  totalResults : option json;   (* [None] is [undefined] *)
  filters : QueryFilters
}.
Record t : Type := {
  id : string;
  query : string;
  results : any;
  metadata : Meta;
  createdAt : Z
}.
End RAGQuery.

(* ================================================================== *)
(** * Effects: the clock, the console and the query log *)
(* ================================================================== *)

Module Eff.

(** What the services can observe and change outside their arguments. *)
Record World : Type := {
  clock : nat -> Z;               (* the successive readings of the clock *)
  ticks : nat;                    (* how many readings were taken *)
  console : list string;          (* [console.error] lines, latest first *)
  rag_queries : list RAGQuery.t   (* rows of the table [rag_queries] *)
}.

(** A computation that may read and change the world and may throw. *)
Definition M (A : Type) : Type := World -> result A * World.

Definition ret {A} (a : A) : M A := fun w => (Ok a, w).

Definition throw {A} (e : string) : M A := fun w => (Throw e, w).

Definition mbind {A B} (c : M A) (k : A -> M B) : M B :=
  fun w =>
    match c w with
    | (Ok a, w') => k a w'
    | (Throw e, w') => (Throw e, w')
    end.

(** [try { body } catch (error) { handler(error) }] *)
Definition catch {A} (body : M A) (handler : string -> M A) : M A :=
  fun w =>
    match body w with
    | (Ok a, w') => (Ok a, w')
    | (Throw e, w') => handler e w'
    end.

Definition lift {A} (r : result A) : M A := fun w => (r, w).

(** [Date.now()], and [new Date()] read through [getTime()]. *)
Definition Date_now : M Z :=
  fun w =>
    (Ok (clock w (ticks w)),
     {| clock := clock w; ticks := S (ticks w);
        console := console w; rag_queries := rag_queries w |}).

(** [console.error(msg, ...)]; the line kept is [msg]. *)
Definition console_error (msg : string) : M unit :=
  fun w =>
    (Ok tt,
     {| clock := clock w; ticks := ticks w;
        console := msg :: console w; rag_queries := rag_queries w |}).

(** A successful insert into [rag_queries]. *)
Definition insert_rag_query (row : RAGQuery.t) : M unit :=
  fun w =>
    (Ok tt,
     {| clock := clock w; ticks := ticks w;
        console := console w; rag_queries := rag_queries w ++ [row] |}).

(** [for (const x of xs) { acc = body(acc, x) }] *)
Fixpoint for_of {A B} (xs : list A) (acc : B) (body : B -> A -> M B) : M B :=
  match xs with
  | [] => ret acc
  | x :: rest => mbind (body acc x) (fun acc' => for_of rest acc' body)
  end.

End Eff.

Import Eff.

Declare Scope eff_scope.
Delimit Scope eff_scope with eff.
Notation "x <- c ;; k" := (mbind c (fun x => k))
  (at level 61, c at next level, right associativity) : eff_scope.
Notation "c ;;; k" := (mbind c (fun _ => k))
  (at level 61, right associativity) : eff_scope.

(** What the store answers to a [select]: the [{ data, error }] pair. *)
Record PostgrestResponse (A : Type) : Type := {
  data : option (list A);
  error : option string
}.

(* ================================================================== *)
(** * Virality scorer (services/virality-analysis.ts) *)
(* ================================================================== *)

Module Virality.

Local Open Scope Q_scope.

Definition calculateContentScore (metadata : Metadata) : Q :=
  let score := 0 in
  (* Hashtag presence *)
  let score :=
    if (0 <? List.length (hashtags metadata))%nat
    then score + Math_min 0.3 (Qnat (List.length (hashtags metadata)) * 0.1)
    else score in
  (* Mention presence *)
  let score :=
    if (0 <? List.length (mentions metadata))%nat
    then score + Math_min 0.2 (Qnat (List.length (mentions metadata)) * 0.05)
    else score in
  (* URL presence *)
  let score :=
    if (0 <? List.length (urls metadata))%nat then score + 0.1 else score in
  (* Language factor *)
  let score :=
    if String.eqb (language metadata) "en" then score + 0.1 else score in
  Math_min 1 score.

Definition calculateViralityScore
    (engagement : Engagement) (sentiment : SentimentAnalysis)
    (metadata : Metadata) : Q :=
  let score := 0 in
  (* Engagement factors (40% weight) *)
  let totalEngagement :=
    (likes engagement + shares engagement + comments engagement)%Z in
  let engagementScore := Math_min 1 (inject_Z totalEngagement / 10000) in
  let score := score + engagementScore * 0.4 in
  (* Share velocity (25% weight) *)
  let shareVelocity :=
    inject_Z (shares engagement) / Math_max 1 (inject_Z (likes engagement)) in
  let velocityScore := Math_min 1 (shareVelocity / 0.5) in
  let score := score + velocityScore * 0.25 in
  (* Sentiment factors (20% weight) *)
  let sentimentScore :=
    match label sentiment with
    | Positive => 0.8
    | Negative => 0.6
    | _ => 0.4
    end in
  let score := score + sentimentScore * 0.2 in
  (* Content factors (15% weight) *)
  let contentScore := calculateContentScore metadata in
  let score := score + contentScore * 0.15 in
  Math_min 1 (Math_max 0 score).

End Virality.

(* ================================================================== *)
(** * Sentiment scorer (services/sentiment-analysis.ts) *)
(* ================================================================== *)

Module SentimentScorer.

Local Open Scope Q_scope.
Local Open Scope eff_scope.

(** ** Emotion keywords *)

(** Case-insensitive test that [word] starts [text] (flag [i]). *)
Fixpoint ci_prefix (word text : string) : bool :=
  match word, text with
  | EmptyString, _ => true
  | String _ _, EmptyString => false
  | String a word', String b text' =>
      Ascii.eqb (lower_char a) (lower_char b) && ci_prefix word' text'
  end.

Definition head_is_word (s : string) : bool :=
  match s with
  | EmptyString => false
  | String c _ => is_word_char c
  end.

Fixpoint last_is_word (prev : bool) (s : string) : bool :=
  match s with
  | EmptyString => prev
  | String c s' => last_is_word (is_word_char c) s'
  end.

Fixpoint drop (n : nat) (s : string) : string :=
  match n, s with
  | O, _ => s
  | S _, EmptyString => EmptyString
  | S k, String _ s' => drop k s'
  end.

(** Does [\bword\b] match at the head of [text], where [prev] tells
    whether the character in front of [text] is a word character? *)
Definition matches_here (word : string) (prev : bool) (text : string) : bool :=
  xorb prev (head_is_word text)
  && ci_prefix word text
  && xorb (last_is_word prev word)
          (head_is_word (drop (String.length word) text)).

(** [text.match(new RegExp(`\\b${word}\\b`, 'gi')).length], or 0 when
    there is no match, for a non-empty [word].  [skip] counts the
    characters of the previous match still to step over. *)
Fixpoint count_matches (word : string) (prev : bool) (skip : nat)
    (text : string) : nat :=
  match text with
  | EmptyString => O
  | String c rest =>
      match skip with
      | S k => count_matches word (is_word_char c) k rest
      | O =>
          if matches_here word prev text
          then S (count_matches word (is_word_char c)
                    (String.length word - 1) rest)
          else count_matches word (is_word_char c) O rest
      end
  end.

Definition calculateEmotionScore (text : string) (emotionWords : list string)
  : Q :=
  let score :=
    fold_left
      (fun score word => (score + count_matches word false O text)%nat)
      emotionWords O in
  Math_min 1 (Qnat score / 5).

Definition joyWords : list string :=
  ["happy"; "joy"; "excited"; "great"; "amazing"; "wonderful"; "love";
   "lol"; "haha"]%string.
Definition sadnessWords : list string :=
  ["sad"; "depressed"; "crying"; "miss"; "lost"; "alone"; "hurt"]%string.
Definition angerWords : list string :=
  ["angry"; "mad"; "hate"; "furious"; "rage"; "annoyed"; "fuck"]%string.
Definition fearWords : list string :=
  ["scared"; "afraid"; "terrified"; "worried"; "anxious"; "panic"]%string.
Definition surpriseWords : list string :=
  ["wow"; "omg"; "unexpected"; "shocked"; "surprised"; "amazing"]%string.
Definition disgustWords : list string :=
  ["disgusting"; "gross"; "nasty"; "awful"; "terrible"]%string.

Definition analyzeEmotions (text : string) : Emotions :=
  let lowerText := toLowerCase text in
  {| joy := calculateEmotionScore lowerText joyWords;
     sadness := calculateEmotionScore lowerText sadnessWords;
     anger := calculateEmotionScore lowerText angerWords;
     fear := calculateEmotionScore lowerText fearWords;
     surprise := calculateEmotionScore lowerText surpriseWords;
     disgust := calculateEmotionScore lowerText disgustWords |}.

(** ** The scorer *)

(** The value returned from the [catch] block. *)
Definition neutralDefault : SentimentAnalysis :=
  {| score := 0;
     magnitude := 0;
     label := Neutral;
     emotions := {| joy := 0; sadness := 0; anger := 0;
                    fear := 0; surprise := 0; disgust := 0 |};
     confidence := 0.5 |}.

Section Scorer.

(** The lexicon scorer of the [sentiment] package: [analyze text] is the
    [score] field of [sentiment.analyze(text)], or the exception that
    the call raises. *)
Variable analyze : string -> result Q.

(** The body of the [try] block. *)
Definition analyzeSentiment_try (text : string) : result SentimentAnalysis :=
  bind (analyze text) (fun result_score =>
    let score := Math_max (-1) (Math_min 1 (result_score / 10)) in
    let label :=
      if Qgtb score 0.1 then Positive
      else if Qltb score (-0.1) then Negative
      else Neutral in
    let emotions := analyzeEmotions text in
    let confidence :=
      Math_min 0.95 (Math_max 0.5 (Math_abs score * 0.8 + 0.2)) in
    Ok {| score := score;
          magnitude := Math_abs result_score;
          label := label;
          emotions := emotions;
          confidence := confidence |}).

Definition analyzeSentiment (text : string) : M SentimentAnalysis :=
  catch
    (lift (analyzeSentiment_try text))
    (fun _ =>
       console_error "Error analyzing sentiment:" ;;; ret neutralDefault).

End Scorer.

End SentimentScorer.

(* ================================================================== *)
(** * Trend aggregator (services/trend-analysis.ts) *)
(* ================================================================== *)

Module TrendAnalysis.

Local Open Scope Q_scope.
Local Open Scope eff_scope.

Inductive TimeWindow : Type := hour | day | week.

(** [likes + shares + comments] of a post. *)
Definition interactions (post : Post.t) : Z :=
  (likes (Post.engagement post) + shares (Post.engagement post)
   + comments (Post.engagement post))%Z.

(** ** Topics *)

Fixpoint string_filter (keep : ascii -> bool) (s : string) : string :=
  match s with
  | EmptyString => EmptyString
  | String c s' =>
      if keep c then String c (string_filter keep s')
      else string_filter keep s'
  end.

(** [`${words[i]} ${words[i + 1]}`] for every [i < words.length - 1]. *)
Fixpoint pairs (words : list string) : list string :=
  match words with
  | a :: (b :: _) as rest => (a ++ " " ++ b)%string :: pairs rest
  | _ => []
  end.

(** [`${words[i]} ${words[i + 1]} ${words[i + 2]}`] for every
    [i < words.length - 2]. *)
Fixpoint triples (words : list string) : list string :=
  match words with
  | a :: (b :: c :: _) as rest =>
      (a ++ " " ++ b ++ " " ++ c)%string :: triples rest
  | _ => []
  end.

Definition extractKeyPhrases (content : string) : list string :=
  let words :=
    filter (fun word => (3 <? String.length word)%nat)
      (split_ws
         (string_filter (fun c => is_word_char c || is_space c)
            (toLowerCase content))) in
  let phrases := pairs words ++ triples words in
  slice0 10 phrases.

Definition extractTopics (post : Post.t) : list string :=
  let topics :=
    fold_left (fun topics hashtag => set_add topics (toLowerCase hashtag))
      (hashtags (Post.metadata post)) [] in
  let keyPhrases := extractKeyPhrases (Post.content post) in
  fold_left (fun topics phrase => set_add topics (toLowerCase phrase))
    keyPhrases topics.

(** The property names that the object literal [{}] inherits; each holds a
    function or an object, none of which has a [push] method. *)
Definition inherited_keys : list string :=
  ["constructor"; "__proto__"; "hasOwnProperty"; "isPrototypeOf";
   "propertyIsEnumerable"; "toLocaleString"; "toString"; "valueOf";
   "__defineGetter__"; "__defineSetter__"; "__lookupGetter__";
   "__lookupSetter__"]%string.

(** [groups[topic].push(post)] on own properties, kept in creation order. *)
Fixpoint push_to_group (groups : list (string * list Post.t))
    (topic : string) (post : Post.t) : list (string * list Post.t) :=
  match groups with
  | [] => [(topic, [post])]
  | (key, members) :: rest =>
      if String.eqb key topic then (key, members ++ [post]) :: rest
      else (key, members) :: push_to_group rest topic post
  end.

(** [if (!groups[topic]) groups[topic] = []; groups[topic].push(post)] *)
Definition add_to_group (groups : list (string * list Post.t))
    (topic : string) (post : Post.t)
  : result (list (string * list Post.t)) :=
  if array_includes inherited_keys topic
  then Throw "TypeError: groups[topic].push is not a function"
  else Ok (push_to_group groups topic post).

Definition groupPostsByTopic (posts : list Post.t)
  : result (list (string * list Post.t)) :=
  fold_left
    (fun groups post =>
       fold_left
         (fun groups topic =>
            bind groups (fun groups => add_to_group groups topic post))
         (extractTopics post) groups)
    posts (Ok []).

(** ** Enumeration order of [Object.entries] *)

Definition is_digit (c : ascii) : bool :=
  ((48 <=? nat_of_ascii c) && (nat_of_ascii c <=? 57))%nat.

Fixpoint digits_value (acc : N) (s : string) : option N :=
  match s with
  | EmptyString => Some acc
  | String c s' =>
      if is_digit c
      then digits_value (acc * 10 + N.of_nat (nat_of_ascii c - 48))%N s'
      else None
  end.

(** The array index that a property key spells, if any: a decimal numeral
    without leading zero below [2^32 - 1]. *)
Definition array_index (key : string) : option N :=
  match key with
  | EmptyString => None
  | String c rest =>
      if Ascii.eqb c "0" && negb (String.eqb rest EmptyString) then None
      else match digits_value 0%N key with
           | Some n => if (n <? 2 ^ 32 - 1)%N then Some n else None
           | None => None
           end
  end.

Definition index_or_zero (key : string) : Q :=
  match array_index key with
  | Some n => inject_Z (Z.of_N n)
  | None => 0
  end.

Definition is_index (key : string) : bool :=
  match array_index key with Some _ => true | None => false end.

(** [Object.entries(obj)]: array indices in ascending order, then the other
    keys in creation order. *)
Definition Object_entries {A} (obj : list (string * A)) : list (string * A) :=
  sort (fun a b => index_or_zero (fst a) - index_or_zero (fst b))
       (filter (fun entry => is_index (fst entry)) obj)
  ++ filter (fun entry => negb (is_index (fst entry))) obj.

(** ** Analysis of one group *)

Definition calculateTrendMetrics (posts : list Post.t)
  : result Trend.Metrics :=
  let totalMentions := List.length posts in
  let totalEngagement :=
    fold_left (fun sum post => (sum + interactions post)%Z) posts 0%Z in
  let totalReach :=
    fold_left
      (fun sum post =>
         (sum + match views (Post.engagement post) with
                | Some v => v
                | None => 0
                end)%Z)
      posts 0%Z in
  match posts with
  | [] => Throw "TypeError: Cannot read properties of undefined"
  | first :: _ =>
      let timeSpan :=
        (Post.timestamp first - Post.timestamp (List.last posts first))%Z in
      let hoursSpan := inject_Z timeSpan / inject_Z (1000 * 60 * 60) in
      let growthRate := Qnat totalMentions / Math_max 1 hoursSpan in
      let velocity := inject_Z totalEngagement / Math_max 1 hoursSpan in
      Ok {| Trend.mentions := Z.of_nat totalMentions;
            Trend.engagement := totalEngagement;
            Trend.reach := totalReach;
            Trend.growthRate := growthRate;
            Trend.velocity := velocity |}
  end.

(** The three counters of [analyzeSentimentDistribution] after the loop. *)
Definition count_labels (posts : list Post.t) : nat * nat * nat :=
  fold_left
    (fun '(positive, negative, neutral) post =>
       match label (Post.sentiment post) with
       | Positive => (S positive, negative, neutral)
       | Negative => (positive, S negative, neutral)
       | _ => (positive, negative, S neutral)
       end)
    posts (O, O, O).

Definition analyzeSentimentDistribution (posts : list Post.t)
  : Trend.Sentiment :=
  let '(positive, negative, neutral) := count_labels posts in
  let total := List.length posts in
  let overall :=
    if (negative <? positive)%nat then Positive
    else if (positive <? negative)%nat then Negative
    else Neutral in
  {| Trend.positive := js_div (Qnat positive) (Qnat total);
     Trend.negative := js_div (Qnat negative) (Qnat total);
     Trend.neutral := js_div (Qnat neutral) (Qnat total);
     Trend.overall := overall |}.

Definition findRelatedTopics (topic : string) (posts : list Post.t)
  : list string :=
  let relatedTopics :=
    fold_left
      (fun related post =>
         fold_left
           (fun related hashtag =>
              if negb (String.eqb (toLowerCase hashtag) (toLowerCase topic))
              then set_add related (toLowerCase hashtag)
              else related)
           (hashtags (Post.metadata post)) related)
      posts [] in
  slice0 10 relatedTopics.

Definition categorizeTrend (topic : string) (posts : list Post.t)
  : TrendCategory :=
  let content := toLowerCase (join " " (map Post.content posts)) in
  if includes content "ai" || includes content "tech"
     || includes content "software" then technology
  else if includes content "politics" || includes content "election"
          || includes content "government" then politics
  else if includes content "movie" || includes content "music"
          || includes content "celebrity" then entertainment
  else if includes content "sport" || includes content "game"
          || includes content "team" then sports
  else if includes content "business" || includes content "company"
          || includes content "market" then business
  else if includes content "health" || includes content "medical"
          || includes content "covid" then health
  else if includes content "climate" || includes content "environment"
          || includes content "green" then environment
  else if includes content "justice" || includes content "protest"
          || includes content "rights" then social_justice
  else memes.

(** [platformCounts.set(p, (platformCounts.get(p) || 0) + 1)] on a [Map]
    kept in insertion order. *)
Fixpoint count_platform (counts : list (SocialPlatform * nat))
    (p : SocialPlatform) : list (SocialPlatform * nat) :=
  match counts with
  | [] => [(p, 1%nat)]
  | (q, n) :: rest =>
      if SocialPlatform_beq q p then (q, S n) :: rest
      else (q, n) :: count_platform rest p
  end.

Definition determinePrimaryPlatform (posts : list Post.t) : SocialPlatform :=
  let platformCounts :=
    fold_left (fun counts post => count_platform counts (Post.platform post))
      posts [] in
  snd
    (fold_left
       (fun '(maxCount, primaryPlatform) '(platform, count) =>
          if (maxCount <? count)%nat then (count, platform)
          else (maxCount, primaryPlatform))
       platformCounts (O, twitter)).

Definition isSignificantTrend (trend : Trend.t) : bool :=
  (10 <=? Trend.mentions (Trend.metrics trend))%Z
  && Qgeb (Trend.velocity (Trend.metrics trend)) 100
  && Qgeb (Trend.growthRate (Trend.metrics trend)) 2.

(** [analyzeTrend(topic, posts)]; [None] is [null].  The influencers, the
    timeline and the virality factors are computed between the related
    topics and the category; on posts with valid dates none of the three
    throws, and of what they do only the in-place sort of [posts] by
    [identifyTrendViralityFactors] is visible in what follows. *)
Definition analyzeTrend (topic : string) (posts : list Post.t)
  : M (option Trend.t) :=
  catch
    (metrics <- lift (calculateTrendMetrics posts) ;;
     let sentiment := analyzeSentimentDistribution posts in
     let relatedTopics := findRelatedTopics topic posts in
     let posts :=
       sort (fun a b => inject_Z (interactions b) - inject_Z (interactions a))
            posts in
     let category := categorizeTrend topic posts in
     now <- Date_now ;;
     let platform := determinePrimaryPlatform posts in
     createdAt <- Date_now ;;
     updatedAt <- Date_now ;;
     ret (Some {| Trend.id :=
                    ("trend_" ++ topic ++ "_" ++ string_of_Z now)%string;
                  Trend.topic := topic;
                  Trend.hashtag :=
                    if startsWith topic "#" then Some topic else None;
                  Trend.platform := platform;
                  Trend.category := category;
                  Trend.metrics := metrics;
                  Trend.sentiment := sentiment;
                  Trend.relatedTopics := relatedTopics;
                  Trend.createdAt := createdAt;
                  Trend.updatedAt := updatedAt |}))
    (fun _ => console_error "Error analyzing trend:" ;;; ret None).

(** ** The service *)

Section Service.

(** The store: [select_posts_since startTime] is the answer to the
    query for the posts with [timestamp >= startTime], latest first. *)
Variable select_posts_since : Z -> PostgrestResponse Post.t.

Definition getRecentPosts (timeWindow : TimeWindow) : M (list Post.t) :=
  now <- Date_now ;;
  let startTime :=
    match timeWindow with
    | hour => (now - 60 * 60 * 1000)%Z
    | day => (now - 24 * 60 * 60 * 1000)%Z
    | week => (now - 7 * 24 * 60 * 60 * 1000)%Z
    end in
  let reply := select_posts_since startTime in
  match error reply with
  | Some e => throw e
  | None => ret (match data reply with Some rows => rows | None => [] end)
  end.

(** One turn of the loop over the topic groups. *)
Definition consider_group (trends : list Trend.t)
    (entry : string * list Post.t) : M (list Trend.t) :=
  let '(topic, groupPosts) := entry in
  if (5 <=? List.length groupPosts)%nat then
    trend <- analyzeTrend topic groupPosts ;;
    match trend with
    | Some trend =>
        if isSignificantTrend trend then ret (trends ++ [trend])
        else ret trends
    | None => ret trends
    end
  else ret trends.

Definition identifyTrends (timeWindow : TimeWindow) : M (list Trend.t) :=
  catch
    (posts <- getRecentPosts timeWindow ;;
     topicGroups <- lift (groupPostsByTopic posts) ;;
     trends <- for_of (Object_entries topicGroups) [] consider_group ;;
     ret (sort
            (fun a b =>
               Trend.velocity (Trend.metrics b)
               - Trend.velocity (Trend.metrics a))
            trends))
    (fun _ => console_error "Error identifying trends:" ;;; ret []).

End Service.

End TrendAnalysis.

(* ================================================================== *)
(** * Retrieval and query service (services/rag-service.ts) *)
(* ================================================================== *)

Module RAG.

Local Open Scope Q_scope.
Local Open Scope eff_scope.

Definition dquote : string := String (ascii_of_nat 34) EmptyString.

Definition calculateRelevance (query content : string) : Q :=
  let queryWords := split_ws (toLowerCase query) in
  let contentWords := split_ws (toLowerCase content) in
  let matches :=
    fold_left
      (fun matches queryWord =>
         if existsb
              (fun word => includes word queryWord || includes queryWord word)
              contentWords
         then S matches
         else matches)
      queryWords O in
  Qnat matches / Qnat (List.length queryWords).

(** The class [[.!?]]. *)
Definition is_sentence_end (c : ascii) : bool :=
  let n := nat_of_ascii c in ((n =? 46) || (n =? 33) || (n =? 63))%nat.

(** [s.trim().length > 0] *)
Fixpoint has_text (s : string) : bool :=
  match s with
  | EmptyString => false
  | String c s' => negb (is_space c) || has_text s'
  end.

Definition generateSummary (content : string) : string :=
  let sentences :=
    filter has_text (split_runs is_sentence_end false EmptyString content) in
  (join ". " (slice0 2 sentences) ++ ".")%string.

(** The hit built for a post, a trend and a context record. *)
Definition post_result (query : string) (post : Post.t) : RAGResult.t :=
  {| RAGResult.id := ("post_" ++ Post.id post)%string;
     RAGResult.content := Post.content post;
     RAGResult.source := SourcePost post;
     RAGResult.relevance := calculateRelevance query (Post.content post);
     RAGResult.confidence := 0.8;
     RAGResult.summary := generateSummary (Post.content post);
     RAGResult.relatedContent := hashtags (Post.metadata post) |}.

Definition trend_result (query : string) (trend : Trend.t) : RAGResult.t :=
  {| RAGResult.id := ("trend_" ++ Trend.id trend)%string;
     RAGResult.content :=
       (Trend.topic trend ++ ": "
        ++ string_of_Z (Trend.mentions (Trend.metrics trend)) ++ " mentions, "
        ++ string_of_Z (Trend.engagement (Trend.metrics trend))
        ++ " engagement")%string;
     RAGResult.source := SourceTrend trend;
     RAGResult.relevance := calculateRelevance query (Trend.topic trend);
     RAGResult.confidence := 0.9;
     RAGResult.summary :=
       ("Trending topic " ++ dquote ++ Trend.topic trend ++ dquote ++ " with "
        ++ string_of_Z (Trend.mentions (Trend.metrics trend))
        ++ " mentions")%string;
     RAGResult.relatedContent := Trend.relatedTopics trend |}.

Definition context_result (query : string) (context : CulturalContext.t)
  : RAGResult.t :=
  {| RAGResult.id := ("context_" ++ CulturalContext.id context)%string;
     RAGResult.content := CulturalContext.description context;
     RAGResult.source := SourceContext context;
     RAGResult.relevance :=
       calculateRelevance query (CulturalContext.description context);
     RAGResult.confidence := 0.85;
     RAGResult.summary := CulturalContext.description context;
     RAGResult.relatedContent := CulturalContext.relatedEvents context |}.

(** [x.length] for a value of type [any]; [None] is [undefined]. *)
Definition length_of (x : any) : result (option json) :=
  match x with
  | Results rs => Ok (Some (JNum (Qnat (List.length rs))))
  | Json (JArr items) => Ok (Some (JNum (Qnat (List.length items))))
  | Json (JStr s) => Ok (Some (JNum (Qnat (String.length s))))
  | Json (JObj fields) =>
      Ok (option_map snd
            (find (fun field => String.eqb (fst field) "length") fields))
  | Json JNull => Throw "TypeError: Cannot read properties of null"
  | Json _ => Ok None
  end.

(** An HTTP response as [fetchHuggingFace] reads it: the [ok] flag and
    what [response.json()] gives. *)
Record Response : Type := {
  ok : bool;
  body : result json
}.

(** What the store answers to the insert of [saveQuery]. *)
Inductive InsertOutcome : Type :=
| Inserted
| Rejected (error : string)   (* [{ error }] with an error *)
| Failed (exn : string).      (* the call throws *)

(** The collaborators of the service. *)
Record Collaborators : Type := {
  (* answers of the store to the three searches *)
  select_posts : string -> option QueryFilters -> PostgrestResponse Post.t;
  select_trends : string -> option QueryFilters -> PostgrestResponse Trend.t;
  select_contexts :
    string -> option QueryFilters -> PostgrestResponse CulturalContext.t;
  (* [fetch('http://localhost:3001/huggingface', ...)] for a prompt and a
     model *)
  post_huggingface : string -> string -> result Response;
  (* the store's answer to an insert into [rag_queries] *)
  insert_outcome : RAGQuery.t -> InsertOutcome
}.

Section Service.

Variable env : Collaborators.

(** lib/huggingface-proxy.ts *)
Definition fetchHuggingFace (prompt : string) : result json :=
  let model := "gpt2"%string in
  bind (post_huggingface env prompt model) (fun response =>
    if negb (ok response) then Throw "Hugging Face proxy error"
    else body response).

Definition searchPosts (query : string) (filters : option QueryFilters)
  : M (list Post.t) :=
  let reply := select_posts env query filters in
  match error reply with
  | Some _ => console_error "Error searching posts:" ;;; ret []
  | None => ret (match data reply with Some rows => rows | None => [] end)
  end.

Definition searchTrends (query : string) (filters : option QueryFilters)
  : M (list Trend.t) :=
  let reply := select_trends env query filters in
  match error reply with
  | Some _ => console_error "Error searching trends:" ;;; ret []
  | None => ret (match data reply with Some rows => rows | None => [] end)
  end.

Definition searchCulturalContext (query : string)
    (filters : option QueryFilters) : M (list CulturalContext.t) :=
  let reply := select_contexts env query filters in
  match error reply with
  | Some _ => console_error "Error searching cultural context:" ;;; ret []
  | None => ret (match data reply with Some rows => rows | None => [] end)
  end.

Definition retrieveContent (query : string) (filters : option QueryFilters)
  : M (list RAGResult.t) :=
  let results := [] in
  posts <- searchPosts query filters ;;
  let results := results ++ map (post_result query) posts in
  trends <- searchTrends query filters ;;
  let results := results ++ map (trend_result query) trends in
  contexts <- searchCulturalContext query filters ;;
  let results := results ++ map (context_result query) contexts in
  ret (slice0 10
         (sort (fun a b => RAGResult.relevance b - RAGResult.relevance a)
               results)).

(** The argument [results] is not used. *)
Definition generateInsights (query : string) (results : list RAGResult.t)
  : M any :=
  response <- lift (fetchHuggingFace query) ;;
  ret (Json response).

Definition query (query : string) (filters : option QueryFilters)
  : M RAGQuery.t :=
  startTime <- Date_now ;;
  catch
    (results <- retrieveContent query filters ;;
     enhancedResults <- generateInsights query results ;;
     now <- Date_now ;;
     let searchTime := (now - startTime)%Z in
     id_time <- Date_now ;;
     totalResults <- lift (length_of enhancedResults) ;;
     createdAt <- Date_now ;;
     ret {| RAGQuery.id := ("query_" ++ string_of_Z id_time)%string;
            RAGQuery.query := query;
            RAGQuery.results := enhancedResults;
            RAGQuery.metadata :=
              {| RAGQuery.searchTime := searchTime;
                 RAGQuery.totalResults := totalResults;
                 RAGQuery.filters :=
                   match filters with
                   | Some given => given
                   | None => no_filters
                   end |};
            RAGQuery.createdAt := createdAt |})
    (fun error => console_error "Error in RAG query:" ;;; throw error).

Definition saveQuery (query : RAGQuery.t) : M unit :=
  catch
    (match insert_outcome env query with
     | Inserted => insert_rag_query query
     | Rejected _ => console_error "Error saving RAG query:"
     | Failed exn => throw exn
     end)
    (fun _ => console_error "Error saving RAG query:").

End Service.

End RAG.

(* ================================================================== *)
(** * The design document's formulations *)
(* ================================================================== *)

(** The definitions of this module are written after the wording of the
    design document, not after the code; the theorems below compare the
    two. *)
Module Design.

Local Open Scope Q_scope.

(** "Final score clamped to [0,1]." *)
Definition clamp01 (x : Q) : Q := Qmax 0 (Qmin 1 x).

(** "Engagement term: min(1, (likes+shares+comments)/10000)." *)
Definition engagementTerm (e : Engagement) : Q :=
  Qmin 1 (inject_Z (likes e + shares e + comments e) / 10000).

(** "Share-velocity term: min(1, (shares/max(1,likes)) / 0.5)." *)
Definition shareVelocityTerm (e : Engagement) : Q :=
  Qmin 1 ((inject_Z (shares e) / Qmax 1 (inject_Z (likes e))) / 0.5).

(** "Sentiment term: fixed lookup positive 0.8, negative 0.6,
    neutral/mixed 0.4." *)
Definition sentimentTerm (s : SentimentAnalysis) : Q :=
  match label s with
  | Positive => 0.8
  | Negative => 0.6
  | Neutral | Mixed => 0.4
  end.

(** "Content term: additive score from hashtag count (up to 0.3), mention
    count (up to 0.2), URL presence (flat 0.1), English-language flag
    (flat 0.1), capped at 1." *)
Definition hashtagPart (m : Metadata) : Q :=
  match hashtags m with
  | [] => 0
  | _ :: _ => Qmin 0.3 (0.1 * Qnat (List.length (hashtags m)))
  end.

Definition mentionPart (m : Metadata) : Q :=
  match mentions m with
  | [] => 0
  | _ :: _ => Qmin 0.2 (0.05 * Qnat (List.length (mentions m)))
  end.

Definition urlPart (m : Metadata) : Q :=
  match urls m with
  | [] => 0
  | _ :: _ => 0.1
  end.

Definition languagePart (m : Metadata) : Q :=
  if String.eqb (language m) "en" then 0.1 else 0.

Definition contentTerm (m : Metadata) : Q :=
  Qmin 1 (hashtagPart m + mentionPart m + urlPart m + languagePart m).

(** The weighted sum, weights 0.40, 0.25, 0.20 and 0.15. *)
Definition weightedSum (e : Engagement) (s : SentimentAnalysis) (m : Metadata)
  : Q :=
  0.4 * engagementTerm e + 0.25 * shareVelocityTerm e
  + 0.2 * sentimentTerm s + 0.15 * contentTerm m.

Definition scoreVirality (e : Engagement) (s : SentimentAnalysis)
    (m : Metadata) : Q :=
  clamp01 (weightedSum e s m).

(** ** Relevance *)

(** "Query words that substring-match or are substring-matched by some
    candidate word." *)
Definition word_matches (candidateWords : list string) (w : string) : bool :=
  existsb (fun c => includes c w || includes w c) candidateWords.

(** "relevance = (count of such query words) / (query word count)" *)
Definition relevance (query candidate : string) : Q :=
  let queryWords := split_ws (toLowerCase query) in
  let candidateWords := split_ws (toLowerCase candidate) in
  Qnat (List.length (filter (word_matches candidateWords) queryWords))
  / Qnat (List.length queryWords).

(** ** Retrieval *)

(** The rows that a search keeps from an answer of the store. *)
Definition rows {A} (reply : PostgrestResponse A) : list A :=
  match error reply, data reply with
  | None, Some found => found
  | _, _ => []
  end.

(** "Merge all candidates into one list": posts, then trends, then
    context records. *)
Definition candidates (env : RAG.Collaborators) (query : string)
    (filters : option QueryFilters) : list RAGResult.t :=
  map (RAG.post_result query) (rows (RAG.select_posts env query filters))
  ++ map (RAG.trend_result query) (rows (RAG.select_trends env query filters))
  ++ map (RAG.context_result query)
       (rows (RAG.select_contexts env query filters)).

(** "Sort descending by relevance, truncate to top 10." *)
Definition ranked (env : RAG.Collaborators) (query : string)
    (filters : option QueryFilters) : list RAGResult.t :=
  firstn 10
    (sort (fun a b => RAGResult.relevance b - RAGResult.relevance a)
          (candidates env query filters)).

(** The elapsed search time of a call that starts in world [w]: the clock
    is read on entry and again when the generation step has returned. *)
Definition elapsed (w : World) : Z :=
  (clock w (S (ticks w)) - clock w (ticks w))%Z.

(** The contract of [query] as the design document states it: the record
    holds the ranked retrieval set, the elapsed time and the filters, and
    it has been stored. *)
Definition query_contract (env : RAG.Collaborators) (query : string)
    (filters : option QueryFilters) (w : World) : Prop :=
  forall record w',
    RAG.query env query filters w = (Ok record, w') ->
    RAGQuery.results record = Results (ranked env query filters)
    /\ RAGQuery.searchTime (RAGQuery.metadata record) = elapsed w
    /\ RAGQuery.filters (RAGQuery.metadata record)
       = match filters with Some given => given | None => no_filters end
    /\ In record (rag_queries w').

(** ** Sentiment distribution *)

(** The number of posts of a group that carry a given label. *)
Definition labelled (l : SentimentScore) (posts : list Post.t) : nat :=
  List.length
    (filter (fun post => SentimentScore_beq (label (Post.sentiment post)) l)
       posts).

(** The number of posts labelled neither positive nor negative. *)
Definition labelled_otherwise (posts : list Post.t) : nat :=
  List.length
    (filter
       (fun post =>
          negb (SentimentScore_beq (label (Post.sentiment post)) Positive)
          && negb (SentimentScore_beq (label (Post.sentiment post)) Negative))
       posts).

(** "Majority vote" between the positive and the negative count. *)
Definition majority_vote (posts : list Post.t) (overall : SentimentScore)
  : Prop :=
  ((labelled Negative posts < labelled Positive posts)%nat
   -> overall = Positive)
  /\ ((labelled Positive posts < labelled Negative posts)%nat
      -> overall = Negative).

(** A distribution whose three fractions are finite, sum to one and are
    the given counts over the group size, with a majority-vote overall. *)
Definition distribution_of (posts : list Post.t)
    (positives negatives neutrals : nat) (d : Trend.Sentiment) : Prop :=
  exists p n u : Q,
    Trend.positive d = Num p /\ Trend.negative d = Num n
    /\ Trend.neutral d = Num u
    /\ p + n + u == 1
    /\ p == Qnat positives / Qnat (List.length posts)
    /\ n == Qnat negatives / Qnat (List.length posts)
    /\ u == Qnat neutrals / Qnat (List.length posts)
    /\ majority_vote posts (Trend.overall d).

(** The distribution as the design document states it: every fraction is
    the count of the posts with that very label. *)
Definition distribution_as_stated (posts : list Post.t)
    (d : Trend.Sentiment) : Prop :=
  distribution_of posts (labelled Positive posts) (labelled Negative posts)
    (labelled Neutral posts) d.

End Design.

(* ================================================================== *)
(** * Sample data *)
(* ================================================================== *)

Module Examples.

Local Open Scope Z_scope.

Definition no_emotions : Emotions :=
  {| joy := 0; sadness := 0; anger := 0; fear := 0; surprise := 0;
     disgust := 0 |}.

(** A post about the climate: short words only, so that its one topic is
    the hashtag. *)
Definition climate_post (n : Z) (time : Z) (l : SentimentScore) : Post.t :=
  {| Post.id := ("p" ++ string_of_Z n)%string;
     Post.platform := twitter;
     Post.content := "so hot";
     Post.author := "ann";
     Post.authorId := "u1";
     Post.timestamp := time;
     Post.engagement :=
       {| likes := 100; shares := 10; comments := 10; views := Some 1000 |};
     Post.metadata :=
       {| hashtags := ["#Climate"%string]; mentions := []; urls := [];
          language := "en" |};
     Post.sentiment :=
       {| score := 0; magnitude := 0; label := l; emotions := no_emotions;
          confidence := 0.5 |};
     Post.viralityScore := 0.2;
     Post.createdAt := time;
     Post.updatedAt := time |}.

(** Ten posts over two hours, latest first. *)
Definition climate_posts : list Post.t :=
  map (fun n => climate_post n (n * 800000) Positive)
      [9; 8; 7; 6; 5; 4; 3; 2; 1; 0].

Definition store_with_climate (startTime : Z) : PostgrestResponse Post.t :=
  {| data := Some climate_posts; error := None |}.

(** A world whose clock advances five milliseconds per reading. *)
Definition w0 : World :=
  {| clock := fun n => Z.of_nat n * 5 + 1700000000000;
     ticks := O;
     console := [];
     rag_queries := [] |}.

(** A store that finds one post and nothing else, a generator that
    answers with one generated text, and an insert that succeeds. *)
Definition env0 : RAG.Collaborators :=
  {| RAG.select_posts := fun _ _ =>
       {| data := Some [climate_post 1 0 Positive]; error := None |};
     RAG.select_trends := fun _ _ => {| data := Some []; error := None |};
     RAG.select_contexts := fun _ _ => {| data := Some []; error := None |};
     RAG.post_huggingface := fun prompt _ =>
       Ok {| RAG.ok := true;
             RAG.body :=
               Ok (JArr [JObj [("generated_text"%string, JStr prompt)]]) |};
     RAG.insert_outcome := fun _ => RAG.Inserted |}.

(** A lexicon scorer that finds nothing in any text. *)
Definition silent_lexicon (text : string) : result Q := Ok 0%Q.

(** A group whose only post is labelled mixed. *)
Definition mixed_group : list Post.t := [climate_post 0 0 Mixed].

(** A group split evenly between positive and negative. *)
Definition split_group : list Post.t :=
  [climate_post 0 3600000 Positive; climate_post 1 0 Negative].

(** The outcome of one trend analysis over the ten posts. *)
Definition climate_trends : list Trend.t :=
  Eval vm_compute in
    match fst (TrendAnalysis.identifyTrends store_with_climate
                 TrendAnalysis.day w0) with
    | Ok trends => trends
    | Throw _ => []
    end.

Definition world_after_trends : World :=
  Eval vm_compute in
    snd (TrendAnalysis.identifyTrends store_with_climate TrendAnalysis.day w0).

End Examples.

(* ================================================================== *)
(** * Invariants of the trend aggregator *)
(* ================================================================== *)

Module Invariants.

Import TrendAnalysis.
Local Open Scope Q_scope.

(** The keys of a grouping that did not throw are pairwise distinct. *)
Definition distinct_keys (r : result (list (string * list Post.t))) : Prop :=
  match r with
  | Ok groups => NoDup (map fst groups)
  | Throw _ => True
  end.

(** The property that the loop maintains for every collected trend. *)
Definition from_significant_group (groups : list (string * list Post.t))
    (trend : Trend.t) : Prop :=
  exists members,
    In (Trend.topic trend, members) groups
    /\ (5 <= List.length members)%nat
    /\ calculateTrendMetrics members = Ok (Trend.metrics trend)
    /\ (10 <= Trend.mentions (Trend.metrics trend))%Z
    /\ 100 <= Trend.velocity (Trend.metrics trend)
    /\ 2 <= Trend.growthRate (Trend.metrics trend).

End Invariants.

(* ================================================================== *)
(** * Insertion-ordered maps *)
(* ================================================================== *)

(** A JavaScript [Map]: its entries in insertion order, one per key. *)
Module JSMap.

Section Entries.
Context {K V : Type} (eqb : K -> K -> bool).

(** [map.get(key)]; [None] is [undefined]. *)
Fixpoint get (map : list (K * V)) (key : K) : option V :=
  match map with
  | [] => None
  | (k, v) :: rest => if eqb k key then Some v else get rest key
  end.

(** [map.has(key)] *)
Definition has (map : list (K * V)) (key : K) : bool :=
  match get map key with Some _ => true | None => false end.

(** [map.set(key, value)]: an existing key keeps its place. *)
Fixpoint set (map : list (K * V)) (key : K) (value : V) : list (K * V) :=
  match map with
  | [] => [(key, value)]
  | (k, v) :: rest =>
      if eqb k key then (k, value) :: rest
      else (k, v) :: set rest key value
  end.
End Entries.

End JSMap.

(* ================================================================== *)
(** * Virality factors and prediction (services/virality-analysis.ts) *)
(* ================================================================== *)

Module ViralityFactors.

Local Open Scope Q_scope.

Record Factor : Type := {
  type : string;
  description : string;
  impact : Q;
  evidence : list string
}.

Definition trendingTags : list string :=
  ["#viral"; "#trending"; "#fyp"; "#foryou"; "#trend"]%string.

Definition timeKeywords : list string :=
  ["breaking"; "just"; "now"; "live"; "urgent"; "alert"]%string.

Section Factors.

(** [x.toFixed(2)].  The digits depend on the binary value of [x], which
    a rational does not fix, so the formatting is left open. *)
Variable toFixed2 : Q -> string.

Definition identifyViralityFactors
    (engagement : Engagement) (sentiment : SentimentAnalysis)
    (metadata : Metadata) (content : string) : list Factor :=
  let factors := [] in
  (* High engagement factor *)
  let totalEngagement :=
    (likes engagement + shares engagement + comments engagement)%Z in
  let factors :=
    if (1000 <? totalEngagement)%Z then
      factors ++
      [{| type := "high_engagement";
          description :=
            "High overall engagement indicates strong audience interest";
          impact := Math_min 1 (inject_Z totalEngagement / 10000);
          evidence :=
            [(string_of_Z totalEngagement ++ " total engagements")%string] |}]
    else factors in
  (* Viral share ratio *)
  let shareRatio :=
    inject_Z (shares engagement) / Math_max 1 (inject_Z (likes engagement)) in
  let factors :=
    if Qgtb shareRatio 0.3 then
      factors ++
      [{| type := "viral_sharing";
          description :=
            "High share-to-like ratio suggests content is being widely shared";
          impact := Math_min 1 shareRatio;
          evidence := [(toFixed2 shareRatio ++ " share ratio")%string] |}]
    else factors in
  (* Emotional content *)
  let factors :=
    if SentimentScore_beq (label sentiment) Positive
       && Qgtb (score sentiment) 0.5 then
      factors ++
      [{| type := "positive_emotion";
          description := "Strong positive sentiment drives engagement";
          impact := score sentiment;
          evidence :=
            [("Sentiment score: " ++ toFixed2 (score sentiment))%string] |}]
    else factors in
  (* Controversial content *)
  let factors :=
    if SentimentScore_beq (label sentiment) Negative
       && Qltb (score sentiment) (-0.3) then
      factors ++
      [{| type := "controversial";
          description :=
            "Controversial content often goes viral due to strong reactions";
          impact := Math_abs (score sentiment);
          evidence :=
            [("Sentiment score: " ++ toFixed2 (score sentiment))%string] |}]
    else factors in
  (* Trending hashtags *)
  let trendingHashtags :=
    filter (fun tag => array_includes trendingTags (toLowerCase tag))
      (hashtags metadata) in
  let factors :=
    if (0 <? List.length trendingHashtags)%nat then
      factors ++
      [{| type := "trending_hashtags";
          description := "Use of trending hashtags increases discoverability";
          impact := Math_min 1 (Qnat (List.length trendingHashtags) * 0.3);
          evidence := trendingHashtags |}]
    else factors in
  (* Influencer mentions *)
  let factors :=
    if (0 <? List.length (mentions metadata))%nat then
      factors ++
      [{| type := "influencer_mentions";
          description := "Mentions of influencers can amplify reach";
          impact := Math_min 1 (Qnat (List.length (mentions metadata)) * 0.2);
          evidence := mentions metadata |}]
    else factors in
  (* Time-sensitive content *)
  let hasTimeSensitivity :=
    existsb (fun keyword => includes (toLowerCase content) keyword)
      timeKeywords in
  let factors :=
    if hasTimeSensitivity then
      factors ++
      [{| type := "time_sensitive";
          description := "Time-sensitive content creates urgency and sharing";
          impact := 0.7;
          evidence := ["Contains time-sensitive keywords"%string] |}]
    else factors in
  factors.

End Factors.

End ViralityFactors.

Module Prediction.

Local Open Scope Q_scope.

Inductive Direction : Type := increasing | decreasing | stable.

Record DataPoint : Type := {
  timestamp : Z;        (* [timestamp.getTime()] *)
  score : Q
}.

Record t : Type := {
  trend : Direction;
  confidence : Q
}.

(** The loop over the neighbours of [recentData]: the two counters when
    it ends. *)
Fixpoint compare_neighbours (recentData : list DataPoint)
    (increasingCount totalComparisons : nat) : nat * nat :=
  match recentData with
  | a :: (b :: _) as rest =>
      compare_neighbours rest
        (if Qgtb (score a) (score b) then S increasingCount
         else increasingCount)
        (S totalComparisons)
  | _ => (increasingCount, totalComparisons)
  end.

(** [predictViralityTrend(currentScore, historicalData)].  The call also
    sorts the caller's array in place; that is not represented. *)
Definition predictViralityTrend (currentScore : Q)
    (historicalData : list DataPoint) : t :=
  if (List.length historicalData <? 2)%nat then
    {| trend := stable; confidence := 0.5 |}
  else
    let recentData :=
      slice0 5
        (sort (fun a b => inject_Z (timestamp b) - inject_Z (timestamp a))
              historicalData) in
    let '(increasingCount, totalComparisons) :=
      compare_neighbours recentData O O in
    let trendRatio := Qnat increasingCount / Qnat totalComparisons in
    if Qgtb trendRatio 0.6 then
      {| trend := increasing; confidence := trendRatio |}
    else if Qltb trendRatio 0.4 then
      {| trend := decreasing; confidence := 1 - trendRatio |}
    else {| trend := stable; confidence := 0.5 |}.

End Prediction.

(* ================================================================== *)
(** * Timeline and influencers of a trend (services/trend-analysis.ts) *)
(* ================================================================== *)

Module TrendDetail.

Import TrendAnalysis.
Local Open Scope Q_scope.

(** [x > q] for a quotient [x]; a comparison with [NaN] is false. *)
Definition number_gtb (x : number) (q : Q) : bool :=
  match x with
  | Num p => Qgtb p q
  | PInf => true
  | NInf | NaN => false
  end.

(** The counters [positive], [negative] and [neutral] of
    [getDominantSentiment] after its loop.  For the label ['mixed'] the
    increment creates a property of its own and leaves the three alone. *)
Definition tally (posts : list Post.t) : nat * nat * nat :=
  fold_left
    (fun '(positive, negative, neutral) post =>
       match label (Post.sentiment post) with
       | Positive => (S positive, negative, neutral)
       | Negative => (positive, S negative, neutral)
       | Neutral => (positive, negative, S neutral)
       | Mixed => (positive, negative, neutral)
       end)
    posts (O, O, O).

Definition getDominantSentiment (posts : list Post.t) : SentimentScore :=
  let '(positive, negative, neutral) := tally posts in
  let total := List.length posts in
  let maxCount := Nat.max (Nat.max positive negative) neutral in
  if number_gtb (js_div (Qnat maxCount) (Qnat total)) 0.6 then
    if (positive =? maxCount)%nat then Positive
    else if (negative =? maxCount)%nat then Negative
    else Neutral
  else Mixed.

Record TimelinePoint : Type := {
  timestamp : Z;
  mentions : Z;
  engagement : Z;
  sentiment : SentimentScore
}.

(** The start of the hour of a time value; [%] truncates towards zero. *)
Definition hour_of (time : Z) : Z := (time - Z.rem time (60 * 60 * 1000))%Z.

(** One turn of the grouping loop.  The key is the hour itself: on valid
    dates [toISOString] and [new Date(key)] are inverse to each other. *)
Definition add_to_hour (hourlyGroups : list (Z * list Post.t))
    (post : Post.t) : list (Z * list Post.t) :=
  let hourKey := hour_of (Post.timestamp post) in
  let hourlyGroups :=
    if negb (JSMap.has Z.eqb hourlyGroups hourKey)
    then JSMap.set Z.eqb hourlyGroups hourKey []
    else hourlyGroups in
  match JSMap.get Z.eqb hourlyGroups hourKey with
  | Some hourPosts => JSMap.set Z.eqb hourlyGroups hourKey (hourPosts ++ [post])
  | None => hourlyGroups
  end.

Definition timeline_point (entry : Z * list Post.t) : TimelinePoint :=
  let '(hourKey, hourPosts) := entry in
  {| timestamp := hourKey;
     mentions := Z.of_nat (List.length hourPosts);
     engagement :=
       fold_left (fun sum post => (sum + interactions post)%Z) hourPosts 0%Z;
     sentiment := getDominantSentiment hourPosts |}.

Definition createTrendTimeline (posts : list Post.t) : list TimelinePoint :=
  let hourlyGroups := fold_left add_to_hour posts [] in
  let timeline := map timeline_point hourlyGroups in
  sort (fun a b => inject_Z (timestamp a) - inject_Z (timestamp b)) timeline.

Record Influencer : Type := {
  id : string;
  username : string;
  platform : SocialPlatform;
  followers : Z;
  engagementRate : Q;
  influence : Q;
  topics : list string;
  recentPosts : list Post.t
}.

(** One turn of the loop over the posts: the author's count and total. *)
Definition add_to_author (authorStats : list (string * (nat * Z)))
    (post : Post.t) : list (string * (nat * Z)) :=
  let '(count, totalEngagement) :=
    match JSMap.get String.eqb authorStats (Post.author post) with
    | Some current => current
    | None => (O, 0%Z)
    end in
  JSMap.set String.eqb authorStats (Post.author post)
    (S count, (totalEngagement + interactions post)%Z).

Definition influencer_of (posts : list Post.t)
    (entry : string * (nat * Z)) : Influencer :=
  let '(author, (count, totalEngagement)) := entry in
  {| id := author;
     username := author;
     platform := determinePrimaryPlatform posts;
     followers := 0;
     engagementRate := inject_Z totalEngagement / Qnat count;
     influence := inject_Z totalEngagement / Qnat (List.length posts);
     topics :=
       [match find (fun p => String.eqb (Post.author p) author) posts with
        | Some p => hd EmptyString (hashtags (Post.metadata p))
        | None => EmptyString
        end];
     recentPosts :=
       slice0 3 (filter (fun p => String.eqb (Post.author p) author) posts) |}.

Definition identifyInfluencers (posts : list Post.t) : list Influencer :=
  let authorStats := fold_left add_to_author posts [] in
  map (influencer_of posts)
    (slice0 5
       (sort (fun a b => inject_Z (snd (snd b)) - inject_Z (snd (snd a)))
             authorStats)).

End TrendDetail.

(* ================================================================== *)
(** * Filters and tag extraction (services/data-collection.ts) *)
(* ================================================================== *)

Module DataCollection.

Local Open Scope Q_scope.

Record Filters : Type := {
  minEngagement : Q;
  languages : list string;
  excludeKeywords : list string
}.

Definition passesFilters (filters : Filters) (post : Post.t) : bool :=
  let totalEngagement :=
    (likes (Post.engagement post) + shares (Post.engagement post)
     + comments (Post.engagement post))%Z in
  if Qltb (inject_Z totalEngagement) (minEngagement filters) then false
  else if (0 <? List.length (languages filters))%nat
          && negb (array_includes (languages filters)
                     (language (Post.metadata post)))
  then false
  else
    let content := toLowerCase (Post.content post) in
    if existsb (fun keyword => includes content (toLowerCase keyword))
         (excludeKeywords filters)
    then false
    else true.

(** The longest prefix of [s] made of characters of a class. *)
Fixpoint take_run (class : ascii -> bool) (s : string) : string :=
  match s with
  | EmptyString => EmptyString
  | String c s' =>
      if class c then String c (take_run class s') else EmptyString
  end.

(** [content.match(re) || []] for a global [re] that asks for one marker
    character followed by a non-empty run of a class that excludes the
    marker.  [skip] counts the characters of the last match still to
    step over. *)
Fixpoint match_marked (marker : ascii) (class : ascii -> bool) (skip : nat)
    (content : string) : list string :=
  match content with
  | EmptyString => []
  | String c rest =>
      match skip with
      | S k => match_marked marker class k rest
      | O =>
          let run := take_run class rest in
          if Ascii.eqb c marker && negb (String.eqb run EmptyString)
          then String c run
               :: match_marked marker class (String.length run) rest
          else match_marked marker class O rest
      end
  end.

(** [content.match(/#[\w\u0590-\u05ff]+/g) || []]; on 8-bit characters
    the class is [\w]. *)
Definition matchHashtags (content : string) : list string :=
  match_marked "#" is_word_char O content.

(** [content.match(/@[\w]+/g) || []] *)
Definition matchMentions (content : string) : list string :=
  match_marked "@" is_word_char O content.

End DataCollection.

(* ================================================================== *)
(** * Vocabulary for the properties of the trend aggregator *)
(* ================================================================== *)

Module Specs.

Import TrendAnalysis.

(** The pairs of a topic and a post in the order in which
    [groupPostsByTopic] meets them. *)
Definition topic_pairs (posts : list Post.t) : list (string * Post.t) :=
  flat_map
    (fun post => map (fun topic => (topic, post)) (extractTopics post))
    posts.

(** The post has the topic. *)
Definition has_topic (topic : string) (post : Post.t) : bool :=
  array_includes (extractTopics post) topic.

(** The posts paired with a key, in order. *)
Definition paired_with {V} (key : string) (pairs : list (string * V))
  : list V :=
  map snd (filter (fun pair => String.eqb (fst pair) key) pairs).

(** A string without upper-case letters. *)
Definition lower_case (s : string) : Prop := toLowerCase s = s.

(** The posts that carry a label. *)
Definition with_label (l : SentimentScore) (posts : list Post.t)
  : list Post.t :=
  filter (fun post => SentimentScore_beq (label (Post.sentiment post)) l)
    posts.

(** The posts of an author, of a platform and of an hour. *)
Definition by_author (author : string) (posts : list Post.t) : list Post.t :=
  filter (fun post => String.eqb (Post.author post) author) posts.

Definition on_platform (platform : SocialPlatform) (posts : list Post.t)
  : list Post.t :=
  filter (fun post => SocialPlatform_beq (Post.platform post) platform) posts.

Definition in_hour (hour : Z) (posts : list Post.t) : list Post.t :=
  filter
    (fun post => Z.eqb (TrendDetail.hour_of (Post.timestamp post)) hour)
    posts.

(** Likes, shares and comments of a list of posts, added up. *)
Definition total_interactions (posts : list Post.t) : Z :=
  fold_left (fun sum post => (sum + interactions post)%Z) posts 0%Z.

(** The time from the last post of a list to its first, in milliseconds. *)
Definition time_span (posts : list Post.t) : Z :=
  match posts with
  | [] => 0
  | first :: _ =>
      (Post.timestamp first - Post.timestamp (List.last posts first))%Z
  end.

Definition sum_Z (l : list Z) : Z := fold_right Z.add 0%Z l.

(** What a key of a map holds after one more element: the members so
    far with the element at the end, a count and a total, or a count. *)
Definition appended {A} (old : option (list A)) (a : A) : list A :=
  match old with
  | Some members => members ++ [a]
  | None => [a]
  end.

Definition counted (old : option (nat * Z)) (post : Post.t) : nat * Z :=
  let '(count, total) :=
    match old with Some current => current | None => (O, 0%Z) end in
  (S count, (total + interactions post)%Z).

Definition incremented (old : option nat) (post : Post.t) : nat :=
  S (match old with Some n => n | None => O end).

(** The count and the total of the posts of one author. *)
Definition author_summary (posts : list Post.t) : nat * Z :=
  (List.length posts, total_interactions posts).

(** Every character of a string belongs to a class. *)
Fixpoint all_chars (class : ascii -> bool) (s : string) : bool :=
  match s with
  | EmptyString => true
  | String c s' => class c && all_chars class s'
  end.

(** The number of members of all the groups of a map. *)
Definition group_sizes {K A} (groups : list (K * list A)) : nat :=
  fold_right (fun entry n => (List.length (snd entry) + n)%nat) O groups.

End Specs.

(* ================================================================== *)
(** * More sample data *)
(* ================================================================== *)

Module Samples.

Local Open Scope Z_scope.

(** A post as the collector stores it: hashtags and mentions are read
    off the content. *)
Definition collected_post (n : Z) (author content : string) (time : Z)
    (l : SentimentScore) (platform : SocialPlatform) : Post.t :=
  {| Post.id := ("c" ++ string_of_Z n)%string;
     Post.platform := platform;
     Post.content := content;
     Post.author := author;
     Post.authorId := author;
     Post.timestamp := time;
     Post.engagement :=
       {| likes := 10 * (n + 1); shares := n; comments := 1;
          views := None |};
     Post.metadata :=
       {| hashtags := DataCollection.matchHashtags content;
          mentions := DataCollection.matchMentions content;
          urls := [];
          language := "en" |};
     Post.sentiment :=
       {| score := 0; magnitude := 0; label := l;
          emotions := Examples.no_emotions; confidence := 0.5 |};
     Post.viralityScore := 0.2;
     Post.createdAt := time;
     Post.updatedAt := time |}.

(** Five posts of three authors over three hours, latest first. *)
Definition collected_posts : list Post.t :=
  [collected_post 4 "ann" "Rain again #Weather @bob" 9000000 Negative
     twitter;
   collected_post 3 "bob" "#weather report says sunshine soon" 7300000
     Positive reddit;
   collected_post 2 "ann" "#Constructor crews build flood walls" 7200000
     Positive twitter;
   collected_post 1 "cy" "no tags here" 3700000 Positive twitter;
   collected_post 0 "ann" "first #weather post" 100 Mixed reddit].

(** A post with a hashtag that the collector would not have written. *)
Definition bare_tag_post : Post.t :=
  {| Post.id := "b0";
     Post.platform := reddit;
     Post.content := "so hot";
     Post.author := "dee";
     Post.authorId := "dee";
     Post.timestamp := 0;
     Post.engagement :=
       {| likes := 1; shares := 1; comments := 1; views := None |};
     Post.metadata :=
       {| hashtags := ["Constructor"%string]; mentions := []; urls := [];
          language := "en" |};
     Post.sentiment :=
       {| score := 0; magnitude := 0; label := Neutral;
          emotions := Examples.no_emotions; confidence := 0.5 |};
     Post.viralityScore := 0.2;
     Post.createdAt := 0;
     Post.updatedAt := 0 |}.

(** A store that is down, and one that holds the post above. *)
Definition store_down (startTime : Z) : PostgrestResponse Post.t :=
  {| data := None; error := Some "connection refused"%string |}.

Definition store_with_bare_tag (startTime : Z) : PostgrestResponse Post.t :=
  {| data := Some [bare_tag_post]; error := None |}.

(** Ten posts within ten seconds, latest first, and the trend that
    [analyzeTrend] makes of them. *)
Definition busy_hour_posts : list Post.t :=
  map (fun n => Examples.climate_post n (n * 1000) Positive)
      [9; 8; 7; 6; 5; 4; 3; 2; 1; 0].

Definition busy_hour_run : result (option Trend.t) * World :=
  Eval vm_compute in
    TrendAnalysis.analyzeTrend "#climate" busy_hour_posts Examples.w0.

End Samples.

(* ================================================================== *)
(** * Properties of the virality scorer *)
(* ================================================================== *)

(** Case analysis on every [Qmin] and [Qmax] in sight. *)
Ltac split_minmax :=
  repeat match goal with
    | |- context [Qmin ?a ?b] =>
        let m := fresh "m" in
        let H := fresh "Hm" in
        pose proof (Q.min_spec a b) as H;
        set (m := Qmin a b) in *; clearbody m;
        destruct H as [[? ?] | [? ?]]
    | |- context [Qmax ?a ?b] =>
        let m := fresh "m" in
        let H := fresh "Hm" in
        pose proof (Q.max_spec a b) as H;
        set (m := Qmax a b) in *; clearbody m;
        destruct H as [[? ?] | [? ?]]
    | _ : context [Qmin ?a ?b] |- _ =>
        let m := fresh "m" in
        let H := fresh "Hm" in
        pose proof (Q.min_spec a b) as H;
        set (m := Qmin a b) in *; clearbody m;
        destruct H as [[? ?] | [? ?]]
    | _ : context [Qmax ?a ?b] |- _ =>
        let m := fresh "m" in
        let H := fresh "Hm" in
        pose proof (Q.max_spec a b) as H;
        set (m := Qmax a b) in *; clearbody m;
        destruct H as [[? ?] | [? ?]]
    end.

Section ViralityFacts.

Import Virality.
Local Open Scope Q_scope.

Lemma Qnat_nonneg (n : nat) : 0 <= Qnat n.
Proof.
  unfold Qnat, Qle. simpl. lia.
Qed.

Lemma clamp01_swap (x : Q) : Qmin 1 (Qmax 0 x) == Design.clamp01 x.
Proof.
  unfold Design.clamp01. split_minmax; lra.
Qed.

Lemma Qmin_eq (a b c d : Q) : a == c -> b == d -> Qmin a b == Qmin c d.
Proof.
  intros Hac Hbd. split_minmax; lra.
Qed.

Lemma calculateContentScore_contentTerm (m : Metadata) :
  calculateContentScore m == Design.contentTerm m.
Proof.
  unfold calculateContentScore, Design.contentTerm, Design.hashtagPart,
    Design.mentionPart, Design.urlPart, Design.languagePart.
  destruct m as [hs ms us lang]; simpl.
  assert (Hc1 : forall n, Qmin 0.3 (Qnat n * 0.1) == Qmin 0.3 (0.1 * Qnat n)).
  { intro n. apply Qmin_eq; [reflexivity | ring]. }
  assert (Hc2 : forall n, Qmin 0.2 (Qnat n * 0.05) == Qmin 0.2 (0.05 * Qnat n)).
  { intro n. apply Qmin_eq; [reflexivity | ring]. }
  destruct hs as [|h hs]; destruct ms as [|m' ms]; destruct us as [|u us];
    destruct (String.eqb lang "en"); simpl;
    apply Qmin_eq; try reflexivity;
    rewrite ?Hc1, ?Hc2; ring.
Qed.

Lemma calculateContentScore_le (m : Metadata) :
  0 <= calculateContentScore m /\ calculateContentScore m <= 0.7.
Proof.
  unfold calculateContentScore.
  destruct m as [hs ms us lang]; simpl.
  set (a := Qnat (List.length hs) * 0.1).
  set (b := Qnat (List.length ms) * 0.05).
  assert (Ha0 : 0 <= a).
  { unfold a. pose proof (Qnat_nonneg (List.length hs)). nra. }
  assert (Hb0 : 0 <= b).
  { unfold b. pose proof (Qnat_nonneg (List.length ms)). nra. }
  pose proof (Q.le_min_l 0.3 a) as Ha.
  pose proof (Q.le_min_l 0.2 b) as Hb.
  assert (Ha' : 0 <= Qmin 0.3 a) by (apply Q.min_glb; lra).
  assert (Hb' : 0 <= Qmin 0.2 b) by (apply Q.min_glb; lra).
  revert Ha Hb Ha' Hb'. generalize (Qmin 0.3 a) (Qmin 0.2 b).
  intros x y Hx Hy Hx' Hy'.
  destruct (0 <? List.length hs)%nat; destruct (0 <? List.length ms)%nat;
    destruct (0 <? List.length us)%nat; destruct (String.eqb lang "en");
    (split; split_minmax; lra).
Qed.

Lemma clamp01_eq (x y : Q) : x == y -> Design.clamp01 x == Design.clamp01 y.
Proof.
  intro Hxy. unfold Design.clamp01. split_minmax; lra.
Qed.

(** C1.  For every engagement record, sentiment and metadata,
    [calculateViralityScore] returns the weighted sum of the design
    document, 0.4 times the engagement term plus 0.25 times the
    share-velocity term plus 0.2 times the sentiment lookup plus 0.15 times
    the content term (itself the capped sum of the hashtag, mention, URL
    and language parts), clamped to the interval from 0 to 1. *)
Theorem calculateViralityScore_weighted_sum
    (e : Engagement) (s : SentimentAnalysis) (m : Metadata) :
  calculateViralityScore e s m == Design.scoreVirality e s m.
Proof.
  unfold calculateViralityScore, Design.scoreVirality.
  rewrite clamp01_swap. apply clamp01_eq.
  unfold Design.weightedSum, Design.engagementTerm, Design.shareVelocityTerm,
    Design.sentimentTerm.
  rewrite (calculateContentScore_contentTerm m).
  destruct (label s); ring.
Qed.

(** C2.  For all engagement, sentiment and metadata inputs, however large
    the counts, the value returned by [calculateViralityScore] lies in the
    closed interval from 0 to 1. *)
Theorem calculateViralityScore_in_unit_interval
    (e : Engagement) (s : SentimentAnalysis) (m : Metadata) :
  0 <= calculateViralityScore e s m /\ calculateViralityScore e s m <= 1.
Proof.
  unfold calculateViralityScore.
  match goal with
  | |- context [Qmin 1 (Qmax 0 ?x)] => generalize x
  end.
  intro x. split; split_minmax; lra.
Qed.

(** The extreme input of the design document: a billion likes, shares and
    comments each. *)
Example calculateViralityScore_billion :
  calculateViralityScore
    {| likes := 10 ^ 9; shares := 10 ^ 9; comments := 10 ^ 9; views := None |}
    {| score := 1; magnitude := 10; label := Positive;
       emotions := {| joy := 1; sadness := 0; anger := 0; fear := 0;
                      surprise := 0; disgust := 0 |};
       confidence := 0.95 |}
    {| hashtags := ["#a"; "#b"; "#c"; "#d"]%string;
       mentions := ["@a"; "@b"; "@c"; "@d"; "@e"]%string;
       urls := ["https://example.org"]%string;
       language := "en" |}
  == 0.915.
Proof.
  vm_compute. reflexivity.
Qed.

(** C8.  The content score is at most 0.7 and the sentiment lookup at most
    0.8, so [calculateViralityScore] returns at most
    0.4 + 0.25 + 0.16 + 0.105 = 0.915 whatever its inputs, and the upper
    clamp at 1 is never reached. *)
Theorem calculateViralityScore_at_most_0915
    (e : Engagement) (s : SentimentAnalysis) (m : Metadata) :
  calculateContentScore m <= 0.7
  /\ calculateViralityScore e s m <= 0.915
  /\ calculateViralityScore e s m < 1.
Proof.
  destruct (calculateContentScore_le m) as [Hc0 Hc].
  split; [exact Hc |].
  assert (H : calculateViralityScore e s m <= 0.915).
  { unfold calculateViralityScore.
    revert Hc0 Hc. generalize (calculateContentScore m). intros c Hc0 Hc.
    set (total := inject_Z (likes e + shares e + comments e) / 10000).
    set (ratio := inject_Z (shares e) / Qmax 1 (inject_Z (likes e)) / 0.5).
    pose proof (Q.le_min_l 1 total) as He.
    pose proof (Q.le_min_l 1 ratio) as Hv.
    revert He Hv. generalize (Qmin 1 total) (Qmin 1 ratio). intros x y He Hv.
    destruct (label s); split_minmax; lra. }
  split; [exact H | lra].
Qed.

End ViralityFacts.

(* ================================================================== *)
(** * Properties of the JavaScript primitives *)
(* ================================================================== *)

Section PrimitiveFacts.

Local Open Scope Q_scope.

Lemma split_runs_length (sep : ascii -> bool) (s : string) :
  forall in_gap cur,
    (1 <= List.length (split_runs sep in_gap cur s))%nat.
Proof.
  induction s as [|c s IH]; intros in_gap cur; simpl.
  - lia.
  - destruct (sep c).
    + destruct in_gap; simpl; [apply IH | lia].
    + apply IH.
Qed.

Lemma split_ws_length (s : string) : (1 <= List.length (split_ws s))%nat.
Proof.
  apply split_runs_length.
Qed.

Lemma includes_empty (s : string) : includes s EmptyString = true.
Proof.
  destruct s; reflexivity.
Qed.

(** A loop that increments a counter on a test counts the elements that
    pass it. *)
Lemma count_loop {A} (test : A -> bool) (xs : list A) :
  forall start,
    fold_left (fun n x => if test x then S n else n) xs start
    = (start + List.length (filter test xs))%nat.
Proof.
  induction xs as [|x xs IH]; intro start; simpl.
  - lia.
  - rewrite IH. destruct (test x); simpl; lia.
Qed.

Lemma Qnat_pos (n : nat) : (1 <= n)%nat -> 0 < Qnat n.
Proof.
  intro Hn. unfold Qnat, Qlt. simpl. lia.
Qed.

Lemma Qnat_le (m n : nat) : (m <= n)%nat -> Qnat m <= Qnat n.
Proof.
  intro Hmn. unfold Qnat, Qle. simpl. lia.
Qed.

Lemma Qnat_plus (m n : nat) : Qnat (m + n) == Qnat m + Qnat n.
Proof.
  unfold Qnat. rewrite Nat2Z.inj_add, inject_Z_plus. reflexivity.
Qed.

(** A count over a total that is not smaller is a fraction of one. *)
Lemma ratio_in_unit_interval (m n : nat) :
  (m <= n)%nat -> (1 <= n)%nat ->
  0 <= Qnat m / Qnat n /\ Qnat m / Qnat n <= 1.
Proof.
  intros Hmn Hn.
  pose proof (Qnat_pos Hn) as Hpos.
  split.
  - apply Qle_shift_div_l; [exact Hpos |].
    pose proof (Qnat_nonneg m). lra.
  - apply Qle_shift_div_r; [exact Hpos |].
    pose proof (Qnat_le Hmn). lra.
Qed.

(** ** Sorting *)

Section AnyComparator.

Context {A : Type} (cmp : A -> A -> Q).

Lemma sort_insert_perm (a : A) (l : list A) :
  Permutation (sort_insert cmp a l) (a :: l).
Proof.
  induction l as [|b l IH]; simpl.
  - apply Permutation_refl.
  - destruct (Qle_bool (cmp a b) 0).
    + apply Permutation_refl.
    + eapply Permutation_trans; [apply perm_skip, IH | apply perm_swap].
Qed.

Lemma sort_perm (l : list A) : Permutation (sort cmp l) l.
Proof.
  induction l as [|a l IH]; simpl.
  - apply perm_nil.
  - eapply Permutation_trans; [apply sort_insert_perm |].
    apply perm_skip, IH.
Qed.

Lemma sort_In (x : A) (l : list A) : In x (sort cmp l) <-> In x l.
Proof.
  split; apply Permutation_in;
    [apply sort_perm | apply Permutation_sym, sort_perm].
Qed.

End AnyComparator.

(** ** Sorting in descending order of a key *)

Section Descending.

Context {A : Type} (key : A -> Q).

Let desc (a b : A) : Q := key b - key a.

Lemma sort_insert_sorted (a : A) (l : list A) :
  StronglySorted (fun x y => key y <= key x) l ->
  StronglySorted (fun x y => key y <= key x) (sort_insert desc a l).
Proof.
  induction 1 as [|b l Hl IH Hb]; simpl.
  - constructor; constructor.
  - destruct (Qle_bool (desc a b) 0) eqn:Hab.
    + apply Qle_bool_iff in Hab. unfold desc in Hab.
      constructor; [constructor; assumption |].
      constructor; [lra |].
      rewrite Forall_forall in Hb |- *. intros y Hy.
      specialize (Hb y Hy). lra.
    + assert (Hba : key a <= key b).
      { destruct (Qlt_le_dec (key b) (key a)) as [Hlt | Hle];
          [| exact Hle].
        assert (Hle : desc a b <= 0) by (unfold desc; lra).
        apply Qle_bool_iff in Hle. congruence. }
      constructor; [exact IH |].
      rewrite Forall_forall in Hb |- *. intros y Hy.
      apply (Permutation_in _ (sort_insert_perm desc a l)) in Hy.
      destruct Hy as [<- | Hy]; [exact Hba | exact (Hb y Hy)].
Qed.

Lemma sort_sorted (l : list A) :
  StronglySorted (fun x y => key y <= key x) (sort desc l).
Proof.
  induction l as [|a l IH]; simpl.
  - constructor.
  - apply sort_insert_sorted, IH.
Qed.

(** Elements that all tie keep their places. *)
Lemma sort_ties (k : Q) (l : list A) :
  Forall (fun x => key x == k) l -> sort desc l = l.
Proof.
  induction 1 as [|a l Ha Hl IH]; simpl.
  - reflexivity.
  - rewrite IH. destruct l as [|b l]; simpl; [reflexivity |].
    inversion Hl as [|? ? Hb _]; subst.
    assert (Hab : desc a b <= 0) by (unfold desc; lra).
    apply Qle_bool_iff in Hab. rewrite Hab. reflexivity.
Qed.

End Descending.

End PrimitiveFacts.

(* ================================================================== *)
(** * Properties of the relevance measure *)
(* ================================================================== *)

Section RelevanceFacts.

Import RAG.
Local Open Scope Q_scope.

Lemma calculateRelevance_relevance (query content : string) :
  calculateRelevance query content = Design.relevance query content.
Proof.
  unfold calculateRelevance, Design.relevance.
  rewrite (count_loop (Design.word_matches (split_ws (toLowerCase content)))).
  reflexivity.
Qed.

(** C5.  For every query string and candidate content, the computed
    relevance is the number of lower-cased, white-space-split query words
    that some lower-cased candidate word contains or is contained in,
    divided by the number of query words, and it lies between 0 and 1. *)
Theorem calculateRelevance_is_matched_fraction (query content : string) :
  calculateRelevance query content
  = Qnat (List.length
            (filter
               (fun w =>
                  existsb (fun c => includes c w || includes w c)
                    (split_ws (toLowerCase content)))
               (split_ws (toLowerCase query))))
    / Qnat (List.length (split_ws (toLowerCase query)))
  /\ 0 <= calculateRelevance query content
  /\ calculateRelevance query content <= 1.
Proof.
  rewrite calculateRelevance_relevance. unfold Design.relevance.
  split; [reflexivity |].
  apply ratio_in_unit_interval.
  - apply filter_length_le.
  - apply split_ws_length.
Qed.

Lemma calculateRelevance_empty_query (content : string) :
  calculateRelevance EmptyString content == 1.
Proof.
  unfold calculateRelevance. simpl.
  pose proof (split_ws_length (toLowerCase content)) as Hlen.
  destruct (split_ws (toLowerCase content)) as [|word rest];
    [simpl in Hlen; lia |].
  simpl. rewrite includes_empty. simpl. reflexivity.
Qed.

End RelevanceFacts.

(* ================================================================== *)
(** * Properties of retrieval and of the query service *)
(* ================================================================== *)

Section RetrievalFacts.

Import RAG.
Local Open Scope Q_scope.

Variable env : Collaborators.

(** Retrieval always succeeds with the ranked candidates; it may write to
    the console but neither reads the clock nor touches the query log. *)
Lemma retrieveContent_run (query : string) (filters : option QueryFilters)
    (w : World) :
  exists w',
    retrieveContent env query filters w
    = (Ok (Design.ranked env query filters), w')
    /\ clock w' = clock w /\ ticks w' = ticks w
    /\ rag_queries w' = rag_queries w.
Proof.
  unfold retrieveContent, searchPosts, searchTrends, searchCulturalContext,
    Design.ranked, Design.candidates, Design.rows, slice0, mbind, ret,
    console_error.
  rewrite app_assoc.
  destruct (error (select_posts env query filters));
    destruct (error (select_trends env query filters));
    destruct (error (select_contexts env query filters));
    destruct (data (select_posts env query filters));
    destruct (data (select_trends env query filters));
    destruct (data (select_contexts env query filters));
    simpl; eexists; (split; [reflexivity | simpl; auto]).
Qed.

Lemma In_firstn {A} (x : A) (n : nat) (l : list A) :
  In x (firstn n l) -> In x l.
Proof.
  revert n. induction l as [|a l IH]; intros n Hx; destruct n; simpl in *;
    try contradiction.
  destruct Hx as [-> | Hx]; [left; reflexivity | right; eapply IH, Hx].
Qed.

Lemma StronglySorted_firstn {A} (R : A -> A -> Prop) (n : nat) (l : list A) :
  StronglySorted R l -> StronglySorted R (firstn n l).
Proof.
  intro Hl. revert n.
  induction Hl as [|a l Hl IH Ha]; intro n; destruct n; simpl;
    try constructor.
  - apply IH.
  - rewrite Forall_forall in Ha |- *. intros x Hx.
    apply Ha. eapply In_firstn; exact Hx.
Qed.

(** The ranked set: the first ten of the candidates rearranged in
    descending order of relevance. *)
Lemma ranked_sorted_top10 (query : string) (filters : option QueryFilters) :
  (exists arranged,
      Permutation arranged (Design.candidates env query filters)
      /\ StronglySorted
           (fun a b => RAGResult.relevance b <= RAGResult.relevance a)
           arranged
      /\ Design.ranked env query filters = firstn 10 arranged)
  /\ (List.length (Design.ranked env query filters) <= 10)%nat.
Proof.
  split.
  - exists (sort (fun a b => RAGResult.relevance b - RAGResult.relevance a)
              (Design.candidates env query filters)).
    split; [apply sort_perm |].
    split; [apply sort_sorted | reflexivity].
  - unfold Design.ranked. rewrite length_firstn. lia.
Qed.

Lemma candidates_empty_query_tie (filters : option QueryFilters) :
  Forall (fun r => RAGResult.relevance r == 1)
    (Design.candidates env EmptyString filters).
Proof.
  unfold Design.candidates.
  rewrite !Forall_app, !Forall_map.
  repeat split; apply Forall_forall; intros x _; simpl;
    apply calculateRelevance_empty_query.
Qed.

(** C10.  For the empty query string [calculateRelevance] returns 1 for
    every candidate content, so every retrieved candidate ties at the
    maximal relevance and the ten results are the first ten candidates in
    retrieval order: posts, then trends, then context records. *)
Theorem empty_query_ranked_by_position (filters : option QueryFilters)
    (w : World) :
  (forall content, calculateRelevance EmptyString content == 1)
  /\ Forall (fun r => RAGResult.relevance r == 1)
       (Design.candidates env EmptyString filters)
  /\ fst (retrieveContent env EmptyString filters w)
     = Ok (firstn 10 (Design.candidates env EmptyString filters)).
Proof.
  split; [exact calculateRelevance_empty_query |].
  split; [apply candidates_empty_query_tie |].
  destruct (retrieveContent_run EmptyString filters w) as (w' & Hrun & _).
  rewrite Hrun. simpl. unfold Design.ranked.
  rewrite (sort_ties RAGResult.relevance
             (candidates_empty_query_tie filters)).
  reflexivity.
Qed.

(** What [query] returns when it returns: the retrieval step is run and
    its result handed to [generateInsights]; the record carries the query
    text, the elapsed time, the length of its results and the filters;
    the query log is as it was. *)
Lemma query_run (text : string) (filters : option QueryFilters) (w : World)
    (record : RAGQuery.t) (w' : World) :
  query env text filters w = (Ok record, w') ->
  RAGQuery.query record = text
  /\ RAGQuery.searchTime (RAGQuery.metadata record) = Design.elapsed w
  /\ RAGQuery.filters (RAGQuery.metadata record)
     = match filters with Some given => given | None => no_filters end
  /\ length_of (RAGQuery.results record)
     = Ok (RAGQuery.totalResults (RAGQuery.metadata record))
  /\ (exists response,
         fetchHuggingFace env text = Ok response
         /\ RAGQuery.results record = Json response)
  /\ rag_queries w' = rag_queries w.
Proof.
  unfold query, mbind, catch, Date_now.
  match goal with
  | |- context [retrieveContent env text filters ?w1] =>
      destruct (retrieveContent_run text filters w1)
        as (w2 & Hrun & Hclock & Hticks & Hlog)
  end.
  rewrite Hrun. unfold generateInsights, mbind, lift, ret.
  destruct (fetchHuggingFace env text) as [response | e] eqn:Hfetch;
    cbn -[length_of string_of_Z];
    [| unfold console_error, throw; simpl; discriminate].
  destruct (length_of (Json response)) as [total | e] eqn:Hlen;
    cbn -[length_of string_of_Z];
    [| unfold console_error, throw; simpl; discriminate].
  intro Hrecord. injection Hrecord as <- <-. cbn -[length_of string_of_Z] in *.
  rewrite Hclock, Hticks, Hlog. unfold Design.elapsed. simpl.
  repeat split; try reflexivity.
  - exact Hlen.
  - exists response. split; reflexivity.
Qed.

(** [saveQuery] never throws: it stores the record, or leaves one line on
    the console. *)
Lemma saveQuery_run (record : RAGQuery.t) (w : World) :
  exists w',
    saveQuery env record w = (Ok tt, w')
    /\ match insert_outcome env record with
       | Inserted =>
           rag_queries w' = rag_queries w ++ [record]
           /\ console w' = console w
       | Rejected _ | Failed _ =>
           rag_queries w' = rag_queries w
           /\ console w' = "Error saving RAG query:"%string :: console w
       end.
Proof.
  unfold saveQuery, catch.
  destruct (insert_outcome env record); simpl;
    eexists; (split; [reflexivity | simpl; auto]).
Qed.

End RetrievalFacts.

(* ================================================================== *)
(** * Properties of the trend aggregator *)
(* ================================================================== *)

Section TrendFacts.

Import TrendAnalysis Invariants.
Local Open Scope Q_scope.

(** ** Loops *)

Lemma fold_left_invariant {A B} (P : B -> Prop) (f : B -> A -> B)
    (xs : list A) :
  (forall b a, P b -> P (f b a)) ->
  forall b, P b -> P (fold_left f xs b).
Proof.
  intro Hstep. induction xs as [|x xs IH]; intros b Hb; simpl.
  - exact Hb.
  - apply IH, Hstep, Hb.
Qed.

Lemma for_of_invariant {A B} (P : B -> Prop) (body : B -> A -> M B)
    (xs : list A) :
  (forall acc x w acc' w',
      In x xs -> P acc -> body acc x w = (Ok acc', w') -> P acc') ->
  forall acc w final w',
    P acc -> for_of xs acc body w = (Ok final, w') -> P final.
Proof.
  induction xs as [|x xs IH]; intros Hstep acc w final w' Hacc Hrun;
    simpl in Hrun.
  - unfold ret in Hrun. injection Hrun as <- _. exact Hacc.
  - unfold mbind in Hrun.
    destruct (body acc x w) as [[acc' | e] w1] eqn:Hbody; [| discriminate].
    eapply IH; [| | exact Hrun].
    + intros acc0 y w2 acc1 w3 Hy. apply Hstep. right. exact Hy.
    + eapply Hstep; [left; reflexivity | exact Hacc | exact Hbody].
Qed.

(** ** Topic groups *)

Lemma push_to_group_keys_in (groups : list (string * list Post.t))
    (topic : string) (post : Post.t) (key : string) :
  In key (map fst (push_to_group groups topic post)) ->
  In key (map fst groups) \/ key = topic.
Proof.
  induction groups as [|[k members] rest IH]; simpl.
  - intros [<- | []]. right. reflexivity.
  - destruct (String.eqb k topic); simpl.
    + intros [<- | Hin]; [left; left; reflexivity | left; right; exact Hin].
    + intros [<- | Hin]; [left; left; reflexivity |].
      destruct (IH Hin) as [Hrest | ->];
        [left; right; exact Hrest | right; reflexivity].
Qed.

Lemma push_to_group_keys (groups : list (string * list Post.t))
    (topic : string) (post : Post.t) :
  NoDup (map fst groups) -> NoDup (map fst (push_to_group groups topic post)).
Proof.
  induction groups as [|[k members] rest IH]; simpl; intro Hnodup.
  - constructor; [intros [] | constructor].
  - destruct (String.eqb k topic) eqn:Hk; simpl; [exact Hnodup |].
    inversion Hnodup as [|? ? Hfresh Hrest]; subst.
    constructor; [| apply IH, Hrest].
    intro Hin. apply push_to_group_keys_in in Hin.
    destruct Hin as [Hin | ->]; [exact (Hfresh Hin) |].
    rewrite String.eqb_refl in Hk. discriminate.
Qed.

Lemma groupPostsByTopic_keys (posts : list Post.t) :
  distinct_keys (groupPostsByTopic posts).
Proof.
  unfold groupPostsByTopic.
  apply fold_left_invariant; [| constructor].
  intros r post Hr.
  apply fold_left_invariant; [| exact Hr].
  intros [groups | e] topic Hgroups; simpl; [| exact I].
  unfold add_to_group.
  destruct (array_includes inherited_keys topic); simpl; [exact I |].
  apply push_to_group_keys, Hgroups.
Qed.

Lemma distinct_keys_functional {V} (obj : list (string * V))
    (key : string) (v1 v2 : V) :
  NoDup (map fst obj) -> In (key, v1) obj -> In (key, v2) obj -> v1 = v2.
Proof.
  induction obj as [|[k v] rest IH]; simpl; intros Hnodup H1 H2.
  - contradiction.
  - inversion Hnodup as [|? ? Hfresh Hrest]; subst.
    destruct H1 as [E1 | H1]; destruct H2 as [E2 | H2].
    + congruence.
    + injection E1 as -> ->. exfalso. apply Hfresh.
      apply (in_map fst) in H2. exact H2.
    + injection E2 as -> ->. exfalso. apply Hfresh.
      apply (in_map fst) in H1. exact H1.
    + exact (IH Hrest H1 H2).
Qed.

Lemma Object_entries_In {V} (obj : list (string * V)) (entry : string * V) :
  In entry (Object_entries obj) <-> In entry obj.
Proof.
  unfold Object_entries.
  rewrite in_app_iff, sort_In, !filter_In.
  destruct (is_index (fst entry)); simpl; intuition congruence.
Qed.

(** ** One group *)

Lemma isSignificantTrend_true (trend : Trend.t) :
  isSignificantTrend trend = true <->
  (10 <= Trend.mentions (Trend.metrics trend))%Z
  /\ 100 <= Trend.velocity (Trend.metrics trend)
  /\ 2 <= Trend.growthRate (Trend.metrics trend).
Proof.
  unfold isSignificantTrend, Qgeb.
  rewrite !andb_true_iff, Z.leb_le, !Qle_bool_iff.
  split; [intros [[Hm Hv] Hg] | intros [Hm [Hv Hg]]];
    repeat split; assumption.
Qed.

Lemma analyzeTrend_Some (topic : string) (posts : list Post.t) (w : World)
    (trend : Trend.t) (w' : World) :
  analyzeTrend topic posts w = (Ok (Some trend), w') ->
  Trend.topic trend = topic
  /\ calculateTrendMetrics posts = Ok (Trend.metrics trend)
  /\ Trend.sentiment trend = analyzeSentimentDistribution posts.
Proof.
  unfold analyzeTrend, catch, mbind, lift.
  destruct (calculateTrendMetrics posts) as [metrics | e].
  - unfold Date_now, ret. intro Hrun. injection Hrun as <- _.
    simpl. auto.
  - unfold console_error, ret. discriminate.
Qed.

Lemma calculateTrendMetrics_mentions (posts : list Post.t)
    (metrics : Trend.Metrics) :
  calculateTrendMetrics posts = Ok metrics ->
  Trend.mentions metrics = Z.of_nat (List.length posts).
Proof.
  unfold calculateTrendMetrics.
  destruct posts as [|first rest]; [discriminate |].
  intro Hm. injection Hm as <-. reflexivity.
Qed.

(** What a turn of the loop leaves in the list of trends. *)
Lemma consider_group_step (trends : list Trend.t) (topic : string)
    (members : list Post.t) (w : World) (trends' : list Trend.t)
    (w' : World) :
  consider_group trends (topic, members) w = (Ok trends', w') ->
  trends' = trends
  \/ exists trend,
       trends' = trends ++ [trend]
       /\ (5 <= List.length members)%nat
       /\ Trend.topic trend = topic
       /\ calculateTrendMetrics members = Ok (Trend.metrics trend)
       /\ isSignificantTrend trend = true.
Proof.
  unfold consider_group.
  destruct (5 <=? List.length members)%nat eqn:Hsize.
  - unfold mbind.
    destruct (analyzeTrend topic members w) as [[[trend |] | e] w1] eqn:Hrun.
    + destruct (isSignificantTrend trend) eqn:Hsig; unfold ret; intro Hret;
        injection Hret as <- _; [right | left; reflexivity].
      exists trend. apply analyzeTrend_Some in Hrun.
      destruct Hrun as (Htopic & Hmetrics & _).
      apply Nat.leb_le in Hsize. auto.
    + unfold ret. intro Hret. injection Hret as <- _. left. reflexivity.
    + discriminate.
  - unfold ret. intro Hret. injection Hret as <- _. left. reflexivity.
Qed.

Lemma collected_from_significant_groups
    (groups : list (string * list Post.t)) (w : World)
    (trends : list Trend.t) (w' : World) :
  for_of (Object_entries groups) [] consider_group w = (Ok trends, w') ->
  Forall (from_significant_group groups) trends.
Proof.
  apply for_of_invariant; [| constructor].
  intros acc [topic members] w1 acc' w2 Hentry Hacc Hstep.
  apply (proj1 (Object_entries_In _ _)) in Hentry.
  apply consider_group_step in Hstep.
  destruct Hstep as [-> | (trend & -> & Hsize & Htopic & Hmetrics & Hsig)];
    [exact Hacc |].
  apply Forall_app. split; [exact Hacc |].
  constructor; [| constructor].
  exists members. subst topic.
  apply isSignificantTrend_true in Hsig. destruct Hsig as (Hm & Hv & Hg).
  repeat split; assumption.
Qed.

Section Service.

Variable select_posts_since : Z -> PostgrestResponse Post.t.

(** The trends returned are all collected from significant groups of the
    posts that were fetched. *)
Lemma identifyTrends_run (timeWindow : TimeWindow) (w : World)
    (trends : list Trend.t) (w' : World) :
  identifyTrends select_posts_since timeWindow w = (Ok trends, w') ->
  trends = []
  \/ exists posts groups,
       fst (getRecentPosts select_posts_since timeWindow w) = Ok posts
       /\ groupPostsByTopic posts = Ok groups
       /\ Forall (from_significant_group groups) trends.
Proof.
  unfold identifyTrends, catch, mbind, lift.
  destruct (getRecentPosts select_posts_since timeWindow w)
    as [[posts | e] w1] eqn:Hfetch.
  - destruct (groupPostsByTopic posts) as [groups | e] eqn:Hgroups.
    + destruct (for_of (Object_entries groups) [] consider_group w1)
        as [[raw | e] w2] eqn:Hloop.
      * unfold ret. intro Hret. injection Hret as <- _. right.
        exists posts, groups.
        split; [reflexivity |]. split; [exact Hgroups |].
        apply collected_from_significant_groups in Hloop.
        rewrite Forall_forall in Hloop |- *.
        intros trend Hin. apply (proj1 (sort_In _ _ _)) in Hin.
        exact (Hloop trend Hin).
      * unfold console_error, ret. intro Hret. injection Hret as <- _.
        left. reflexivity.
    + unfold console_error, ret. intro Hret. injection Hret as <- _.
      left. reflexivity.
  - unfold console_error, ret. intro Hret. injection Hret as <- _.
    left. reflexivity.
Qed.

(** Whatever the store answers, [identifyTrends] returns a list. *)
Lemma identifyTrends_total (timeWindow : TimeWindow) (w : World) :
  exists trends w',
    identifyTrends select_posts_since timeWindow w = (Ok trends, w').
Proof.
  unfold identifyTrends, catch.
  match goal with
  | |- context [match ?body w with _ => _ end] =>
      destruct (body w) as [[trends | e] w1]
  end.
  - exists trends, w1. reflexivity.
  - do 2 eexists. reflexivity.
Qed.

(** C3.  Every trend in the output of [identifyTrends] comes from a topic
    group of at least five posts and has at least 10 mentions, a velocity
    of at least 100 and a growth rate of at least 2; a topic group of
    exactly four posts produces no trend, and neither does a group whose
    metrics miss one of the three thresholds, whatever its size. *)
Theorem identifyTrends_two_gates (timeWindow : TimeWindow) (w : World)
    (trends : list Trend.t) (w' : World) :
  identifyTrends select_posts_since timeWindow w = (Ok trends, w') ->
  (forall trend, In trend trends ->
     exists posts groups members,
       fst (getRecentPosts select_posts_since timeWindow w) = Ok posts
       /\ groupPostsByTopic posts = Ok groups
       /\ In (Trend.topic trend, members) groups
       /\ (5 <= List.length members)%nat
       /\ calculateTrendMetrics members = Ok (Trend.metrics trend)
       /\ (10 <= Trend.mentions (Trend.metrics trend))%Z
       /\ 100 <= Trend.velocity (Trend.metrics trend)
       /\ 2 <= Trend.growthRate (Trend.metrics trend))
  /\ (forall posts groups topic members,
        fst (getRecentPosts select_posts_since timeWindow w) = Ok posts ->
        groupPostsByTopic posts = Ok groups ->
        In (topic, members) groups ->
        (List.length members = 4%nat
         \/ exists metrics,
              calculateTrendMetrics members = Ok metrics
              /\ ((Trend.mentions metrics < 10)%Z
                  \/ Trend.velocity metrics < 100
                  \/ Trend.growthRate metrics < 2)) ->
        forall trend, In trend trends -> Trend.topic trend <> topic).
Proof.
  intro Hrun. apply identifyTrends_run in Hrun.
  destruct Hrun as [-> | (posts & groups & Hfetch & Hgroups & Hall)].
  - split; intros; contradiction.
  - rewrite Forall_forall in Hall. split.
    + intros trend Hin.
      destruct (Hall trend Hin)
        as (members & Hmem & Hsize & Hmetrics & Hm & Hv & Hg).
      exists posts, groups, members. repeat split; assumption.
    + intros posts' groups' topic members Hfetch' Hgroups' Hmem Hfail
        trend Hin Htopic.
      rewrite Hfetch in Hfetch'. injection Hfetch' as <-.
      rewrite Hgroups in Hgroups'. injection Hgroups' as <-.
      destruct (Hall trend Hin)
        as (members' & Hmem' & Hsize & Hmetrics & Hm & Hv & Hg).
      rewrite Htopic in Hmem'.
      pose proof (groupPostsByTopic_keys posts) as Hkeys.
      rewrite Hgroups in Hkeys. simpl in Hkeys.
      pose proof (distinct_keys_functional _ _ _ _ Hkeys Hmem Hmem') as ->.
      destruct Hfail as [Hfour | (metrics & Hmetrics' & Hlow)]; [lia |].
      rewrite Hmetrics in Hmetrics'. injection Hmetrics' as Heq.
      rewrite <- Heq in Hlow.
      destruct Hlow as [Hlow | [Hlow | Hlow]]; [lia | lra | lra].
Qed.

End Service.

(** The ten sample posts form one trend, and the theorem applies to it. *)
Lemma identifyTrends_two_gates_witness :
  identifyTrends Examples.store_with_climate day Examples.w0
  = (Ok Examples.climate_trends, Examples.world_after_trends)
  /\ List.length Examples.climate_trends = 1%nat
  /\ forall trend, In trend Examples.climate_trends ->
       (10 <= Trend.mentions (Trend.metrics trend))%Z
       /\ 100 <= Trend.velocity (Trend.metrics trend)
       /\ 2 <= Trend.growthRate (Trend.metrics trend).
Proof.
  assert (Hrun : identifyTrends Examples.store_with_climate day Examples.w0
                 = (Ok Examples.climate_trends, Examples.world_after_trends))
    by (vm_compute; reflexivity).
  split; [exact Hrun |]. split; [reflexivity |].
  intros trend Hin.
  destruct (identifyTrends_two_gates _ _ _ Hrun) as [Hall _].
  destruct (Hall trend Hin)
    as (posts & groups & members & _ & _ & _ & _ & _ & Hm & Hv & Hg).
  auto.
Defined.

End TrendFacts.

(* ================================================================== *)
(** * Properties of the sentiment distribution *)
(* ================================================================== *)

Section DistributionFacts.

Import TrendAnalysis.
Local Open Scope Q_scope.

Lemma count_labels_from (posts : list Post.t) :
  forall a b c : nat,
    fold_left
      (fun '(positive, negative, neutral) post =>
         match label (Post.sentiment post) with
         | Positive => (S positive, negative, neutral)
         | Negative => (positive, S negative, neutral)
         | _ => (positive, negative, S neutral)
         end)
      posts (a, b, c)
    = ((a + Design.labelled Positive posts)%nat,
       (b + Design.labelled Negative posts)%nat,
       (c + Design.labelled_otherwise posts)%nat).
Proof.
  unfold Design.labelled, Design.labelled_otherwise.
  induction posts as [|post posts IH]; intros a b c; simpl.
  - repeat f_equal; lia.
  - destruct (label (Post.sentiment post)); rewrite IH; simpl;
      repeat f_equal; lia.
Qed.

(** The three counters: the posts labelled positive, those labelled
    negative, and all the others. *)
Lemma count_labels_spec (posts : list Post.t) :
  count_labels posts
  = (Design.labelled Positive posts, Design.labelled Negative posts,
     Design.labelled_otherwise posts).
Proof.
  unfold count_labels. rewrite count_labels_from. reflexivity.
Qed.

Lemma labelled_total (posts : list Post.t) :
  (Design.labelled Positive posts + Design.labelled Negative posts
   + Design.labelled_otherwise posts)%nat
  = List.length posts.
Proof.
  unfold Design.labelled, Design.labelled_otherwise.
  induction posts as [|post posts IH]; simpl; [reflexivity |].
  destruct (label (Post.sentiment post)); simpl; lia.
Qed.

Lemma labelled_otherwise_split (posts : list Post.t) :
  Design.labelled_otherwise posts
  = (Design.labelled Neutral posts + Design.labelled Mixed posts)%nat.
Proof.
  unfold Design.labelled, Design.labelled_otherwise.
  induction posts as [|post posts IH]; simpl; [reflexivity |].
  destruct (label (Post.sentiment post)); simpl; lia.
Qed.

Lemma js_div_finite (k n : nat) :
  (1 <= n)%nat -> js_div (Qnat k) (Qnat n) = Num (Qnat k / Qnat n).
Proof.
  intro Hn. unfold js_div.
  destruct (Qeq_bool (Qnat n) 0) eqn:Hzero; [| reflexivity].
  apply Qeq_bool_eq in Hzero. pose proof (Qnat_pos Hn). lra.
Qed.

Lemma analyzeSentimentDistribution_spec (posts : list Post.t) :
  analyzeSentimentDistribution posts
  = {| Trend.positive :=
         js_div (Qnat (Design.labelled Positive posts))
                (Qnat (List.length posts));
       Trend.negative :=
         js_div (Qnat (Design.labelled Negative posts))
                (Qnat (List.length posts));
       Trend.neutral :=
         js_div (Qnat (Design.labelled_otherwise posts))
                (Qnat (List.length posts));
       Trend.overall :=
         if (Design.labelled Negative posts
             <? Design.labelled Positive posts)%nat then Positive
         else if (Design.labelled Positive posts
                  <? Design.labelled Negative posts)%nat then Negative
         else Neutral |}.
Proof.
  unfold analyzeSentimentDistribution. rewrite count_labels_spec.
  reflexivity.
Qed.

(** C7, as amended.  For every non-empty post group the three fractions
    of the sentiment distribution are finite and sum to 1; the positive
    and the negative fraction are the counts of the posts with that label
    over the group size, the neutral fraction is the count of the posts
    labelled neither positive nor negative over the group size, and the
    overall label follows the majority between the positive and the
    negative count. *)
Theorem sentiment_distribution_sums_to_one (posts : list Post.t) :
  posts <> [] ->
  Design.distribution_of posts
    (Design.labelled Positive posts) (Design.labelled Negative posts)
    (Design.labelled_otherwise posts)
    (analyzeSentimentDistribution posts).
Proof.
  intro Hposts.
  assert (Hsize : (1 <= List.length posts)%nat).
  { destruct posts; [contradiction | simpl; lia]. }
  rewrite analyzeSentimentDistribution_spec.
  unfold Design.distribution_of. simpl.
  rewrite !js_div_finite by exact Hsize.
  do 3 eexists. repeat split; try reflexivity.
  - pose proof (Qnat_pos Hsize) as Hpos.
    assert (Htotal : Qnat (Design.labelled Positive posts)
                     + Qnat (Design.labelled Negative posts)
                     + Qnat (Design.labelled_otherwise posts)
                     == Qnat (List.length posts)).
    { rewrite <- !Qnat_plus, labelled_total. reflexivity. }
    revert Hpos Htotal.
    generalize (Qnat (Design.labelled Positive posts))
               (Qnat (Design.labelled Negative posts))
               (Qnat (Design.labelled_otherwise posts))
               (Qnat (List.length posts)).
    intros x y z size Hpos Htotal.
    setoid_replace (x / size + y / size + z / size)
      with ((x + y + z) / size) by (field; lra).
    rewrite Htotal. field. lra.
  - intro Hlt. apply Nat.ltb_lt in Hlt. rewrite Hlt. reflexivity.
  - intro Hlt.
    assert (Hge : (Design.labelled Negative posts
                   <? Design.labelled Positive posts)%nat = false)
      by (apply Nat.ltb_ge; lia).
    rewrite Hge. apply Nat.ltb_lt in Hlt. rewrite Hlt. reflexivity.
Qed.

Lemma sentiment_distribution_sums_to_one_witness :
  Examples.mixed_group <> []
  /\ Design.distribution_of Examples.mixed_group 0 0 1
       (analyzeSentimentDistribution Examples.mixed_group).
Proof.
  assert (Hne : Examples.mixed_group <> []) by discriminate.
  split; [exact Hne |].
  exact (sentiment_distribution_sums_to_one Hne).
Defined.

(** C7, as stated, fails on a group whose only post is labelled mixed:
    the neutral fraction is 1 although no post is labelled neutral. *)
Lemma distribution_as_stated_fails_on_mixed :
  Trend.neutral (analyzeSentimentDistribution Examples.mixed_group)
  = Num (1 / 1)
  /\ Design.labelled Neutral Examples.mixed_group = O
  /\ ~ Design.distribution_as_stated Examples.mixed_group
         (analyzeSentimentDistribution Examples.mixed_group).
Proof.
  split; [reflexivity |]. split; [reflexivity |].
  intros (p & n & u & _ & _ & Hu & _ & _ & _ & Hcount & _).
  vm_compute in Hu. injection Hu as <-.
  vm_compute in Hcount. discriminate.
Qed.

(** C9.  In the sentiment distribution every post labelled neither
    positive nor negative, so also every post labelled mixed, is counted
    in the neutral fraction; and when the positive and the negative count
    are equal the overall label is neutral, even for a group without any
    post labelled neutral. *)
Theorem neutral_share_takes_other_labels (posts : list Post.t) :
  Trend.neutral (analyzeSentimentDistribution posts)
  = js_div (Qnat (Design.labelled Neutral posts
                  + Design.labelled Mixed posts))
           (Qnat (List.length posts))
  /\ (Design.labelled Positive posts = Design.labelled Negative posts ->
      Trend.overall (analyzeSentimentDistribution posts) = Neutral)
  /\ (Design.labelled Neutral Examples.split_group = O
      /\ Trend.overall (analyzeSentimentDistribution Examples.split_group)
         = Neutral).
Proof.
  rewrite analyzeSentimentDistribution_spec. simpl.
  rewrite labelled_otherwise_split.
  split; [reflexivity |]. split; [| split; reflexivity].
  intros ->. rewrite Nat.ltb_irrefl. reflexivity.
Qed.

Lemma neutral_share_takes_other_labels_witness :
  Design.labelled Positive Examples.split_group
  = Design.labelled Negative Examples.split_group
  /\ Trend.overall (analyzeSentimentDistribution Examples.split_group)
     = Neutral.
Proof.
  assert (Htie : Design.labelled Positive Examples.split_group
                 = Design.labelled Negative Examples.split_group)
    by reflexivity.
  split; [exact Htie |].
  exact (proj1 (proj2 (neutral_share_takes_other_labels
                         Examples.split_group)) Htie).
Defined.

End DistributionFacts.

(* ================================================================== *)
(** * Properties of the sentiment scorer *)
(* ================================================================== *)

Section SentimentFacts.

Import SentimentScorer.
Local Open Scope Q_scope.

Variable analyze : string -> result Q.

Lemma confidence_clamped (x : Q) :
  0.5 <= Qmin 0.95 (Qmax 0.5 x) /\ Qmin 0.95 (Qmax 0.5 x) <= 0.95.
Proof.
  split; split_minmax; lra.
Qed.

(** The empty text holds no emotion keyword. *)
Lemma analyzeEmotions_empty :
  Emotions_equiv (analyzeEmotions EmptyString) (emotions neutralDefault).
Proof.
  unfold Emotions_equiv. vm_compute. repeat split; reflexivity.
Qed.

(** A raw score of zero is normalised to the neutral values. *)
Lemma normalised_zero (raw : Q) :
  raw == 0 ->
  Qmax (-1) (Qmin 1 (raw / 10)) == 0
  /\ Qabs raw == 0
  /\ Qgtb (Qmax (-1) (Qmin 1 (raw / 10))) 0.1 = false
  /\ Qltb (Qmax (-1) (Qmin 1 (raw / 10))) (-0.1) = false
  /\ Qmin 0.95 (Qmax 0.5 (Qabs (Qmax (-1) (Qmin 1 (raw / 10))) * 0.8 + 0.2))
     == 0.5.
Proof.
  intro Hraw.
  assert (Hscore : Qmax (-1) (Qmin 1 (raw / 10)) == 0).
  { assert (Hdiv : raw / 10 == 0) by (rewrite Hraw; reflexivity).
    revert Hdiv. generalize (raw / 10). intros q Hq.
    split_minmax; lra. }
  split; [exact Hscore |].
  split; [rewrite Hraw; reflexivity |].
  unfold Qgtb, Qltb.
  split; [| split].
  - assert (Hle : Qmax (-1) (Qmin 1 (raw / 10)) <= 0.1) by lra.
    apply Qle_bool_iff in Hle. rewrite Hle. reflexivity.
  - assert (Hle : -0.1 <= Qmax (-1) (Qmin 1 (raw / 10))) by lra.
    apply Qle_bool_iff in Hle. rewrite Hle. reflexivity.
  - rewrite Hscore. vm_compute. reflexivity.
Qed.

(** C6.  [analyzeSentiment] never lets an exception through: for every
    text the call returns an analysis; when the lexicon scorer throws it is
    the neutral default (score 0, magnitude 0, label neutral, the six
    emotions 0, confidence 0.5); the confidence returned always lies
    between 0.5 and 0.95; and for the empty text, where the lexicon finds
    nothing, the analysis equals the neutral default, confidence 0.5. *)
Theorem analyzeSentiment_never_throws (text : string) (w : World) :
  exists analysis w',
    analyzeSentiment analyze text w = (Ok analysis, w')
    /\ (forall e, analyze text = Throw e -> analysis = neutralDefault)
    /\ 0.5 <= confidence analysis /\ confidence analysis <= 0.95
    /\ (text = EmptyString ->
        (forall raw, analyze EmptyString = Ok raw -> raw == 0) ->
        SentimentAnalysis_equiv analysis neutralDefault
        /\ confidence analysis == 0.5).
Proof.
  unfold analyzeSentiment, analyzeSentiment_try, catch, lift, bind.
  destruct (analyze text) as [raw | e] eqn:Hraw.
  - do 2 eexists. split; [reflexivity |].
    split; [intros e He; discriminate |].
    cbn [confidence].
    split; [apply confidence_clamped |].
    split; [apply confidence_clamped |].
    intros -> Hsilent. specialize (Hsilent raw Hraw).
    destruct (normalised_zero Hsilent)
      as (Hscore & Hmagnitude & Hpositive & Hnegative & Hconfidence).
    unfold SentimentAnalysis_equiv.
    cbn [score magnitude label emotions confidence].
    rewrite Hpositive, Hnegative.
    repeat split; try assumption; try reflexivity;
      apply analyzeEmotions_empty.
  - do 2 eexists. split; [reflexivity |].
    split; [intros; reflexivity |].
    split; [vm_compute; discriminate |].
    split; [vm_compute; discriminate |].
    intros _ _. split; [| reflexivity].
    unfold SentimentAnalysis_equiv, Emotions_equiv.
    repeat split; reflexivity.
Qed.

End SentimentFacts.

(** The empty text under a lexicon that finds nothing. *)
Lemma analyzeSentiment_never_throws_witness :
  (forall raw, Examples.silent_lexicon EmptyString = Ok raw -> (raw == 0)%Q)
  /\ exists analysis w',
       SentimentScorer.analyzeSentiment Examples.silent_lexicon EmptyString
         Examples.w0
       = (Ok analysis, w')
       /\ SentimentAnalysis_equiv analysis SentimentScorer.neutralDefault
       /\ (confidence analysis == 0.5)%Q.
Proof.
  assert (Hsilent : forall raw,
             Examples.silent_lexicon EmptyString = Ok raw -> (raw == 0)%Q).
  { intros raw Hraw. injection Hraw as <-. reflexivity. }
  split; [exact Hsilent |].
  destruct (analyzeSentiment_never_throws Examples.silent_lexicon EmptyString
              Examples.w0)
    as (analysis & w' & Hrun & _ & _ & _ & Hempty).
  exists analysis, w'. split; [exact Hrun |].
  exact (Hempty eq_refl Hsilent).
Defined.

(* ================================================================== *)
(** * The contract of the query service *)
(* ================================================================== *)

Section QueryFacts.

Import RAG.
Local Open Scope Q_scope.

(** C4, as amended.  For every query text and optional filters: the
    retrieval step yields the candidates of the three sources merged into
    one list, sorted in descending order of relevance and cut to the
    first ten; a record returned by [query] carries the query text, the
    elapsed search time and the applied filters (no filters when none are
    given), and [query] leaves the query log as it was; [saveQuery], the
    operation that stores a record, never throws: it appends the record
    to the log or, when the store rejects or fails, writes one line to
    the console. *)
Theorem query_record_and_saveQuery (env : Collaborators) (text : string)
    (filters : option QueryFilters) (w : World) :
  (exists w1,
      retrieveContent env text filters w
      = (Ok (Design.ranked env text filters), w1))
  /\ (exists arranged,
         Permutation arranged (Design.candidates env text filters)
         /\ StronglySorted
              (fun a b => RAGResult.relevance b <= RAGResult.relevance a)
              arranged
         /\ Design.ranked env text filters = firstn 10 arranged)
  /\ (forall record w',
         query env text filters w = (Ok record, w') ->
         RAGQuery.query record = text
         /\ RAGQuery.searchTime (RAGQuery.metadata record) = Design.elapsed w
         /\ RAGQuery.filters (RAGQuery.metadata record)
            = match filters with Some given => given | None => no_filters end
         /\ rag_queries w' = rag_queries w)
  /\ (forall record w1,
         exists w2,
           saveQuery env record w1 = (Ok tt, w2)
           /\ match insert_outcome env record with
              | Inserted =>
                  rag_queries w2 = rag_queries w1 ++ [record]
                  /\ console w2 = console w1
              | Rejected _ | Failed _ =>
                  rag_queries w2 = rag_queries w1
                  /\ console w2
                     = "Error saving RAG query:"%string :: console w1
              end).
Proof.
  split.
  { destruct (retrieveContent_run env text filters w) as (w1 & Hrun & _).
    exists w1. exact Hrun. }
  split; [exact (proj1 (ranked_sorted_top10 env text filters)) |].
  split.
  - intros record w' Hrun.
    destruct (query_run env text filters w Hrun)
      as (Htext & Htime & Hfilters & _ & _ & Hlog).
    auto.
  - intros record w1. apply saveQuery_run.
Qed.

(** The sample query returns a record, and the theorem applies to it. *)
Lemma query_record_and_saveQuery_witness :
  exists record w',
    query Examples.env0 "climate" None Examples.w0 = (Ok record, w')
    /\ RAGQuery.query record = "climate"%string
    /\ RAGQuery.searchTime (RAGQuery.metadata record) = 5%Z
    /\ RAGQuery.filters (RAGQuery.metadata record) = no_filters
    /\ rag_queries w' = [].
Proof.
  assert (Hrun : exists record w',
             query Examples.env0 "climate" None Examples.w0 = (Ok record, w')).
  { do 2 eexists. reflexivity. }
  destruct Hrun as (record & w' & Hrun).
  exists record, w'. split; [exact Hrun |].
  destruct (query_record_and_saveQuery Examples.env0 "climate" None
              Examples.w0) as (_ & _ & Hrecord & _).
  exact (Hrecord record w' Hrun).
Defined.

(** C4, as stated, fails on the sample query: the results of the record
    are the generator's answer, not the ranked retrieval set, and nothing
    has been stored when [query] returns. *)
Lemma query_contract_fails :
  (exists record w',
      query Examples.env0 "climate" None Examples.w0 = (Ok record, w')
      /\ RAGQuery.results record
         = Json (JArr [JObj [("generated_text"%string, JStr "climate")]])
      /\ Design.ranked Examples.env0 "climate" None
         = [post_result "climate" (Examples.climate_post 1 0 Positive)]
      /\ rag_queries w' = [])
  /\ ~ Design.query_contract Examples.env0 "climate" None Examples.w0.
Proof.
  assert (Hrun : exists record w',
             query Examples.env0 "climate" None Examples.w0 = (Ok record, w')
             /\ RAGQuery.results record
                = Json (JArr [JObj [("generated_text"%string,
                                     JStr "climate")]])
             /\ Design.ranked Examples.env0 "climate" None
                = [post_result "climate" (Examples.climate_post 1 0 Positive)]
             /\ rag_queries w' = []).
  { do 2 eexists. split; [reflexivity |].
    split; [reflexivity |]. split; reflexivity. }
  split; [exact Hrun |].
  intro Hcontract.
  destruct Hrun as (record & w' & Hrun & Hresults & _ & Hlog).
  destruct (Hcontract record w' Hrun) as (Hranked & _ & _ & Hstored).
  rewrite Hresults in Hranked. discriminate Hranked.
Qed.

End QueryFacts.

(* ================================================================== *)
(** * Further properties of the sentiment scorer *)
(* ================================================================== *)

Section SentimentRanges.

Import SentimentScorer.
Local Open Scope Q_scope.

Variable analyze : string -> result Q.

(** What a call returns: the neutral default, or the analysis computed
    from the raw score of the lexicon. *)
Lemma analyzeSentiment_cases (text : string) (w : World) :
  exists analysis w',
    analyzeSentiment analyze text w = (Ok analysis, w')
    /\ (analysis = neutralDefault
        \/ exists raw,
             analyze text = Ok raw
             /\ analyzeSentiment_try analyze text = Ok analysis).
Proof.
  unfold analyzeSentiment, catch, lift.
  destruct (analyzeSentiment_try analyze text) as [analysis | e] eqn:Htry.
  - do 2 eexists. split; [reflexivity |]. right.
    destruct (analyze text) as [raw | e] eqn:Hraw.
    + exists raw. split; reflexivity.
    + unfold analyzeSentiment_try, bind in Htry. rewrite Hraw in Htry.
      discriminate.
  - do 2 eexists. split; [reflexivity |]. left. reflexivity.
Qed.

Lemma Qgtb_true (a b : Q) : Qgtb a b = true <-> b < a.
Proof.
  unfold Qgtb, Qltb. rewrite negb_true_iff.
  split; intro H.
  - apply Qnot_le_lt. intro Hle. apply Qle_bool_iff in Hle. congruence.
  - destruct (Qle_bool a b) eqn:Hle; [| reflexivity].
    apply Qle_bool_iff in Hle. lra.
Qed.

Lemma Qgtb_false (a b : Q) : Qgtb a b = false <-> a <= b.
Proof.
  unfold Qgtb, Qltb. rewrite negb_false_iff. apply Qle_bool_iff.
Qed.

Lemma Qltb_true (a b : Q) : Qltb a b = true <-> a < b.
Proof.
  apply (Qgtb_true b a).
Qed.

Lemma Qltb_false (a b : Q) : Qltb a b = false <-> b <= a.
Proof.
  apply (Qgtb_false b a).
Qed.

(** X1.  Every analysis that [analyzeSentiment] returns has a score
    between -1 and 1 and a non-negative magnitude, and its label agrees
    with the score: positive above 0.1, negative below -0.1, neutral in
    between; the label is never mixed. *)
Theorem analyzeSentiment_label_follows_score (text : string) (w : World) :
  exists analysis w',
    analyzeSentiment analyze text w = (Ok analysis, w')
    /\ -1 <= score analysis /\ score analysis <= 1
    /\ 0 <= magnitude analysis
    /\ match label analysis with
       | Positive => 0.1 < score analysis
       | Negative => score analysis < -0.1
       | Neutral => -0.1 <= score analysis /\ score analysis <= 0.1
       | Mixed => False
       end.
Proof.
  destruct (analyzeSentiment_cases text w)
    as (analysis & w' & Hrun & [-> | (raw' & Hraw & Htry)]).
  - do 2 eexists. split; [exact Hrun |]. simpl. lra.
  - exists analysis, w'. split; [exact Hrun |].
    unfold analyzeSentiment_try, bind in Htry. rewrite Hraw in Htry.
    injection Htry as <-. cbn [score magnitude label].
    split; [split_minmax; lra |].
    split; [split_minmax; lra |].
    split; [apply Qabs_nonneg |].
    destruct (Qgtb (Qmax (-1) (Qmin 1 (raw' / 10))) 0.1) eqn:Hpos.
    + apply Qgtb_true in Hpos. exact Hpos.
    + apply Qgtb_false in Hpos.
      destruct (Qltb (Qmax (-1) (Qmin 1 (raw' / 10))) (-0.1)) eqn:Hneg.
      * apply Qltb_true in Hneg. exact Hneg.
      * apply Qltb_false in Hneg. split; assumption.
Qed.

(** X2.  An analysis labelled neutral always carries the confidence 0.5:
    the confidence rises above its floor only for scores beyond 0.375 in
    absolute value, which are never labelled neutral. *)
Theorem analyzeSentiment_neutral_confidence (text : string) (w : World) :
  exists analysis w',
    analyzeSentiment analyze text w = (Ok analysis, w')
    /\ (Qabs (score analysis) <= 0.375 -> confidence analysis == 0.5)
    /\ (label analysis = Neutral -> confidence analysis == 0.5).
Proof.
  destruct (analyzeSentiment_cases text w)
    as (analysis & w' & Hrun & [-> | (raw' & Hraw & Htry)]).
  - do 2 eexists. split; [exact Hrun |]. simpl. split; reflexivity.
  - exists analysis, w'. split; [exact Hrun |].
    unfold analyzeSentiment_try, bind in Htry. rewrite Hraw in Htry.
    injection Htry as <-. cbn [score confidence label].
    assert (Hfloor : forall s, Qabs s <= 0.375 ->
              Qmin 0.95 (Qmax 0.5 (Qabs s * 0.8 + 0.2)) == 0.5).
    { intros s Hs. pose proof (Qabs_nonneg s) as Hs0.
      revert Hs Hs0. generalize (Qabs s). intros a Ha Ha0.
      split_minmax; lra. }
    split; [apply Hfloor |].
    intro Hlabel. apply Hfloor.
    destruct (Qgtb (Qmax (-1) (Qmin 1 (raw' / 10))) 0.1) eqn:Hpos;
      [discriminate |].
    destruct (Qltb (Qmax (-1) (Qmin 1 (raw' / 10))) (-0.1)) eqn:Hneg;
      [discriminate |].
    apply Qgtb_false in Hpos. apply Qltb_false in Hneg.
    apply Qabs_Qle_condition. split; lra.
Qed.

End SentimentRanges.

Section EmotionRanges.

Import SentimentScorer.
Local Open Scope Q_scope.

Lemma calculateEmotionScore_fifths (text : string) (words : list string) :
  exists hits,
    (hits <= 5)%nat /\ calculateEmotionScore text words == Qnat hits / 5.
Proof.
  unfold calculateEmotionScore.
  set (n := fold_left _ words O).
  assert (Hfive : Qnat 5 == 5) by reflexivity.
  destruct (Nat.le_gt_cases n 5) as [Hle | Hgt].
  - exists n. split; [exact Hle |].
    apply Q.min_r. apply Qle_shift_div_r; [lra |].
    apply Qnat_le in Hle. lra.
  - exists 5%nat. split; [lia |].
    assert (H5 : (5 <= n)%nat) by lia.
    apply Qnat_le in H5.
    rewrite Q.min_l.
    + rewrite Hfive. field.
    + apply Qle_shift_div_l; [lra |]. lra.
Qed.

(** X3.  Each of the six emotion intensities of [analyzeEmotions] is a
    number of fifths between 0 and 1: the keyword hits of its list,
    capped at five. *)
Theorem analyzeEmotions_fifths (text : string) :
  Forall
    (fun intensity =>
       exists hits, (hits <= 5)%nat /\ intensity == Qnat hits / 5)
    [joy (analyzeEmotions text); sadness (analyzeEmotions text);
     anger (analyzeEmotions text); fear (analyzeEmotions text);
     surprise (analyzeEmotions text); disgust (analyzeEmotions text)].
Proof.
  unfold analyzeEmotions. cbn [joy sadness anger fear surprise disgust].
  repeat constructor; apply calculateEmotionScore_fifths.
Qed.

End EmotionRanges.

(* ================================================================== *)
(** * Properties of the virality factors *)
(* ================================================================== *)

Section FactorFacts.

Import ViralityFactors.
Local Open Scope Q_scope.

Variable toFixed2 : Q -> string.

(** A rule of the form [if (test) factors.push(x)] keeps what holds of
    every factor, provided it holds of [x] when the test passes. *)
Lemma Forall_push {A} (P : A -> Prop) (test : bool) (l : list A) (x : A) :
  Forall P l -> (test = true -> P x) ->
  Forall P (if test then l ++ [x] else l).
Proof.
  intros Hl Hx. destruct test; [| exact Hl].
  apply Forall_app. split; [exact Hl |].
  constructor; [apply Hx; reflexivity | constructor].
Qed.

(** X4.  When the sentiment score lies between -1 and 1, every factor
    that [identifyViralityFactors] reports has an impact above 0 and at
    most 1. *)
Theorem identifyViralityFactors_impact_range
    (e : Engagement) (s : SentimentAnalysis) (m : Metadata)
    (content : string) :
  -1 <= score s -> score s <= 1 ->
  Forall (fun factor => 0 < impact factor /\ impact factor <= 1)
    (identifyViralityFactors toFixed2 e s m content).
Proof.
  intros Hlow Hhigh. unfold identifyViralityFactors. cbv zeta.
  repeat apply Forall_push; [apply Forall_nil | ..]; cbn [impact];
    intro Htest.
  - apply Z.ltb_lt in Htest.
    assert (Hq : 1000 < inject_Z (likes e + shares e + comments e)).
    { change 1000 with (inject_Z 1000). rewrite <- Zlt_Qlt. exact Htest. }
    assert (Hshare :
              0.1 < inject_Z (likes e + shares e + comments e) / 10000)
      by (apply Qlt_shift_div_l; lra).
    revert Hshare.
    generalize (inject_Z (likes e + shares e + comments e) / 10000).
    intros share Hshare. split; split_minmax; lra.
  - apply Qgtb_true in Htest. revert Htest.
    generalize (inject_Z (shares e) / Qmax 1 (inject_Z (likes e))).
    intros ratio Hratio. split; split_minmax; lra.
  - apply andb_true_iff in Htest. destruct Htest as [_ Htest].
    apply Qgtb_true in Htest. lra.
  - apply andb_true_iff in Htest. destruct Htest as [_ Htest].
    apply Qltb_true in Htest.
    assert (Habs : Qabs (score s) == - score s) by (apply Qabs_neg; lra).
    rewrite Habs. lra.
  - apply Nat.ltb_lt in Htest.
    match goal with
    | |- context [Qnat ?n] =>
        pose proof (Qnat_le Htest) as Hn; revert Hn; generalize (Qnat n)
    end.
    change (Qnat 1) with 1.
    intros n Hn. split; split_minmax; lra.
  - apply Nat.ltb_lt in Htest.
    match goal with
    | |- context [Qnat ?n] =>
        pose proof (Qnat_le Htest) as Hn; revert Hn; generalize (Qnat n)
    end.
    change (Qnat 1) with 1.
    intros n Hn. split; split_minmax; lra.
  - lra.
Qed.

(** The types of the factors reported, in order, for given outcomes of
    the seven tests. *)
Lemma identifyViralityFactors_types
    (e : Engagement) (s : SentimentAnalysis) (m : Metadata)
    (content : string) :
  exists high viral positive negative trending mentioned timely : bool,
    (positive && negative = false)
    /\ map type (identifyViralityFactors toFixed2 e s m content)
       = (if high then ["high_engagement"%string] else [])
         ++ (if viral then ["viral_sharing"%string] else [])
         ++ (if positive then ["positive_emotion"%string] else [])
         ++ (if negative then ["controversial"%string] else [])
         ++ (if trending then ["trending_hashtags"%string] else [])
         ++ (if mentioned then ["influencer_mentions"%string] else [])
         ++ (if timely then ["time_sensitive"%string] else []).
Proof.
  unfold identifyViralityFactors. cbv zeta.
  match goal with
  | |- context [if ?t7 then (if ?t6 then (if ?t5 then (if ?t4 then
         (if ?t3 then (if ?t2 then (if ?t1 then _ else _) ++ _ else _) ++ _
          else _) ++ _ else _) ++ _ else _) ++ _ else _) ++ _ else _] =>
      exists t1, t2, t3, t4, t5, t6, t7;
      split;
      [ destruct (label s); simpl; rewrite ?andb_false_r; reflexivity
      | destruct t1, t2, t3, t4, t5, t6, t7; reflexivity ]
  end.
Qed.

(** X5.  [identifyViralityFactors] reports each type at most once and at
    most six factors in all: the positive-emotion and the controversial
    factor never come together. *)
Theorem identifyViralityFactors_distinct_types
    (e : Engagement) (s : SentimentAnalysis) (m : Metadata)
    (content : string) :
  NoDup (map type (identifyViralityFactors toFixed2 e s m content))
  /\ (List.length (identifyViralityFactors toFixed2 e s m content) <= 6)%nat
  /\ ~ (In "positive_emotion"%string
          (map type (identifyViralityFactors toFixed2 e s m content))
        /\ In "controversial"%string
             (map type (identifyViralityFactors toFixed2 e s m content))).
Proof.
  destruct (identifyViralityFactors_types e s m content)
    as (t1 & t2 & t3 & t4 & t5 & t6 & t7 & Hexcl & Htypes).
  rewrite <- (length_map type). rewrite Htypes.
  destruct t3, t4; try discriminate Hexcl;
    destruct t1, t2, t5, t6, t7; simpl;
    (split; [repeat constructor; simpl; intuition discriminate |]);
    (split; [lia |]); intros [Hp Hc]; simpl in Hp, Hc;
    intuition discriminate.
Qed.

End FactorFacts.

Lemma identifyViralityFactors_impact_range_witness :
  (-1 <= 0.8 /\ 0.8 <= 1)%Q
  /\ Forall
       (fun factor =>
          (0 < ViralityFactors.impact factor
           /\ ViralityFactors.impact factor <= 1)%Q)
       (ViralityFactors.identifyViralityFactors (fun _ => "0.00"%string)
          {| likes := 2000; shares := 900; comments := 10; views := None |}
          {| score := 0.8; magnitude := 8; label := Positive;
             emotions := Examples.no_emotions; confidence := 0.84 |}
          {| hashtags := ["#FYP"%string]; mentions := ["@ann"%string];
             urls := []; language := "en" |}
          "Breaking: it is live").
Proof.
  assert (Hlow : (-1 <= 0.8)%Q) by lra.
  assert (Hhigh : (0.8 <= 1)%Q) by lra.
  split; [split; assumption |].
  apply (identifyViralityFactors_impact_range (fun _ => "0.00"%string)
           {| likes := 2000; shares := 900; comments := 10; views := None |}
           {| score := 0.8; magnitude := 8; label := Positive;
              emotions := Examples.no_emotions; confidence := 0.84 |});
    assumption.
Defined.

(* ================================================================== *)
(** * Properties of the virality prediction *)
(* ================================================================== *)

Section PredictionFacts.

Import Prediction.
Local Open Scope Q_scope.

(** The loop counts one comparison per neighbouring pair and at most as
    many increases. *)
Lemma compare_neighbours_counts (l : list DataPoint) :
  forall i t,
    exists k,
      (k <= pred (List.length l))%nat
      /\ compare_neighbours l i t
         = ((i + k)%nat, (t + pred (List.length l))%nat).
Proof.
  induction l as [|a l IH]; intros i t.
  - exists O. simpl. split; [lia | f_equal; lia].
  - destruct l as [|b l].
    + exists O. simpl. split; [lia | f_equal; lia].
    + change (compare_neighbours (a :: b :: l) i t)
        with (compare_neighbours (b :: l)
                (if Qgtb (score a) (score b) then S i else i) (S t)).
      destruct (IH (if Qgtb (score a) (score b) then S i else i) (S t))
        as (k & Hk & Hrun).
      rewrite Hrun. simpl in Hk |- *.
      destruct (Qgtb (score a) (score b)).
      * exists (S k). split; [lia | f_equal; lia].
      * exists k. split; [lia | f_equal; lia].
Qed.

(** When every point scores above its successor, every comparison is an
    increase. *)
Lemma compare_neighbours_all (l : list DataPoint) :
  StronglySorted (fun a b => score b < score a) l ->
  forall i t,
    compare_neighbours l i t
    = ((i + pred (List.length l))%nat, (t + pred (List.length l))%nat).
Proof.
  induction 1 as [|a l Hl IH Ha]; intros i t.
  - simpl. f_equal; lia.
  - destruct l as [|b l].
    + simpl. f_equal; lia.
    + change (compare_neighbours (a :: b :: l) i t)
        with (compare_neighbours (b :: l)
                (if Qgtb (score a) (score b) then S i else i) (S t)).
      inversion Ha as [|? ? Hab _]; subst.
      apply Qgtb_true in Hab. rewrite Hab, IH. simpl. f_equal; lia.
Qed.

Lemma recent_length (historicalData : list DataPoint) :
  List.length
    (slice0 5
       (sort (fun a b => inject_Z (timestamp b) - inject_Z (timestamp a))
             historicalData))
  = Nat.min 5 (List.length historicalData).
Proof.
  unfold slice0. rewrite length_firstn.
  rewrite (Permutation_length (sort_perm _ historicalData)). reflexivity.
Qed.

(** X6.  [predictViralityTrend] answers stable with confidence 0.5 for
    fewer than two data points; whatever the history, its confidence
    lies between 0.5 and 1, and a stable answer always carries 0.5. *)
Theorem predictViralityTrend_confidence_range (currentScore : Q)
    (historicalData : list DataPoint) :
  ((List.length historicalData < 2)%nat ->
   predictViralityTrend currentScore historicalData
   = {| trend := stable; confidence := 0.5 |})
  /\ 0.5 <= confidence (predictViralityTrend currentScore historicalData)
  /\ confidence (predictViralityTrend currentScore historicalData) <= 1
  /\ (trend (predictViralityTrend currentScore historicalData) = stable ->
      confidence (predictViralityTrend currentScore historicalData) == 0.5).
Proof.
  unfold predictViralityTrend.
  destruct (List.length historicalData <? 2)%nat eqn:Hfew.
  - simpl. repeat split; try reflexivity; lra.
  - apply Nat.ltb_ge in Hfew.
    split; [intro; lia |].
    pose proof (recent_length historicalData) as Hlen.
    match goal with
    | |- context [compare_neighbours ?recent O O] =>
        destruct (compare_neighbours_counts recent O O) as (k & Hk & Hrun);
        rewrite Hrun; rewrite Hlen in Hk |- *
    end.
    cbn [Nat.add].
    assert (Hratio :
              0 <= Qnat k
                   / Qnat (pred (Nat.min 5 (List.length historicalData)))
              /\ Qnat k
                 / Qnat (pred (Nat.min 5 (List.length historicalData)))
                 <= 1)
      by (apply ratio_in_unit_interval; lia).
    revert Hratio.
    generalize (Qnat k
                / Qnat (pred (Nat.min 5 (List.length historicalData)))).
    intros ratio [Hlow Hhigh].
    destruct (Qgtb ratio 0.6) eqn:Hup.
    + apply Qgtb_true in Hup. cbn [confidence trend].
      split; [lra |]. split; [lra | intro H; discriminate H].
    + destruct (Qltb ratio 0.4) eqn:Hdown.
      * apply Qltb_true in Hdown. cbn [confidence trend].
        split; [lra |]. split; [lra | intro H; discriminate H].
      * cbn [confidence trend].
        split; [lra |]. split; [lra | intro H; reflexivity].
Qed.

(** X7.  With two data points or more, [predictViralityTrend] answers
    stable exactly when half of the comparisons between neighbours among
    the five latest points are increases. *)
Theorem predictViralityTrend_stable_iff_half (currentScore : Q)
    (historicalData : list DataPoint) :
  (2 <= List.length historicalData)%nat ->
  let recentData :=
    slice0 5
      (sort (fun a b => inject_Z (timestamp b) - inject_Z (timestamp a))
            historicalData) in
  trend (predictViralityTrend currentScore historicalData) = stable
  <-> (2 * fst (compare_neighbours recentData O O)
       = snd (compare_neighbours recentData O O))%nat.
Proof.
  intros Hmany recentData. unfold predictViralityTrend.
  assert (Hfew : (List.length historicalData <? 2)%nat = false)
    by (apply Nat.ltb_ge; exact Hmany).
  rewrite Hfew. fold recentData.
  pose proof (recent_length historicalData) as Hlen. fold recentData in Hlen.
  destruct (compare_neighbours_counts recentData O O) as (k & Hk & Hrun).
  rewrite Hrun. rewrite Hlen in Hk |- *. cbn [Nat.add fst snd].
  assert (Hn : (1 <= pred (Nat.min 5 (List.length historicalData)) <= 4)%nat)
    by lia.
  revert Hk Hn.
  generalize (pred (Nat.min 5 (List.length historicalData))).
  intros n Hk Hn.
  assert (Hcases : n = 1%nat \/ n = 2%nat \/ n = 3%nat \/ n = 4%nat) by lia.
  assert (Hks : k = 0%nat \/ k = 1%nat \/ k = 2%nat \/ k = 3%nat
                \/ k = 4%nat) by lia.
  destruct Hcases as [-> | [-> | [-> | ->]]];
    destruct Hks as [-> | [-> | [-> | [-> | ->]]]];
    try (exfalso; lia);
    vm_compute; split; intro H;
    first [reflexivity | discriminate H | lia].
Qed.

Lemma predictViralityTrend_stable_iff_half_witness :
  (2 <= List.length
          [{| timestamp := 1; score := 0.1 |};
           {| timestamp := 2; score := 0.3 |};
           {| timestamp := 3; score := 0.2 |}])%nat
  /\ trend
       (predictViralityTrend 0
          [{| timestamp := 1; score := 0.1 |};
           {| timestamp := 2; score := 0.3 |};
           {| timestamp := 3; score := 0.2 |}])
     = stable.
Proof.
  assert (Hmany :
            (2 <= List.length
                    [{| timestamp := 1; score := 0.1 |};
                     {| timestamp := 2; score := 0.3 |};
                     {| timestamp := 3; score := 0.2 |}])%nat)
    by (simpl; lia).
  split; [exact Hmany |].
  apply (proj2 (predictViralityTrend_stable_iff_half 0 _ Hmany)).
  reflexivity.
Defined.

(** A history sorted by descending time with distinct times, in which a
    later point always scores higher, is sorted by descending score. *)
Lemma rising_history_sorted (all l : list DataPoint) :
  (forall a b, In a all -> In b all ->
               (timestamp a < timestamp b)%Z -> score a < score b) ->
  (forall a, In a l -> In a all) ->
  NoDup (map timestamp l) ->
  StronglySorted
    (fun a b => inject_Z (timestamp b) <= inject_Z (timestamp a)) l ->
  StronglySorted (fun a b => score b < score a) l.
Proof.
  intros Hrise Hsub Hnodup Hsorted.
  induction Hsorted as [|a l Hl IH Ha]; [constructor |].
  inversion Hnodup as [|? ? Hfresh Hrest]; subst.
  constructor.
  - apply IH; [intros b Hb; apply Hsub; right; exact Hb | exact Hrest].
  - rewrite Forall_forall in Ha |- *. intros b Hb.
    apply Hrise;
      [apply Hsub; right; exact Hb | apply Hsub; left; reflexivity |].
    specialize (Ha b Hb). rewrite <- Zle_Qle in Ha.
    assert (Hne : timestamp b <> timestamp a).
    { intro Heq. apply Hfresh. rewrite <- Heq. apply in_map. exact Hb. }
    lia.
Qed.

(** X8.  On a history of two or more points with distinct times in which
    every later point scores higher than every earlier one,
    [predictViralityTrend] answers increasing with confidence 1. *)
Theorem predictViralityTrend_rising (currentScore : Q)
    (historicalData : list DataPoint) :
  (2 <= List.length historicalData)%nat ->
  NoDup (map timestamp historicalData) ->
  (forall a b, In a historicalData -> In b historicalData ->
               (timestamp a < timestamp b)%Z -> score a < score b) ->
  trend (predictViralityTrend currentScore historicalData) = increasing
  /\ confidence (predictViralityTrend currentScore historicalData) == 1.
Proof.
  intros Hmany Hnodup Hrise. unfold predictViralityTrend.
  assert (Hfew : (List.length historicalData <? 2)%nat = false)
    by (apply Nat.ltb_ge; exact Hmany).
  rewrite Hfew.
  set (sorted :=
         sort (fun a b => inject_Z (timestamp b) - inject_Z (timestamp a))
              historicalData).
  assert (Hperm : Permutation sorted historicalData) by apply sort_perm.
  assert (Hsorted : StronglySorted (fun a b => score b < score a) sorted).
  { apply (rising_history_sorted historicalData).
    - exact Hrise.
    - intros a Ha. exact (Permutation_in _ Hperm Ha).
    - apply (Permutation_NoDup (l := map timestamp historicalData));
        [| exact Hnodup].
      apply Permutation_map, Permutation_sym, Hperm.
    - apply (sort_sorted (fun p => inject_Z (timestamp p))). }
  pose proof (recent_length historicalData) as Hlen. fold sorted in Hlen.
  rewrite (compare_neighbours_all
             (StronglySorted_firstn 5 Hsorted : StronglySorted _
                                                  (slice0 5 sorted))).
  rewrite Hlen. cbn [Nat.add].
  assert (Hn : (1 <= pred (Nat.min 5 (List.length historicalData)))%nat)
    by lia.
  revert Hn. generalize (pred (Nat.min 5 (List.length historicalData))).
  intros n Hn. pose proof (Qnat_pos Hn) as Hpos.
  assert (Hone : Qnat n / Qnat n == 1) by (field; lra).
  assert (Hup : Qgtb (Qnat n / Qnat n) 0.6 = true)
    by (apply Qgtb_true; rewrite Hone; lra).
  rewrite Hup. cbn [trend confidence]. split; [reflexivity | exact Hone].
Qed.

Lemma predictViralityTrend_rising_witness :
  trend
    (predictViralityTrend 0
       [{| timestamp := 2; score := 0.5 |};
        {| timestamp := 1; score := 0.1 |};
        {| timestamp := 3; score := 0.9 |}])
  = increasing.
Proof.
  refine (proj1 (predictViralityTrend_rising 0
                   [{| timestamp := 2; score := 0.5 |};
                    {| timestamp := 1; score := 0.1 |};
                    {| timestamp := 3; score := 0.9 |}] _ _ _)).
  - simpl. lia.
  - repeat constructor; simpl; intuition discriminate.
  - intros a b Ha Hb Hlt. simpl in Ha, Hb.
    destruct Ha as [<- | [<- | [<- | []]]];
      destruct Hb as [<- | [<- | [<- | []]]];
      simpl in Hlt |- *; first [lia | lra].
Defined.

End PredictionFacts.

(* ================================================================== *)
(** * Properties of strings and of insertion-ordered maps *)
(* ================================================================== *)

Section StringFacts.

Lemma lower_char_idempotent (c : ascii) :
  lower_char (lower_char c) = lower_char c.
Proof.
  destruct c as [[] [] [] [] [] [] [] []]; reflexivity.
Qed.

Lemma toLowerCase_idempotent (s : string) :
  toLowerCase (toLowerCase s) = toLowerCase s.
Proof.
  induction s as [|c s IH]; simpl; [reflexivity |].
  rewrite lower_char_idempotent, IH. reflexivity.
Qed.

Lemma toLowerCase_app (a b : string) :
  toLowerCase (a ++ b) = (toLowerCase a ++ toLowerCase b)%string.
Proof.
  induction a as [|c a IH]; simpl; [reflexivity |].
  rewrite IH. reflexivity.
Qed.

Lemma prefix_refl_app (a b : string) : String.prefix a (a ++ b) = true.
Proof.
  induction a as [|c a IH]; simpl; [destruct b; reflexivity |].
  destruct (ascii_dec c c) as [_ | Hne]; [exact IH | contradiction].
Qed.

Lemma includes_unfold (s sub : string) :
  includes s sub
  = if String.prefix sub s then true
    else match s with
         | EmptyString => false
         | String _ s' => includes s' sub
         end.
Proof.
  destruct s; reflexivity.
Qed.

Lemma includes_prefix (s sub : string) :
  String.prefix sub s = true -> includes s sub = true.
Proof.
  intro Hprefix. rewrite includes_unfold, Hprefix. reflexivity.
Qed.

Lemma includes_app (a sub b : string) : includes (a ++ sub ++ b) sub = true.
Proof.
  induction a as [|c a IH].
  - change (EmptyString ++ sub ++ b)%string with (sub ++ b)%string.
    apply includes_prefix. apply prefix_refl_app.
  - rewrite includes_unfold.
    destruct (String.prefix sub (String c a ++ sub ++ b));
      [reflexivity | exact IH].
Qed.

Lemma array_includes_In (arr : list string) (x : string) :
  array_includes arr x = true <-> In x arr.
Proof.
  unfold array_includes. rewrite existsb_exists. split.
  - intros (y & Hy & Heq). apply String.eqb_eq in Heq. subst. exact Hy.
  - intro Hx. exists x. split; [exact Hx | apply String.eqb_refl].
Qed.

Lemma set_add_In (set : list string) (x y : string) :
  In y (set_add set x) <-> In y set \/ y = x.
Proof.
  unfold set_add. destruct (array_includes set x) eqn:Hin.
  - apply array_includes_In in Hin. split; [auto |].
    intros [Hy | ->]; assumption.
  - rewrite in_app_iff. simpl. intuition.
Qed.

Lemma set_add_NoDup (set : list string) (x : string) :
  NoDup set -> NoDup (set_add set x).
Proof.
  intro Hset. unfold set_add.
  destruct (array_includes set x) eqn:Hin; [exact Hset |].
  apply NoDup_app; [exact Hset | repeat constructor; intros [] |].
  intros y Hy [<- | []].
  apply array_includes_In in Hy. congruence.
Qed.

End StringFacts.

Section MapFacts.

Context {K V : Type} (eqb : K -> K -> bool).
Hypothesis eqb_eq : forall a b, eqb a b = true <-> a = b.

Lemma JSMap_get_set (m : list (K * V)) (k k' : K) (v : V) :
  JSMap.get eqb (JSMap.set eqb m k v) k'
  = if eqb k k' then Some v else JSMap.get eqb m k'.
Proof.
  induction m as [|[k0 v0] m IH]; simpl.
  - reflexivity.
  - destruct (eqb k0 k) eqn:H0; simpl.
    + apply eqb_eq in H0. subst k0.
      destruct (eqb k k'); reflexivity.
    + rewrite IH. destruct (eqb k0 k') eqn:H0'; [| reflexivity].
      destruct (eqb k k') eqn:Hkk'; [| reflexivity].
      apply eqb_eq in H0'. apply eqb_eq in Hkk'. subst k0 k'.
      assert (Hrefl : eqb k k = true) by (apply eqb_eq; reflexivity).
      congruence.
Qed.

Lemma JSMap_set_keys_in (m : list (K * V)) (k k' : K) (v : V) :
  In k' (map fst (JSMap.set eqb m k v)) <-> In k' (map fst m) \/ k' = k.
Proof.
  induction m as [|[k0 v0] m IH]; simpl.
  - intuition.
  - destruct (eqb k0 k) eqn:H0; simpl.
    + apply eqb_eq in H0. subst k0. intuition.
    + rewrite IH. intuition.
Qed.

Lemma JSMap_set_NoDup (m : list (K * V)) (k : K) (v : V) :
  NoDup (map fst m) -> NoDup (map fst (JSMap.set eqb m k v)).
Proof.
  induction m as [|[k0 v0] m IH]; simpl; intro Hm.
  - repeat constructor. intros [].
  - inversion Hm as [|? ? Hfresh Hrest]; subst.
    destruct (eqb k0 k) eqn:H0; simpl.
    + constructor; assumption.
    + constructor; [| apply IH, Hrest].
      rewrite JSMap_set_keys_in. intros [Hin | ->]; [exact (Hfresh Hin) |].
      assert (Hrefl : eqb k k = true) by (apply eqb_eq; reflexivity).
      congruence.
Qed.

Lemma JSMap_get_In (m : list (K * V)) (k : K) (v : V) :
  JSMap.get eqb m k = Some v -> In (k, v) m.
Proof.
  induction m as [|[k0 v0] m IH]; simpl; [discriminate |].
  destruct (eqb k0 k) eqn:H0.
  - apply eqb_eq in H0. subst k0. intro Hv. injection Hv as ->.
    left. reflexivity.
  - intro Hv. right. exact (IH Hv).
Qed.

Lemma JSMap_In_get (m : list (K * V)) (k : K) (v : V) :
  NoDup (map fst m) -> In (k, v) m -> JSMap.get eqb m k = Some v.
Proof.
  induction m as [|[k0 v0] m IH]; simpl; intros Hm Hin; [contradiction |].
  inversion Hm as [|? ? Hfresh Hrest]; subst.
  destruct Hin as [Heq | Hin].
  - injection Heq as -> ->.
    assert (Hrefl : eqb k k = true) by (apply eqb_eq; reflexivity).
    rewrite Hrefl. reflexivity.
  - destruct (eqb k0 k) eqn:H0.
    + apply eqb_eq in H0. subst k0. exfalso. apply Hfresh.
      apply (in_map fst) in Hin. exact Hin.
    + exact (IH Hrest Hin).
Qed.

End MapFacts.

(* ================================================================== *)
(** * Properties of topics and of topic groups *)
(* ================================================================== *)

Section TopicFacts.

Import TrendAnalysis Specs.

Lemma fold_set_add_In {A} (f : A -> string) (xs : list A) :
  forall (init : list string) (y : string),
    In y (fold_left (fun set x => set_add set (f x)) xs init)
    <-> In y init \/ exists x, In x xs /\ y = f x.
Proof.
  induction xs as [|x xs IH]; intros init y; simpl.
  - split; [auto | intros [H | (x & [] & _)]; exact H].
  - rewrite IH, set_add_In. split.
    + intros [[H | ->] | (x' & Hx' & ->)].
      * left. exact H.
      * right. exists x. auto.
      * right. exists x'. auto.
    + intros [H | (x' & [<- | Hx'] & ->)].
      * left. left. exact H.
      * left. right. reflexivity.
      * right. exists x'. auto.
Qed.

Lemma fold_set_add_NoDup {A} (f : A -> string) (xs : list A) :
  forall init,
    NoDup init -> NoDup (fold_left (fun set x => set_add set (f x)) xs init).
Proof.
  induction xs as [|x xs IH]; intros init Hinit; simpl.
  - exact Hinit.
  - apply IH, set_add_NoDup, Hinit.
Qed.

Lemma pairs_have_space (words : list string) :
  Forall (fun phrase => exists a b, phrase = (a ++ " " ++ b)%string)
    (pairs words).
Proof.
  induction words as [|a [|b rest] IH]; simpl; try constructor.
  - exists a, b. reflexivity.
  - exact IH.
Qed.

Lemma triples_have_space (words : list string) :
  Forall (fun phrase => exists a b, phrase = (a ++ " " ++ b)%string)
    (triples words).
Proof.
  induction words as [|a [|b [|c rest]] IH]; simpl; try constructor.
  - exists a, (b ++ " " ++ c)%string. reflexivity.
  - exact IH.
Qed.

Lemma extractKeyPhrases_shape (content : string) :
  Forall (fun phrase => exists a b, phrase = (a ++ " " ++ b)%string)
    (extractKeyPhrases content).
Proof.
  unfold extractKeyPhrases, slice0.
  apply Forall_forall. intros phrase Hin. apply In_firstn in Hin.
  apply in_app_or in Hin.
  destruct Hin as [Hin | Hin];
    [ pose proof (pairs_have_space
                    (filter (fun word => (3 <? String.length word)%nat)
                       (split_ws
                          (string_filter
                             (fun c => is_word_char c || is_space c)
                             (toLowerCase content))))) as Hall
    | pose proof (triples_have_space
                    (filter (fun word => (3 <? String.length word)%nat)
                       (split_ws
                          (string_filter
                             (fun c => is_word_char c || is_space c)
                             (toLowerCase content))))) as Hall ];
    rewrite Forall_forall in Hall; exact (Hall phrase Hin).
Qed.

(** X9.  [extractKeyPhrases] returns at most ten phrases, and each of
    them joins two or three words with a space. *)
Theorem extractKeyPhrases_at_most_ten (content : string) :
  (List.length (extractKeyPhrases content) <= 10)%nat
  /\ Forall (fun phrase => includes phrase " " = true)
       (extractKeyPhrases content).
Proof.
  split.
  - unfold extractKeyPhrases, slice0. rewrite length_firstn. lia.
  - eapply Forall_impl; [| apply extractKeyPhrases_shape].
    intros phrase (a & b & ->). apply includes_app.
Qed.

Lemma extractTopics_In (post : Post.t) (topic : string) :
  In topic (extractTopics post)
  <-> (exists hashtag,
          In hashtag (hashtags (Post.metadata post))
          /\ topic = toLowerCase hashtag)
      \/ (exists phrase,
             In phrase (extractKeyPhrases (Post.content post))
             /\ topic = toLowerCase phrase).
Proof.
  unfold extractTopics. rewrite fold_set_add_In, fold_set_add_In.
  simpl. intuition.
Qed.

Lemma extractTopics_NoDup (post : Post.t) : NoDup (extractTopics post).
Proof.
  unfold extractTopics. apply fold_set_add_NoDup, fold_set_add_NoDup.
  constructor.
Qed.

Lemma extractTopics_lower_case (post : Post.t) (topic : string) :
  In topic (extractTopics post) -> lower_case topic.
Proof.
  intro Hin. apply extractTopics_In in Hin.
  destruct Hin as [(x & _ & ->) | (x & _ & ->)];
    apply toLowerCase_idempotent.
Qed.

(** X10.  The topics of a post are pairwise distinct and free of
    upper-case letters: each is a lower-cased hashtag of the post or a
    lower-cased key phrase of its content. *)
Theorem extractTopics_distinct_lower_case (post : Post.t) :
  NoDup (extractTopics post)
  /\ Forall lower_case (extractTopics post)
  /\ forall topic,
       In topic (extractTopics post)
       <-> (exists hashtag,
               In hashtag (hashtags (Post.metadata post))
               /\ topic = toLowerCase hashtag)
           \/ (exists phrase,
                  In phrase (extractKeyPhrases (Post.content post))
                  /\ topic = toLowerCase phrase).
Proof.
  split; [| split].
  - apply extractTopics_NoDup.
  - apply Forall_forall. apply extractTopics_lower_case.
  - apply extractTopics_In.
Qed.

(** ** Groups *)

Lemma push_to_group_set (groups : list (string * list Post.t))
    (topic : string) (post : Post.t) :
  push_to_group groups topic post
  = JSMap.set String.eqb groups topic
      (match JSMap.get String.eqb groups topic with
       | Some members => members ++ [post]
       | None => [post]
       end).
Proof.
  induction groups as [|[key members] rest IH]; simpl; [reflexivity |].
  destruct (String.eqb key topic); [reflexivity |].
  rewrite IH. reflexivity.
Qed.

Lemma fold_left_map {A B C} (f : C -> B -> C) (g : A -> B) (xs : list A) :
  forall init,
    fold_left f (map g xs) init = fold_left (fun acc x => f acc (g x)) xs init.
Proof.
  induction xs as [|x xs IH]; intro init; simpl; [reflexivity | apply IH].
Qed.

(** The two nested loops of [groupPostsByTopic] are one loop over the
    pairs of a topic and a post. *)
Lemma groupPostsByTopic_pairs (posts : list Post.t) :
  groupPostsByTopic posts
  = fold_left
      (fun groups pair =>
         bind groups
           (fun groups => add_to_group groups (fst pair) (snd pair)))
      (topic_pairs posts) (Ok []).
Proof.
  unfold groupPostsByTopic, topic_pairs.
  generalize (Ok (@nil (string * list Post.t))).
  induction posts as [|post posts IH]; intro init; simpl.
  - reflexivity.
  - rewrite fold_left_app, fold_left_map. apply IH.
Qed.

Lemma paired_with_app {V} (key : string) (a b : list (string * V)) :
  paired_with key (a ++ b) = paired_with key a ++ paired_with key b.
Proof.
  unfold paired_with. rewrite filter_app, map_app. reflexivity.
Qed.

(** The state of the grouping loop after a list of pairs: it has thrown
    when a topic among them is an inherited property name; otherwise
    every key holds the posts paired with it, in order. *)
Lemma grouping_loop (pairs : list (string * Post.t)) :
  let outcome :=
    fold_left
      (fun groups pair =>
         bind groups
           (fun groups => add_to_group groups (fst pair) (snd pair)))
      pairs (Ok []) in
  if existsb (fun pair => array_includes inherited_keys (fst pair)) pairs
  then exists e, outcome = Throw e
  else exists groups,
         outcome = Ok groups
         /\ NoDup (map fst groups)
         /\ forall key,
              JSMap.get String.eqb groups key
              = match paired_with key pairs with
                | [] => None
                | members => Some members
                end.
Proof.
  induction pairs as [|[topic post] pairs IH] using rev_ind; cbn zeta.
  - simpl. exists []. split; [reflexivity |].
    split; [constructor | reflexivity].
  - cbn zeta in IH. rewrite fold_left_app, existsb_app.
    cbn [fold_left existsb fst snd]. rewrite orb_false_r.
    destruct (existsb _ pairs).
    + destruct IH as (e & ->). cbn [orb bind]. exists e. reflexivity.
    + destruct IH as (groups & -> & Hkeys & Hget). cbn [orb bind].
      unfold add_to_group.
      destruct (array_includes inherited_keys topic).
      * eexists. reflexivity.
      * exists (push_to_group groups topic post).
        split; [reflexivity |]. rewrite push_to_group_set.
        split; [apply (JSMap_set_NoDup String.eqb String.eqb_eq), Hkeys |].
        intro key.
        rewrite (JSMap_get_set String.eqb String.eqb_eq).
        rewrite paired_with_app. unfold paired_with at 2. simpl.
        rewrite (Hget topic).
        destruct (String.eqb topic key) eqn:Hkey.
        -- apply String.eqb_eq in Hkey. subst key. simpl.
           destruct (paired_with topic pairs); reflexivity.
        -- simpl. rewrite app_nil_r. apply Hget.
Qed.

Lemma paired_with_topics (key : string) (post : Post.t)
    (topics : list string) :
  NoDup topics ->
  paired_with key (map (fun topic => (topic, post)) topics)
  = if array_includes topics key then [post] else [].
Proof.
  unfold paired_with. induction topics as [|t topics IH]; intro Hnodup.
  - reflexivity.
  - inversion Hnodup as [|? ? Hfresh Hrest]; subst.
    simpl. rewrite (String.eqb_sym key t).
    destruct (String.eqb t key) eqn:Hkey; simpl.
    + apply String.eqb_eq in Hkey. subst key.
      rewrite (IH Hrest).
      destruct (array_includes topics t) eqn:Hin; [| reflexivity].
      apply array_includes_In in Hin. contradiction.
    + apply IH, Hrest.
Qed.

Lemma paired_with_posts (key : string) (posts : list Post.t) :
  paired_with key (topic_pairs posts) = filter (has_topic key) posts.
Proof.
  unfold topic_pairs. induction posts as [|post posts IH]; [reflexivity |].
  simpl. rewrite paired_with_app, IH, paired_with_topics.
  - unfold has_topic.
    destruct (array_includes (extractTopics post) key); reflexivity.
  - apply extractTopics_NoDup.
Qed.

Lemma existsb_topic_pairs (posts : list Post.t) :
  existsb (fun pair => array_includes inherited_keys (fst pair))
    (topic_pairs posts) = true
  <-> exists post topic,
        In post posts /\ In topic (extractTopics post)
        /\ In topic inherited_keys.
Proof.
  unfold topic_pairs. rewrite existsb_exists. split.
  - intros ([topic post] & Hin & Hkey). apply in_flat_map in Hin.
    destruct Hin as (post' & Hpost & Hin). apply in_map_iff in Hin.
    destruct Hin as (topic' & Heq & Htopic). injection Heq as -> ->.
    exists post, topic. apply array_includes_In in Hkey. auto.
  - intros (post & topic & Hpost & Htopic & Hkey).
    exists (topic, post). split.
    + apply in_flat_map. exists post. split; [exact Hpost |].
      apply in_map_iff. exists topic. auto.
    + apply array_includes_In. exact Hkey.
Qed.

(** X11.  When [groupPostsByTopic] returns, the group of a topic is
    exactly the posts that have the topic, in their original order and
    so never empty, and every topic of every post has its group. *)
Theorem groupPostsByTopic_members (posts : list Post.t)
    (groups : list (string * list Post.t)) :
  groupPostsByTopic posts = Ok groups ->
  (forall topic members,
      In (topic, members) groups ->
      members = filter (has_topic topic) posts /\ members <> [])
  /\ (forall post topic,
         In post posts -> In topic (extractTopics post) ->
         exists members, In (topic, members) groups /\ In post members).
Proof.
  intro Hrun. rewrite groupPostsByTopic_pairs in Hrun.
  pose proof (grouping_loop (topic_pairs posts)) as Hloop.
  cbn zeta in Hloop. rewrite Hrun in Hloop.
  destruct (existsb _ (topic_pairs posts)).
  - destruct Hloop as (e & He). discriminate.
  - destruct Hloop as (groups' & Heq & Hkeys & Hget).
    injection Heq as <-. split.
    + intros topic members Hin.
      apply (JSMap_In_get String.eqb String.eqb_eq _ _ _ Hkeys) in Hin.
      rewrite Hget, paired_with_posts in Hin.
      destruct (filter (has_topic topic) posts) eqn:Hfilter;
        [discriminate |].
      injection Hin as <-. split; [reflexivity | discriminate].
    + intros post topic Hpost Htopic.
      assert (Hin : In post (filter (has_topic topic) posts)).
      { apply filter_In. split; [exact Hpost |].
        apply array_includes_In. exact Htopic. }
      specialize (Hget topic). rewrite paired_with_posts in Hget.
      destruct (filter (has_topic topic) posts) as [|p members] eqn:Hfilter;
        [contradiction |].
      exists (p :: members). split; [| exact Hin].
      apply (JSMap_get_In String.eqb String.eqb_eq). exact Hget.
Qed.

Lemma groupPostsByTopic_members_witness :
  exists groups,
    groupPostsByTopic Examples.climate_posts = Ok groups
    /\ forall topic members,
         In (topic, members) groups ->
         members = filter (has_topic topic) Examples.climate_posts
         /\ members <> [].
Proof.
  eexists. split; [reflexivity |].
  apply (groupPostsByTopic_members Examples.climate_posts). reflexivity.
Defined.

Lemma groupPostsByTopic_outcome (posts : list Post.t) :
  (exists e, groupPostsByTopic posts = Throw e)
  <-> exists post topic,
        In post posts /\ In topic (extractTopics post)
        /\ In topic inherited_keys.
Proof.
  rewrite groupPostsByTopic_pairs.
  pose proof (grouping_loop (topic_pairs posts)) as Hloop.
  cbn zeta in Hloop. rewrite <- existsb_topic_pairs.
  destruct (existsb _ (topic_pairs posts)).
  - split; [reflexivity | intros _; exact Hloop].
  - destruct Hloop as (groups & Hrun & _).
    split; [| discriminate].
    intros (e & He). rewrite Hrun in He. discriminate.
Qed.

(** X12.  [groupPostsByTopic] throws exactly when a topic of some post
    is a property name that the empty object literal inherits; as topics
    are lower-cased that means the topic "constructor" or "__proto__". *)
Theorem groupPostsByTopic_throws_iff (posts : list Post.t) :
  (exists e, groupPostsByTopic posts = Throw e)
  <-> exists post topic,
        In post posts /\ In topic (extractTopics post)
        /\ (topic = "constructor"%string \/ topic = "__proto__"%string).
Proof.
  rewrite groupPostsByTopic_outcome. split.
  - intros (post & topic & Hpost & Htopic & Hkey).
    exists post, topic. split; [exact Hpost |]. split; [exact Htopic |].
    pose proof (extractTopics_lower_case _ _ Htopic) as Hlower.
    unfold inherited_keys in Hkey. simpl in Hkey.
    repeat (destruct Hkey as [<- | Hkey];
            [first [left; reflexivity | right; reflexivity
                   | vm_compute in Hlower; discriminate Hlower] |]).
    contradiction.
  - intros (post & topic & Hpost & Htopic & Hkey).
    exists post, topic. split; [exact Hpost |]. split; [exact Htopic |].
    destruct Hkey as [-> | ->]; simpl; auto.
Qed.

(** ** Hashtags as the collector writes them *)

Lemma match_marked_shape (marker : ascii) (class : ascii -> bool)
    (content : string) :
  forall skip,
    Forall (fun tag => exists run, tag = String marker run)
      (DataCollection.match_marked marker class skip content).
Proof.
  induction content as [|c rest IH]; intro skip; simpl.
  - constructor.
  - destruct skip as [|k]; [| apply IH].
    destruct (Ascii.eqb c marker) eqn:Hc; simpl; [| apply IH].
    destruct (negb _); [| apply IH].
    apply Ascii.eqb_eq in Hc. subst c.
    constructor; [eexists; reflexivity | apply IH].
Qed.

Lemma phrase_not_inherited (phrase : string) :
  (exists a b, phrase = (a ++ " " ++ b)%string) ->
  ~ In (toLowerCase phrase) inherited_keys.
Proof.
  intros (a & b & ->) Hkey.
  assert (Hspace : includes (toLowerCase (a ++ " " ++ b)) " " = true).
  { rewrite !toLowerCase_app. apply includes_app. }
  revert Hkey Hspace. generalize (toLowerCase (a ++ " " ++ b)).
  intros key Hkey Hspace.
  unfold inherited_keys in Hkey. simpl in Hkey.
  repeat (destruct Hkey as [Hkey | Hkey];
          [rewrite <- Hkey in Hspace; vm_compute in Hspace;
           discriminate Hspace |]).
  contradiction.
Qed.

Lemma marked_not_inherited (run : string) :
  ~ In (toLowerCase (String "#" run)) inherited_keys.
Proof.
  unfold inherited_keys. simpl. intuition discriminate.
Qed.

(** X13.  On posts whose hashtags are what the collector extracts from
    their content, [groupPostsByTopic] does not throw: such a hashtag
    starts with [#] and a key phrase holds a space, so no topic is a
    property name that the object literal inherits. *)
Theorem groupPostsByTopic_on_collected_posts (posts : list Post.t) :
  (forall post, In post posts ->
     hashtags (Post.metadata post)
     = DataCollection.matchHashtags (Post.content post)) ->
  exists groups, groupPostsByTopic posts = Ok groups.
Proof.
  intro Hcollected.
  destruct (groupPostsByTopic posts) as [groups | e] eqn:Hrun;
    [exists groups; reflexivity |].
  exfalso.
  assert (Hthrow : exists e, groupPostsByTopic posts = Throw e)
    by (exists e; exact Hrun).
  apply groupPostsByTopic_outcome in Hthrow.
  destruct Hthrow as (post & topic & Hpost & Htopic & Hkey).
  apply extractTopics_In in Htopic.
  destruct Htopic as [(hashtag & Hin & ->) | (phrase & Hin & ->)].
  - rewrite (Hcollected post Hpost) in Hin.
    pose proof (match_marked_shape "#" is_word_char (Post.content post) 0)
      as Hshape.
    rewrite Forall_forall in Hshape.
    destruct (Hshape hashtag Hin) as (run & ->).
    exact (marked_not_inherited Hkey).
  - pose proof (extractKeyPhrases_shape (Post.content post)) as Hshape.
    rewrite Forall_forall in Hshape.
    exact (phrase_not_inherited (Hshape phrase Hin) Hkey).
Qed.

End TopicFacts.

Lemma groupPostsByTopic_on_collected_posts_witness :
  exists groups,
    TrendAnalysis.groupPostsByTopic Samples.collected_posts = Ok groups.
Proof.
  apply (groupPostsByTopic_on_collected_posts Samples.collected_posts).
  intros post Hin. simpl in Hin.
  repeat (destruct Hin as [<- | Hin]; [reflexivity |]).
  contradiction.
Defined.

(* ================================================================== *)
(** * Properties of the trend aggregator as a whole *)
(* ================================================================== *)

Section AggregatorFacts.

Import TrendAnalysis Specs.
Local Open Scope Q_scope.

Lemma filter_partition_perm {A} (test : A -> bool) (l : list A) :
  Permutation (filter test l ++ filter (fun x => negb (test x)) l) l.
Proof.
  induction l as [|a l IH]; simpl; [constructor |].
  destruct (test a); simpl.
  - constructor. exact IH.
  - apply Permutation_sym. apply Permutation_cons_app.
    apply Permutation_sym. exact IH.
Qed.

Lemma Object_entries_perm {V} (obj : list (string * V)) :
  Permutation (Object_entries obj) obj.
Proof.
  unfold Object_entries.
  eapply Permutation_trans; [| apply filter_partition_perm].
  apply Permutation_app_tail. apply sort_perm.
Qed.

Lemma Object_entries_keys {V} (obj : list (string * V)) :
  NoDup (map fst obj) -> NoDup (map fst (Object_entries obj)).
Proof.
  apply Permutation_NoDup, Permutation_map, Permutation_sym,
    Object_entries_perm.
Qed.

(** The loop over the groups adds at most one trend per key. *)
Lemma for_of_topics (entries : list (string * list Post.t)) :
  forall (acc : list Trend.t) (w : World) (final : list Trend.t)
         (w' : World),
    for_of entries acc consider_group w = (Ok final, w') ->
    NoDup (map fst entries) ->
    NoDup (map Trend.topic acc) ->
    (forall trend, In trend acc ->
       ~ In (Trend.topic trend) (map fst entries)) ->
    NoDup (map Trend.topic final).
Proof.
  induction entries as [|[topic members] entries IH];
    intros acc w final w' Hrun Hkeys Hacc Hfresh; cbn [for_of] in Hrun.
  - unfold ret in Hrun. injection Hrun as <- _. exact Hacc.
  - unfold mbind in Hrun.
    destruct (consider_group acc (topic, members) w)
      as [[acc' | e] w1] eqn:Hstep; [| discriminate].
    simpl in Hkeys. inversion Hkeys as [|? ? Hnew Hrest]; subst.
    apply consider_group_step in Hstep.
    destruct Hstep as [-> | (trend & -> & _ & Htopic & _)].
    + apply (IH _ _ _ _ Hrun Hrest Hacc).
      intros trend Hin Hkey. apply (Hfresh trend Hin). right. exact Hkey.
    + apply (IH _ _ _ _ Hrun Hrest).
      * rewrite map_app. simpl. rewrite Htopic.
        apply NoDup_app;
          [exact Hacc | constructor; [intros [] | constructor] |].
        intros key Hin [<- | []]. apply in_map_iff in Hin.
        destruct Hin as (other & Hother & Hin).
        apply (Hfresh other Hin). left. symmetry. exact Hother.
      * intros other Hin Hkey. apply in_app_or in Hin.
        destruct Hin as [Hin | [<- | []]].
        -- apply (Hfresh other Hin). right. exact Hkey.
        -- rewrite Htopic in Hkey. exact (Hnew Hkey).
Qed.

Lemma hours_at_most_one (span : Z) :
  (span <= 3600000)%Z -> inject_Z span / inject_Z (1000 * 60 * 60) <= 1.
Proof.
  intro Hspan. apply Qle_shift_div_r; [reflexivity |].
  rewrite Qmult_1_l. rewrite <- Zle_Qle. exact Hspan.
Qed.

(** X14.  [calculateTrendMetrics] throws on the empty list only.
    Otherwise the mentions are the number of posts and the engagement
    their likes, shares and comments; the growth rate is positive and at
    most the mentions; and when the first post is no more than an hour
    after the last, the growth rate is the mentions and the velocity is
    the engagement. *)
Theorem calculateTrendMetrics_rates (posts : list Post.t) :
  match calculateTrendMetrics posts with
  | Throw _ => posts = []
  | Ok metrics =>
      posts <> []
      /\ Trend.mentions metrics = Z.of_nat (List.length posts)
      /\ Trend.engagement metrics = total_interactions posts
      /\ 0 < Trend.growthRate metrics
      /\ Trend.growthRate metrics <= inject_Z (Trend.mentions metrics)
      /\ ((time_span posts <= 3600000)%Z ->
          Trend.growthRate metrics == inject_Z (Trend.mentions metrics)
          /\ Trend.velocity metrics
             == inject_Z (Trend.engagement metrics))
  end.
Proof.
  unfold calculateTrendMetrics. destruct posts as [|first rest];
    [reflexivity |].
  cbn [Trend.mentions Trend.engagement Trend.growthRate Trend.velocity].
  set (posts := first :: rest).
  set (hours := inject_Z (Post.timestamp first
                          - Post.timestamp (List.last posts first))
                / inject_Z (1000 * 60 * 60)).
  assert (Hlen : 0 < Qnat (List.length posts))
    by (apply Qnat_pos; simpl; lia).
  assert (Hdiv : 1 <= Qmax 1 hours) by apply Q.le_max_l.
  fold (Qnat (List.length posts)).
  split; [discriminate |]. split; [reflexivity |].
  split; [reflexivity |]. split; [| split].
  - apply Qlt_shift_div_l; [lra |]. lra.
  - apply Qle_shift_div_r; [lra |]. nra.
  - intro Hspan. apply hours_at_most_one in Hspan.
    fold posts in Hspan. fold hours in Hspan.
    assert (Hone : Qmax 1 hours == 1) by (apply Q.max_l; exact Hspan).
    rewrite Hone. split; field.
Qed.

Section Service.

Variable select_posts_since : Z -> PostgrestResponse Post.t.

(** X15.  Whatever the store holds, [identifyTrends] returns its trends
    in the order of their velocity, fastest first, and no two of them
    have the same topic. *)
Theorem identifyTrends_sorted_distinct (timeWindow : TimeWindow)
    (w : World) :
  exists trends w',
    identifyTrends select_posts_since timeWindow w = (Ok trends, w')
    /\ StronglySorted
         (fun a b =>
            Trend.velocity (Trend.metrics b)
            <= Trend.velocity (Trend.metrics a))
         trends
    /\ NoDup (map Trend.topic trends).
Proof.
  unfold identifyTrends, catch, mbind, lift.
  destruct (getRecentPosts select_posts_since timeWindow w)
    as [[posts | e] w1] eqn:Hfetch.
  - destruct (groupPostsByTopic posts) as [groups | e] eqn:Hgroups.
    + destruct (for_of (Object_entries groups) [] consider_group w1)
        as [[raw | e] w2] eqn:Hloop.
      * unfold ret. do 2 eexists. split; [reflexivity |]. split.
        -- apply (sort_sorted (fun t => Trend.velocity (Trend.metrics t))).
        -- apply (Permutation_NoDup
                    (Permutation_map _ (Permutation_sym (sort_perm _ raw)))).
           apply (for_of_topics _ _ _ Hloop).
           ++ apply Object_entries_keys.
              pose proof (groupPostsByTopic_keys posts) as Hkeys.
              rewrite Hgroups in Hkeys. exact Hkeys.
           ++ constructor.
           ++ intros trend [].
      * unfold console_error, ret. do 2 eexists.
        split; [reflexivity |]. split; constructor.
    + unfold console_error, ret. do 2 eexists.
      split; [reflexivity |]. split; constructor.
  - unfold console_error, ret. do 2 eexists.
    split; [reflexivity |]. split; constructor.
Qed.

(** X16.  When the store answers with an error, [identifyTrends] returns
    the empty list; it has read the clock once and written one line to the
    console. *)
Theorem identifyTrends_store_error (timeWindow : TimeWindow) (w : World)
    (e : string) :
  (forall startTime, error (select_posts_since startTime) = Some e) ->
  identifyTrends select_posts_since timeWindow w
  = (Ok [],
     {| clock := clock w; ticks := S (ticks w);
        console := "Error identifying trends:"%string :: console w;
        rag_queries := rag_queries w |}).
Proof.
  intro Hdown.
  unfold identifyTrends, getRecentPosts.
  unfold catch, mbind, lift, Date_now, throw, console_error.
  cbv beta iota zeta. rewrite Hdown. reflexivity.
Qed.

(** X17.  When a post in the store carries a hashtag that reads
    "constructor" or "__proto__" once lower-cased, [identifyTrends]
    returns the empty list and writes one line to the console, whatever
    the other posts are. *)
Theorem identifyTrends_inherited_hashtag (timeWindow : TimeWindow)
    (w : World) (rows : list Post.t) (post : Post.t) (hashtag : string) :
  (forall startTime,
      select_posts_since startTime = {| data := Some rows; error := None |}) ->
  In post rows ->
  In hashtag (hashtags (Post.metadata post)) ->
  toLowerCase hashtag = "constructor"%string
  \/ toLowerCase hashtag = "__proto__"%string ->
  identifyTrends select_posts_since timeWindow w
  = (Ok [],
     {| clock := clock w; ticks := S (ticks w);
        console := "Error identifying trends:"%string :: console w;
        rag_queries := rag_queries w |}).
Proof.
  intros Hstore Hpost Hhashtag Hkey.
  assert (Hthrow : exists e, groupPostsByTopic rows = Throw e).
  { apply groupPostsByTopic_outcome. exists post, (toLowerCase hashtag).
    split; [exact Hpost |]. split.
    - apply extractTopics_In. left. exists hashtag. auto.
    - destruct Hkey as [-> | ->]; simpl; auto. }
  destruct Hthrow as (e & Hthrow).
  unfold identifyTrends, getRecentPosts.
  unfold catch, mbind, lift, Date_now, throw, console_error.
  cbv beta iota zeta. rewrite Hstore. cbn [error data]. unfold ret.
  rewrite Hthrow. reflexivity.
Qed.

End Service.

End AggregatorFacts.

Lemma identifyTrends_store_error_witness :
  fst (TrendAnalysis.identifyTrends Samples.store_down TrendAnalysis.week
         Examples.w0)
  = Ok [].
Proof.
  rewrite (@identifyTrends_store_error Samples.store_down TrendAnalysis.week
             Examples.w0 "connection refused"%string).
  - reflexivity.
  - intro startTime. reflexivity.
Defined.

Lemma identifyTrends_inherited_hashtag_witness :
  fst (TrendAnalysis.identifyTrends Samples.store_with_bare_tag
         TrendAnalysis.hour Examples.w0)
  = Ok [].
Proof.
  rewrite (@identifyTrends_inherited_hashtag Samples.store_with_bare_tag
             TrendAnalysis.hour Examples.w0 [Samples.bare_tag_post]
             Samples.bare_tag_post "Constructor"%string).
  - reflexivity.
  - intro startTime. reflexivity.
  - left. reflexivity.
  - left. reflexivity.
  - left. reflexivity.
Defined.

(* ================================================================== *)
(** * Properties of the parts of a trend *)
(* ================================================================== *)

(** ** A map filled in one pass over a list *)

Section FoldByKey.

Context {K A V : Type} (eqb : K -> K -> bool).
Hypothesis eqb_eq : forall a b, eqb a b = true <-> a = b.

Variable key : A -> K.
Variable step : option V -> A -> V.
Variable summary : list A -> V.

Hypothesis step_first : forall a, step None a = summary [a].
Hypothesis step_next :
  forall l a, l <> [] -> step (Some (summary l)) a = summary (l ++ [a]).

Lemma JSMap_set_set (m : list (K * V)) (k : K) (v v' : V) :
  JSMap.set eqb (JSMap.set eqb m k v) k v' = JSMap.set eqb m k v'.
Proof.
  assert (Hrefl : eqb k k = true) by (apply eqb_eq; reflexivity).
  induction m as [|[k0 v0] m IH]; simpl.
  - rewrite Hrefl. reflexivity.
  - destruct (eqb k0 k) eqn:Hk; simpl; rewrite Hk; [reflexivity |].
    rewrite IH. reflexivity.
Qed.

(** After the pass the keys are distinct, and a key holds the summary
    of the elements that have it, in order. *)
Lemma fold_by_key (xs : list A) :
  let filled :=
    fold_left
      (fun m a => JSMap.set eqb m (key a) (step (JSMap.get eqb m (key a)) a))
      xs [] in
  NoDup (map fst filled)
  /\ forall k,
       JSMap.get eqb filled k
       = match filter (fun a => eqb (key a) k) xs with
         | [] => None
         | members => Some (summary members)
         end.
Proof.
  cbn zeta. induction xs as [|a xs IH] using rev_ind.
  - simpl. split; [constructor | reflexivity].
  - rewrite fold_left_app. cbn [fold_left].
    destruct IH as (Hkeys & Hget). split.
    + apply (JSMap_set_NoDup eqb eqb_eq), Hkeys.
    + intro k. rewrite (JSMap_get_set eqb eqb_eq), filter_app.
      cbn [filter]. rewrite (Hget (key a)), (Hget k).
      destruct (eqb (key a) k) eqn:Hk.
      * apply eqb_eq in Hk. subst k.
        destruct (filter (fun a0 => eqb (key a0) (key a)) xs)
          as [|b members]; simpl.
        -- rewrite step_first. reflexivity.
        -- rewrite step_next by discriminate. reflexivity.
      * rewrite app_nil_r. reflexivity.
Qed.

Lemma fold_by_key_In (xs : list A) (k : K) (v : V) :
  In (k, v)
    (fold_left
       (fun m a => JSMap.set eqb m (key a) (step (JSMap.get eqb m (key a)) a))
       xs [])
  <-> filter (fun a => eqb (key a) k) xs <> []
      /\ v = summary (filter (fun a => eqb (key a) k) xs).
Proof.
  destruct (fold_by_key xs) as (Hkeys & Hget). cbn zeta in Hkeys, Hget.
  split.
  - intro Hin. apply (JSMap_In_get eqb eqb_eq _ _ _ Hkeys) in Hin.
    rewrite Hget in Hin.
    destruct (filter (fun a => eqb (key a) k) xs); [discriminate |].
    injection Hin as <-. split; [discriminate | reflexivity].
  - intros (Hsome & ->). apply (JSMap_get_In eqb eqb_eq).
    rewrite Hget.
    destruct (filter (fun a => eqb (key a) k) xs); [contradiction |].
    reflexivity.
Qed.

End FoldByKey.

Section DetailFacts.

Import TrendAnalysis TrendDetail Specs.
Local Open Scope Q_scope.

Lemma fold_left_ext {A B} (f g : B -> A -> B) (xs : list A) :
  (forall b a, f b a = g b a) ->
  forall init, fold_left f xs init = fold_left g xs init.
Proof.
  intro Hext. induction xs as [|x xs IH]; intro init; simpl.
  - reflexivity.
  - rewrite Hext. apply IH.
Qed.

Lemma NoDup_firstn {A} (n : nat) (l : list A) :
  NoDup l -> NoDup (firstn n l).
Proof.
  intro Hl. rewrite <- (firstn_skipn n l) in Hl.
  exact (NoDup_app_remove_r _ _ Hl).
Qed.

(** ** The dominant sentiment *)

Lemma tally_from (posts : list Post.t) :
  forall a b c : nat,
    fold_left
      (fun '(positive, negative, neutral) post =>
         match label (Post.sentiment post) with
         | Positive => (S positive, negative, neutral)
         | Negative => (positive, S negative, neutral)
         | Neutral => (positive, negative, S neutral)
         | Mixed => (positive, negative, neutral)
         end)
      posts (a, b, c)
    = ((a + List.length (with_label Positive posts))%nat,
       (b + List.length (with_label Negative posts))%nat,
       (c + List.length (with_label Neutral posts))%nat).
Proof.
  unfold with_label.
  induction posts as [|post posts IH]; intros a b c; simpl.
  - repeat f_equal; lia.
  - destruct (label (Post.sentiment post)); rewrite IH; simpl;
      repeat f_equal; lia.
Qed.

Lemma with_label_total (posts : list Post.t) :
  (List.length (with_label Positive posts)
   + List.length (with_label Negative posts)
   + List.length (with_label Neutral posts)
   + List.length (with_label Mixed posts))%nat
  = List.length posts.
Proof.
  unfold with_label.
  induction posts as [|post posts IH]; simpl; [reflexivity |].
  destruct (label (Post.sentiment post)); simpl; lia.
Qed.

(** More than 60 per cent, as a test on the two counts. *)
Lemma share_above_060 (m n : nat) :
  (m <= n)%nat ->
  number_gtb (js_div (Qnat m) (Qnat n)) 0.6 = (3 * n <? 5 * m)%nat.
Proof.
  intro Hmn. destruct (Nat.eq_dec n 0) as [-> | Hn].
  - assert (m = O) by lia. subst m. reflexivity.
  - rewrite js_div_finite by lia. cbn [number_gtb].
    assert (Hpos : 0 < Qnat n) by (apply Qnat_pos; lia).
    destruct (3 * n <? 5 * m)%nat eqn:Htest.
    + apply Nat.ltb_lt in Htest. apply Qgtb_true.
      apply Qlt_shift_div_l; [exact Hpos |].
      assert (Hq : inject_Z (3 * Z.of_nat n) < inject_Z (5 * Z.of_nat m))
        by (rewrite <- Zlt_Qlt; lia).
      rewrite !inject_Z_mult in Hq. fold (Qnat n) in Hq. fold (Qnat m) in Hq.
      change (inject_Z 3) with 3 in Hq. change (inject_Z 5) with 5 in Hq.
      lra.
    + apply Nat.ltb_ge in Htest. apply Qgtb_false.
      apply Qle_shift_div_r; [exact Hpos |].
      assert (Hq : inject_Z (5 * Z.of_nat m) <= inject_Z (3 * Z.of_nat n))
        by (rewrite <- Zle_Qle; lia).
      rewrite !inject_Z_mult in Hq. fold (Qnat n) in Hq. fold (Qnat m) in Hq.
      change (inject_Z 3) with 3 in Hq. change (inject_Z 5) with 5 in Hq.
      lra.
Qed.

(** X18.  [getDominantSentiment] answers positive, negative or neutral
    exactly when more than 60 per cent of the posts carry that label,
    and mixed in every other case; posts labelled mixed count in the
    total only. *)
Theorem getDominantSentiment_above_060 (posts : list Post.t) :
  (getDominantSentiment posts = Positive
   <-> (3 * List.length posts
        < 5 * List.length (with_label Positive posts))%nat)
  /\ (getDominantSentiment posts = Negative
      <-> (3 * List.length posts
           < 5 * List.length (with_label Negative posts))%nat)
  /\ (getDominantSentiment posts = Neutral
      <-> (3 * List.length posts
           < 5 * List.length (with_label Neutral posts))%nat)
  /\ (getDominantSentiment posts = Mixed
      <-> forall l,
            l <> Mixed ->
            (5 * List.length (with_label l posts)
             <= 3 * List.length posts)%nat).
Proof.
  unfold getDominantSentiment, tally. rewrite tally_from. cbn [Nat.add].
  pose proof (with_label_total posts) as Htotal.
  set (p := List.length (with_label Positive posts)) in *.
  set (q := List.length (with_label Negative posts)) in *.
  set (u := List.length (with_label Neutral posts)) in *.
  set (n := List.length posts) in *.
  rewrite share_above_060 by lia.
  destruct (3 * n <? 5 * Nat.max (Nat.max p q) u)%nat eqn:Hshare.
  - apply Nat.ltb_lt in Hshare.
    destruct (Nat.eqb_spec p (Nat.max (Nat.max p q) u)) as [Hp | Hp];
      [| destruct (Nat.eqb_spec q (Nat.max (Nat.max p q) u)) as [Hq | Hq]].
    + repeat split; intros; try discriminate; try lia.
      exfalso. assert (5 * p <= 3 * n)%nat; [| lia].
      fold p. apply (H Positive). discriminate.
    + repeat split; intros; try discriminate; try lia.
      exfalso. assert (5 * q <= 3 * n)%nat; [| lia].
      fold q. apply (H Negative). discriminate.
    + repeat split; intros; try discriminate; try lia.
      exfalso. assert (5 * u <= 3 * n)%nat; [| lia].
      fold u. apply (H Neutral). discriminate.
  - apply Nat.ltb_ge in Hshare.
    repeat split; intros; try discriminate; try lia.
    destruct l; try contradiction; fold p; fold q; fold u; lia.
Qed.

(** ** The timeline *)

Lemma add_to_hour_step (hourlyGroups : list (Z * list Post.t))
    (post : Post.t) :
  add_to_hour hourlyGroups post
  = JSMap.set Z.eqb hourlyGroups (hour_of (Post.timestamp post))
      (appended
         (JSMap.get Z.eqb hourlyGroups (hour_of (Post.timestamp post)))
         post).
Proof.
  unfold add_to_hour, JSMap.has. cbv zeta.
  destruct (JSMap.get Z.eqb hourlyGroups (hour_of (Post.timestamp post)))
    as [members |] eqn:Hget; cbn [negb appended].
  - rewrite Hget. reflexivity.
  - rewrite (JSMap_get_set Z.eqb Z.eqb_eq), Z.eqb_refl.
    apply (JSMap_set_set Z.eqb Z.eqb_eq).
Qed.

Lemma hourly_groups (posts : list Post.t) :
  fold_left add_to_hour posts []
  = fold_left
      (fun m post =>
         JSMap.set Z.eqb m (hour_of (Post.timestamp post))
           (appended (JSMap.get Z.eqb m (hour_of (Post.timestamp post)))
              post))
      posts [].
Proof.
  apply fold_left_ext. apply add_to_hour_step.
Qed.

Lemma hourly_groups_In (posts : list Post.t) (hour : Z)
    (members : list Post.t) :
  In (hour, members) (fold_left add_to_hour posts [])
  <-> in_hour hour posts <> [] /\ members = in_hour hour posts.
Proof.
  rewrite hourly_groups. unfold in_hour.
  apply (fold_by_key_In Z.eqb Z.eqb_eq
           (fun post => hour_of (Post.timestamp post)) appended
           (fun members => members)).
  - reflexivity.
  - reflexivity.
Qed.

Lemma hourly_groups_keys (posts : list Post.t) :
  NoDup (map fst (fold_left add_to_hour posts [])).
Proof.
  rewrite hourly_groups.
  apply (fold_by_key Z.eqb Z.eqb_eq
           (fun post => hour_of (Post.timestamp post)) appended
           (fun members => members)).
  - reflexivity.
  - reflexivity.
Qed.

Lemma set_appended_sizes {K} (eqb : K -> K -> bool)
    (groups : list (K * list Post.t)) (k : K) (post : Post.t) :
  group_sizes
    (JSMap.set eqb groups k (appended (JSMap.get eqb groups k) post))
  = S (group_sizes groups).
Proof.
  unfold group_sizes.
  induction groups as [|[k0 members] groups IH]; simpl.
  - reflexivity.
  - destruct (eqb k0 k); simpl.
    + rewrite length_app. simpl. lia.
    + rewrite IH. lia.
Qed.

Lemma hourly_groups_sizes (posts : list Post.t) :
  group_sizes (fold_left add_to_hour posts []) = List.length posts.
Proof.
  induction posts as [|post posts IH] using rev_ind; [reflexivity |].
  rewrite fold_left_app, length_app. cbn [fold_left List.length].
  rewrite add_to_hour_step, set_appended_sizes, IH. lia.
Qed.

Lemma timeline_mentions (groups : list (Z * list Post.t)) :
  sum_Z (map mentions (map timeline_point groups))
  = Z.of_nat (group_sizes groups).
Proof.
  unfold sum_Z, group_sizes.
  induction groups as [|[hour members] groups IH]; simpl; [reflexivity |].
  rewrite IH. lia.
Qed.

Lemma sum_Z_perm (l l' : list Z) : Permutation l l' -> sum_Z l = sum_Z l'.
Proof.
  unfold sum_Z. induction 1; simpl; lia.
Qed.

Lemma sort_ext {A} (cmp cmp' : A -> A -> Q) (l : list A) :
  (forall a b, Qle_bool (cmp a b) 0 = Qle_bool (cmp' a b) 0) ->
  sort cmp l = sort cmp' l.
Proof.
  intro Hext. induction l as [|a l IH]; simpl; [reflexivity |].
  rewrite IH. generalize (sort cmp' l). intro sorted.
  induction sorted as [|b sorted IHs]; simpl; [reflexivity |].
  rewrite Hext, IHs. reflexivity.
Qed.

Lemma ascending_strict {A} (time : A -> Z) (l : list A) :
  StronglySorted
    (fun x y => - inject_Z (time y) <= - inject_Z (time x)) l ->
  NoDup (map time l) ->
  StronglySorted (fun x y => (time x < time y)%Z) l.
Proof.
  induction 1 as [|a l Hl IH Ha]; intro Hnodup; simpl in Hnodup.
  - constructor.
  - inversion Hnodup as [|? ? Hfresh Hrest]; subst.
    constructor; [exact (IH Hrest) |].
    rewrite Forall_forall in Ha |- *. intros y Hy.
    assert (Hle : inject_Z (time a) <= inject_Z (time y))
      by (specialize (Ha y Hy); lra).
    rewrite <- Zle_Qle in Hle.
    assert (Hne : time a <> time y).
    { intro Heq. apply Hfresh. rewrite Heq. apply in_map. exact Hy. }
    lia.
Qed.

(** X19.  The timeline has one point for every hour that holds a post,
    in the order of time, and no hour twice; a point reports the number
    of the posts of its hour, their likes, shares and comments, and their
    dominant sentiment, so that the mentions of all the points add up to
    the number of posts. *)
Theorem createTrendTimeline_hours (posts : list Post.t) :
  StronglySorted (fun a b => (timestamp a < timestamp b)%Z)
    (createTrendTimeline posts)
  /\ sum_Z (map mentions (createTrendTimeline posts))
     = Z.of_nat (List.length posts)
  /\ (forall point,
        In point (createTrendTimeline posts) ->
        in_hour (timestamp point) posts <> []
        /\ mentions point
           = Z.of_nat (List.length (in_hour (timestamp point) posts))
        /\ engagement point
           = total_interactions (in_hour (timestamp point) posts)
        /\ sentiment point
           = getDominantSentiment (in_hour (timestamp point) posts))
  /\ (forall post,
        In post posts ->
        exists point,
          In point (createTrendTimeline posts)
          /\ timestamp point = hour_of (Post.timestamp post)).
Proof.
  unfold createTrendTimeline.
  set (groups := fold_left add_to_hour posts []).
  set (cmp := fun a b : TimelinePoint =>
                inject_Z (timestamp a) - inject_Z (timestamp b)).
  assert (Hperm : Permutation (sort cmp (map timeline_point groups))
                    (map timeline_point groups)) by apply sort_perm.
  assert (Hhours : map timestamp (map timeline_point groups)
                   = map fst groups).
  { rewrite map_map. apply map_ext. intros [hour members]. reflexivity. }
  split; [| split; [| split]].
  - apply ascending_strict.
    + rewrite (sort_ext cmp
                 (fun a b => - inject_Z (timestamp b)
                             - - inject_Z (timestamp a))).
      * apply (sort_sorted (fun point => - inject_Z (timestamp point))).
      * intros a b. unfold cmp. apply Bool.eq_true_iff_eq.
        rewrite !Qle_bool_iff. split; intro; lra.
    + apply (Permutation_NoDup
               (Permutation_map timestamp (Permutation_sym Hperm))).
      rewrite Hhours. apply hourly_groups_keys.
  - rewrite (sum_Z_perm (Permutation_map mentions Hperm)).
    rewrite timeline_mentions. unfold groups.
    rewrite hourly_groups_sizes. reflexivity.
  - intros point Hin. apply (proj1 (sort_In _ _ _)) in Hin.
    apply in_map_iff in Hin. destruct Hin as ([hour members] & <- & Hin).
    apply hourly_groups_In in Hin. destruct Hin as (Hsome & ->).
    cbn [timeline_point timestamp mentions engagement sentiment].
    repeat split. exact Hsome.
  - intros post Hpost.
    set (hour := hour_of (Post.timestamp post)).
    assert (Hmine : In post (in_hour hour posts)).
    { apply filter_In. split; [exact Hpost | apply Z.eqb_refl]. }
    exists (timeline_point (hour, in_hour hour posts)).
    split; [| reflexivity].
    apply sort_In. apply in_map. apply hourly_groups_In.
    split; [| reflexivity].
    intro Hnone. rewrite Hnone in Hmine. contradiction.
Qed.

(** ** The influencers *)

Lemma add_to_author_step (authorStats : list (string * (nat * Z)))
    (post : Post.t) :
  add_to_author authorStats post
  = JSMap.set String.eqb authorStats (Post.author post)
      (counted (JSMap.get String.eqb authorStats (Post.author post)) post).
Proof.
  unfold add_to_author, counted.
  destruct (JSMap.get String.eqb authorStats (Post.author post))
    as [[count total] |]; reflexivity.
Qed.

Lemma author_stats (posts : list Post.t) :
  NoDup (map fst (fold_left add_to_author posts []))
  /\ forall author stats,
       In (author, stats) (fold_left add_to_author posts [])
       <-> by_author author posts <> []
           /\ stats = author_summary (by_author author posts).
Proof.
  rewrite (fold_left_ext add_to_author _ posts add_to_author_step).
  assert (Hfirst : forall post, counted None post = author_summary [post])
    by reflexivity.
  assert (Hnext : forall l post,
             l <> [] ->
             counted (Some (author_summary l)) post
             = author_summary (l ++ [post])).
  { intros l post _. unfold counted, author_summary, total_interactions.
    rewrite length_app, fold_left_app. simpl. f_equal. lia. }
  split.
  - apply (fold_by_key String.eqb String.eqb_eq Post.author counted
             author_summary Hfirst Hnext).
  - intros author stats. unfold by_author.
    apply (fold_by_key_In String.eqb String.eqb_eq Post.author counted
             author_summary Hfirst Hnext).
Qed.

(** X20.  [identifyInfluencers] names at most five authors, none of
    them twice.  Each has written a post of the list; the engagement
    rate is the likes, shares and comments of the author's posts over
    their number, the influence is the same total over the number of all
    posts, and the recent posts are the author's first three. *)
Theorem identifyInfluencers_top_five (posts : list Post.t) :
  (List.length (identifyInfluencers posts) <= 5)%nat
  /\ NoDup (map username (identifyInfluencers posts))
  /\ forall influencer,
       In influencer (identifyInfluencers posts) ->
       by_author (username influencer) posts <> []
       /\ id influencer = username influencer
       /\ engagementRate influencer
          = inject_Z
              (total_interactions (by_author (username influencer) posts))
            / Qnat (List.length (by_author (username influencer) posts))
       /\ influence influencer
          = inject_Z
              (total_interactions (by_author (username influencer) posts))
            / Qnat (List.length posts)
       /\ recentPosts influencer
          = firstn 3 (by_author (username influencer) posts).
Proof.
  unfold identifyInfluencers, slice0.
  destruct (author_stats posts) as (Hkeys & Hstats).
  set (stats := fold_left add_to_author posts []) in *.
  set (cmp := fun a b : string * (nat * Z) =>
                inject_Z (snd (snd b)) - inject_Z (snd (snd a))).
  split; [| split].
  - rewrite length_map, length_firstn. lia.
  - rewrite map_map.
    rewrite (map_ext (fun entry => username (influencer_of posts entry)) fst).
    + rewrite <- firstn_map. apply NoDup_firstn.
      apply (Permutation_NoDup
               (Permutation_map fst (Permutation_sym (sort_perm cmp stats)))).
      exact Hkeys.
    + intros [author [count total]]. reflexivity.
  - intros influencer Hin. apply in_map_iff in Hin.
    destruct Hin as ([author [count total]] & <- & Hin).
    apply In_firstn in Hin. apply (proj1 (sort_In _ _ _)) in Hin.
    apply Hstats in Hin. destruct Hin as (Hsome & Hsummary).
    unfold author_summary in Hsummary. injection Hsummary as -> ->.
    cbn [influencer_of username id engagementRate influence recentPosts].
    repeat split. exact Hsome.
Qed.

(** ** Related topics *)

Lemma fold_left_flat_map {A B C} (f : C -> B -> C) (g : A -> list B)
    (xs : list A) :
  forall init,
    fold_left f (flat_map g xs) init
    = fold_left (fun acc x => fold_left f (g x) acc) xs init.
Proof.
  induction xs as [|x xs IH]; intro init; simpl; [reflexivity |].
  rewrite fold_left_app. apply IH.
Qed.

Lemma fold_set_add_if {A} (test : A -> bool) (f : A -> string)
    (xs : list A) :
  forall init,
    NoDup init ->
    NoDup
      (fold_left (fun set x => if test x then set_add set (f x) else set)
         xs init)
    /\ forall y,
         In y
           (fold_left
              (fun set x => if test x then set_add set (f x) else set)
              xs init) ->
         In y init \/ exists x, In x xs /\ test x = true /\ y = f x.
Proof.
  induction xs as [|x xs IH]; intros init Hinit; simpl.
  - split; [exact Hinit | auto].
  - destruct (test x) eqn:Htest.
    + destruct (IH (set_add init (f x)) (set_add_NoDup (f x) Hinit))
        as (Hnodup & Hin).
      split; [exact Hnodup |]. intros y Hy.
      destruct (Hin y Hy) as [Hold | (x' & Hx' & Ht & ->)].
      * apply set_add_In in Hold. destruct Hold as [Hold | ->];
          [left; exact Hold | right; exists x; auto].
      * right. exists x'. auto.
    + destruct (IH init Hinit) as (Hnodup & Hin).
      split; [exact Hnodup |]. intros y Hy.
      destruct (Hin y Hy) as [Hold | (x' & Hx' & Ht & ->)];
        [left; exact Hold | right; exists x'; auto].
Qed.

(** X21.  [findRelatedTopics] returns at most ten topics, all distinct
    and in lower case; each is a hashtag of one of the posts, and none
    is the topic itself, however the two are capitalised. *)
Theorem findRelatedTopics_related (topic : string) (posts : list Post.t) :
  (List.length (findRelatedTopics topic posts) <= 10)%nat
  /\ NoDup (findRelatedTopics topic posts)
  /\ forall related,
       In related (findRelatedTopics topic posts) ->
       related <> toLowerCase topic
       /\ lower_case related
       /\ exists post hashtag,
            In post posts
            /\ In hashtag (hashtags (Post.metadata post))
            /\ related = toLowerCase hashtag.
Proof.
  unfold findRelatedTopics, slice0.
  rewrite <- (fold_left_flat_map
                (fun related hashtag =>
                   if negb (String.eqb (toLowerCase hashtag)
                              (toLowerCase topic))
                   then set_add related (toLowerCase hashtag)
                   else related)
                (fun post => hashtags (Post.metadata post))).
  destruct (fold_set_add_if
              (fun hashtag =>
                 negb (String.eqb (toLowerCase hashtag) (toLowerCase topic)))
              toLowerCase
              (flat_map (fun post => hashtags (Post.metadata post)) posts)
              (NoDup_nil string))
    as (Hnodup & Hin).
  split; [| split].
  - rewrite length_firstn. lia.
  - apply NoDup_firstn, Hnodup.
  - intros related Hrelated. apply In_firstn in Hrelated.
    destruct (Hin related Hrelated) as [[] | (hashtag & Hh & Htest & ->)].
    split; [| split].
    + intro Heq. rewrite Heq, String.eqb_refl in Htest. discriminate.
    + apply toLowerCase_idempotent.
    + apply in_flat_map in Hh. destruct Hh as (post & Hpost & Hh).
      exists post, hashtag. auto.
Qed.

(** ** The primary platform *)

Lemma SocialPlatform_beq_eq (a b : SocialPlatform) :
  SocialPlatform_beq a b = true <-> a = b.
Proof.
  destruct a, b; simpl; split; intro H;
    first [reflexivity | discriminate H].
Qed.

Lemma count_platform_step (counts : list (SocialPlatform * nat))
    (post : Post.t) :
  count_platform counts (Post.platform post)
  = JSMap.set SocialPlatform_beq counts (Post.platform post)
      (incremented
         (JSMap.get SocialPlatform_beq counts (Post.platform post)) post).
Proof.
  generalize (Post.platform post). intro p.
  induction counts as [|[q n] counts IH]; simpl.
  - reflexivity.
  - destruct (SocialPlatform_beq q p); [reflexivity |].
    rewrite IH. reflexivity.
Qed.

Lemma platform_counts (posts : list Post.t) (platform : SocialPlatform)
    (count : nat) :
  In (platform, count)
    (fold_left (fun counts post => count_platform counts (Post.platform post))
       posts [])
  <-> on_platform platform posts <> []
      /\ count = List.length (on_platform platform posts).
Proof.
  rewrite (fold_left_ext
             (fun counts post => count_platform counts (Post.platform post))
             _ posts count_platform_step).
  unfold on_platform.
  apply (fold_by_key_In SocialPlatform_beq SocialPlatform_beq_eq
           Post.platform incremented (@List.length Post.t)).
  - reflexivity.
  - intros l post _. unfold incremented. rewrite length_app. simpl. lia.
Qed.

(** The scan for the largest count. *)
Lemma largest_count (counts : list (SocialPlatform * nat)) :
  forall (maxCount : nat) (primaryPlatform : SocialPlatform),
    let found :=
      fold_left
        (fun '(maxCount, primaryPlatform) '(platform, count) =>
           if (maxCount <? count)%nat then (count, platform)
           else (maxCount, primaryPlatform))
        counts (maxCount, primaryPlatform) in
    (forall platform count,
        In (platform, count) counts -> (count <= fst found)%nat)
    /\ (maxCount <= fst found)%nat
    /\ (found = (maxCount, primaryPlatform)
        \/ In (snd found, fst found) counts).
Proof.
  induction counts as [|[q c] counts IH]; intros m p; cbn zeta; simpl.
  - split; [intros ? ? [] |]. split; [lia | left; reflexivity].
  - destruct (m <? c)%nat eqn:Hlt.
    + apply Nat.ltb_lt in Hlt.
      destruct (IH c q) as (Hall & Hge & Hfound). cbn zeta in *.
      split; [| split].
      * intros platform count [Heq | Hin];
          [injection Heq as <- <-; exact Hge | exact (Hall _ _ Hin)].
      * lia.
      * right. destruct Hfound as [-> | Hin]; [left; reflexivity |].
        right. exact Hin.
    + apply Nat.ltb_ge in Hlt.
      destruct (IH m p) as (Hall & Hge & Hfound). cbn zeta in *.
      split; [| split].
      * intros platform count [Heq | Hin];
          [injection Heq as <- <-; lia | exact (Hall _ _ Hin)].
      * exact Hge.
      * destruct Hfound as [-> | Hin]; [left; reflexivity |].
        right. right. exact Hin.
Qed.

(** X22.  No platform has more posts in the list than the platform that
    [determinePrimaryPlatform] returns; for the empty list that is
    twitter. *)
Theorem determinePrimaryPlatform_plurality (posts : list Post.t)
    (platform : SocialPlatform) :
  (List.length (on_platform platform posts)
   <= List.length (on_platform (determinePrimaryPlatform posts) posts))%nat
  /\ determinePrimaryPlatform [] = twitter.
Proof.
  split; [| reflexivity].
  unfold determinePrimaryPlatform.
  set (counts :=
         fold_left
           (fun counts post => count_platform counts (Post.platform post))
           posts []).
  destruct (largest_count counts O twitter) as (Hall & _ & Hfound).
  cbn zeta in Hall, Hfound.
  set (found :=
         fold_left
           (fun '(maxCount, primaryPlatform) '(platform, count) =>
              if (maxCount <? count)%nat then (count, platform)
              else (maxCount, primaryPlatform))
           counts (O, twitter)) in *.
  assert (Hmine : (List.length (on_platform platform posts) <= fst found)%nat).
  { destruct (on_platform platform posts) as [|post mine] eqn:Hmine;
      [simpl; lia |].
    rewrite <- Hmine. apply (Hall platform). apply platform_counts.
    split; [rewrite Hmine; discriminate | reflexivity]. }
  destruct Hfound as [Hnone | Hin].
  - rewrite Hnone in Hmine. simpl in Hmine. lia.
  - apply platform_counts in Hin. destruct Hin as (_ & Hcount).
    rewrite <- Hcount. exact Hmine.
Qed.

End DetailFacts.

(* ================================================================== *)
(** * Further properties of the services *)
(* ================================================================== *)

Section SignificanceFacts.

Import TrendAnalysis Specs.
Local Open Scope Q_scope.

Lemma Qdiv_one (x : Q) : x / 1 == x.
Proof.
  field.
Qed.

Lemma calculateTrendMetrics_within_hour (posts : list Post.t)
    (metrics : Trend.Metrics) :
  calculateTrendMetrics posts = Ok metrics ->
  (time_span posts <= 3600000)%Z ->
  Trend.mentions metrics = Z.of_nat (List.length posts)
  /\ Trend.growthRate metrics == Qnat (List.length posts)
  /\ Trend.velocity metrics == inject_Z (total_interactions posts).
Proof.
  unfold calculateTrendMetrics. destruct posts as [|first rest];
    [discriminate |].
  intros Hmetrics Hspan. injection Hmetrics as <-.
  cbn [Trend.mentions Trend.growthRate Trend.velocity].
  apply hours_at_most_one in Hspan. unfold time_span in Hspan.
  split; [reflexivity |].
  unfold total_interactions.
  rewrite (Q.max_l _ _ Hspan). split; apply Qdiv_one.
Qed.

(** X23.  For a group whose first post is at most one hour after its
    last, the trend that [analyzeTrend] builds passes
    [isSignificantTrend] exactly when the group has ten posts or more
    and their likes, shares and comments add up to 100 or more: the
    threshold on the growth rate decides nothing there. *)
Theorem isSignificantTrend_within_hour (topic : string)
    (posts : list Post.t) (w : World) (trend : Trend.t) (w' : World) :
  analyzeTrend topic posts w = (Ok (Some trend), w') ->
  (time_span posts <= 3600000)%Z ->
  isSignificantTrend trend = true
  <-> (10 <= List.length posts)%nat
      /\ (100 <= total_interactions posts)%Z.
Proof.
  intros Hrun Hspan. apply analyzeTrend_Some in Hrun.
  destruct Hrun as (_ & Hmetrics & _).
  destruct (calculateTrendMetrics_within_hour _ Hmetrics Hspan)
    as (Hmentions & Hgrowth & Hvelocity).
  rewrite isSignificantTrend_true, Hmentions, Hgrowth, Hvelocity.
  change 100 with (inject_Z 100). rewrite <- Zle_Qle.
  split.
  - intros (Hten & Hfast & _). split; [lia | exact Hfast].
  - intros (Hten & Hfast). split; [lia |]. split; [exact Hfast |].
    assert (Hq : inject_Z 2 <= Qnat (List.length posts))
      by (unfold Qnat; rewrite <- Zle_Qle; lia).
    exact Hq.
Qed.

End SignificanceFacts.

Lemma isSignificantTrend_within_hour_witness :
  exists trend w',
    Samples.busy_hour_run = (Ok (Some trend), w')
    /\ TrendAnalysis.isSignificantTrend trend = true.
Proof.
  unfold Samples.busy_hour_run. do 2 eexists.
  split; [reflexivity |].
  refine (proj2 (@isSignificantTrend_within_hour "#climate"%string
                   Samples.busy_hour_posts Examples.w0 _ _ _ _) _).
  - vm_compute. reflexivity.
  - vm_compute. discriminate.
  - split; [vm_compute; lia | vm_compute; discriminate].
Defined.

Section ServiceFacts.

Import RAG Specs.
Local Open Scope Q_scope.

Variable env : Collaborators.


(** X25.  The outcome of [query] is decided by the generator alone,
    whatever the store holds: when the generator fails, [query] rethrows
    its error after a line on the console; when it answers [null],
    [query] throws a type error; in every other case [query] returns a
    record whose results are the generator's answer.  The query log is
    never written. *)
Theorem query_outcome (text : string) (filters : option QueryFilters)
    (w : World) :
  rag_queries (snd (query env text filters w)) = rag_queries w
  /\ match fetchHuggingFace env text with
     | Throw e =>
         fst (query env text filters w) = Throw e
         /\ hd_error (console (snd (query env text filters w)))
            = Some "Error in RAG query:"%string
     | Ok JNull =>
         fst (query env text filters w)
         = Throw "TypeError: Cannot read properties of null"
         /\ hd_error (console (snd (query env text filters w)))
            = Some "Error in RAG query:"%string
     | Ok response =>
         exists record,
           fst (query env text filters w) = Ok record
           /\ RAGQuery.results record = Json response
     end.
Proof.
  unfold query, mbind, catch, Date_now.
  match goal with
  | |- context [retrieveContent env text filters ?w1] =>
      destruct (retrieveContent_run env text filters w1)
        as (w2 & Hrun & Hclock & Hticks & Hlog)
  end.
  rewrite Hrun. unfold generateInsights, mbind, lift, ret.
  destruct (fetchHuggingFace env text) as [response | e];
    cbn -[length_of string_of_Z].
  - destruct response; cbn -[string_of_Z];
      (split; [exact Hlog |]);
      first [ split; reflexivity | eexists; split; reflexivity ].
  - split; [exact Hlog | split; reflexivity].
Qed.

End ServiceFacts.

Section SummaryFacts.

Import RAG DataCollection Specs.
Local Open Scope Q_scope.

Lemma string_app_assoc (a b c : string) :
  ((a ++ b) ++ c = a ++ (b ++ c))%string.
Proof.
  induction a as [|x a IH]; simpl; [reflexivity |].
  rewrite IH. reflexivity.
Qed.

Lemma string_app_nil_r (a : string) : (a ++ EmptyString)%string = a.
Proof.
  induction a as [|x a IH]; simpl; [reflexivity |].
  rewrite IH. reflexivity.
Qed.

Lemma rev_string_acc (s : string) :
  forall acc, rev_string acc s = (rev_string EmptyString s ++ acc)%string.
Proof.
  induction s as [|c s IH]; intro acc; simpl; [reflexivity |].
  rewrite (IH (String c acc)), (IH (String c EmptyString)).
  rewrite string_app_assoc. reflexivity.
Qed.

(** A string without separator is one piece. *)
Lemma split_runs_one_piece (sep : ascii -> bool) (s : string) :
  forall cur,
    all_chars (fun c => negb (sep c)) s = true ->
    split_runs sep false cur s = [(rev_string EmptyString cur ++ s)%string].
Proof.
  induction s as [|c s IH]; intros cur Hall; simpl in *.
  - rewrite string_app_nil_r. reflexivity.
  - apply andb_true_iff in Hall. destruct Hall as (Hc & Hall).
    apply negb_true_iff in Hc. rewrite Hc.
    rewrite (IH _ Hall). simpl.
    rewrite (rev_string_acc cur (String c EmptyString)).
    rewrite string_app_assoc. reflexivity.
Qed.

(** X26.  For a content without full stop, exclamation mark or question
    mark, [generateSummary] returns the content with a full stop at its
    end, and the full stop alone when the content is blank. *)
Theorem generateSummary_one_sentence (content : string) :
  all_chars (fun c => negb (is_sentence_end c)) content = true ->
  generateSummary content
  = if has_text content then (content ++ ".")%string else "."%string.
Proof.
  intro Hall. unfold generateSummary.
  rewrite (split_runs_one_piece is_sentence_end content EmptyString Hall).
  simpl. destruct (has_text content); reflexivity.
Qed.

(** ** Filters of the collector *)

Lemma existsb_false_Forall {A} (test : A -> bool) (l : list A) :
  existsb test l = false <-> Forall (fun x => test x = false) l.
Proof.
  induction l as [|a l IH]; simpl.
  - split; [constructor | reflexivity].
  - rewrite orb_false_iff, IH. split.
    + intros (Ha & Hl). constructor; assumption.
    + intro Hall. inversion Hall; subst. auto.
Qed.

(** X27.  [passesFilters] accepts a post exactly when its likes, shares
    and comments reach the minimum, its language is among the languages
    asked for if any are, and its content holds none of the excluded
    keywords, capitalisation aside; an empty excluded keyword therefore
    rejects every post. *)
Theorem passesFilters_accepts (filters : Filters) (post : Post.t) :
  (passesFilters filters post = true
   <-> minEngagement filters <= inject_Z (TrendAnalysis.interactions post)
       /\ (languages filters = []
           \/ In (language (Post.metadata post)) (languages filters))
       /\ Forall
            (fun keyword =>
               includes (toLowerCase (Post.content post))
                 (toLowerCase keyword) = false)
            (excludeKeywords filters))
  /\ (In EmptyString (excludeKeywords filters) ->
      passesFilters filters post = false).
Proof.
  assert (Hiff :
    passesFilters filters post = true
    <-> minEngagement filters <= inject_Z (TrendAnalysis.interactions post)
        /\ (languages filters = []
            \/ In (language (Post.metadata post)) (languages filters))
        /\ Forall
             (fun keyword =>
                includes (toLowerCase (Post.content post))
                  (toLowerCase keyword) = false)
             (excludeKeywords filters)).
  { unfold passesFilters, TrendAnalysis.interactions. cbv zeta.
    destruct (Qltb _ (minEngagement filters)) eqn:Hlow.
    - apply Qltb_true in Hlow.
      split; [discriminate | intros (Hmin & _); lra].
    - apply Qltb_false in Hlow.
      destruct (languages filters) as [|first others] eqn:Hlanguages.
      + cbn [List.length Nat.ltb Nat.leb andb].
        destruct (existsb _ (excludeKeywords filters)) eqn:Hany.
        * split; [discriminate |]. intros (_ & _ & Hnone).
          apply existsb_false_Forall in Hnone. congruence.
        * apply existsb_false_Forall in Hany.
          split; [intros _ | reflexivity]. auto.
      + cbn [List.length Nat.ltb Nat.leb andb].
        destruct (array_includes (first :: others)
                    (language (Post.metadata post))) eqn:Hlang;
          cbn [negb].
        * apply array_includes_In in Hlang.
          destruct (existsb _ (excludeKeywords filters)) eqn:Hany.
          -- split; [discriminate |]. intros (_ & _ & Hnone).
             apply existsb_false_Forall in Hnone. congruence.
          -- apply existsb_false_Forall in Hany.
             split; [intros _ | reflexivity]. auto.
        * split; [discriminate |].
          intros (_ & [Hnil | Hin] & _); [discriminate |].
          apply array_includes_In in Hin. congruence. }
  split; [exact Hiff |].
  intro Hempty. apply Bool.not_true_is_false. intro Hpass.
  apply Hiff in Hpass. destruct Hpass as (_ & _ & Hnone).
  rewrite Forall_forall in Hnone. specialize (Hnone _ Hempty).
  simpl toLowerCase in Hnone. rewrite includes_empty in Hnone.
  discriminate.
Qed.

(** ** Hashtags and mentions *)






End SummaryFacts.

Lemma generateSummary_one_sentence_witness :
  RAG.generateSummary "Heat wave in the north"
  = "Heat wave in the north."%string.
Proof.
  apply (generateSummary_one_sentence "Heat wave in the north").
  reflexivity.
Defined.
